(** * vCenter VM reconfiguration tools: a shallow embedding

    The two scripts under [tools/] talk to a vCenter server through pyVmomi:
    [add_ptp_to_vm.py] adds or removes the precision-clock (PTP) device of a
    virtual machine, [add_vmotion_notification_to_vm.py] reads and writes the
    two vmOpNotification settings.

    The management server is not part of the repository.  It is modelled
    here as a recording, scripted platform: every request the scripts send
    is appended to a trace, and the reaction to the n-th request is given by
    a function stored in the world.  Python code is translated function by
    function with explicit state passing over that world. *)

From Stdlib Require Import List ZArith String Bool Arith Lia DecimalString.
From Equations Require Import Equations.
Import ListNotations.
Open Scope string_scope.
Open Scope Z_scope.

Set Implicit Arguments.

(** ** Data model (the part of the vSphere object model the scripts touch) *)

(** [vim.VirtualMachinePowerState] *)
Inductive VirtualMachinePowerState := poweredOff | poweredOn | suspended.

Definition power_state_eqb (a b : VirtualMachinePowerState) : bool :=
  match a, b with
  | poweredOff, poweredOff | poweredOn, poweredOn | suspended, suspended => true
  | _, _ => false
  end.

(** [str(power_state)] as pyVmomi renders the enum. *)
Definition str_power_state (p : VirtualMachinePowerState) : string :=
  match p with
  | poweredOff => "poweredOff"
  | poweredOn => "poweredOn"
  | suspended => "suspended"
  end.

(** The classes of [vim.vm.device.*] a device list can hold; only
    [VirtualPrecisionClock] is ever tested for by the scripts. *)
Inductive DeviceClass :=
| VirtualPrecisionClock
| VirtualDisk
| VirtualEthernetCard
| VirtualOtherDevice.

Inductive Backing := SystemClockBackingInfo | OtherBacking.

Record VirtualDevice := {
  dev_class : DeviceClass;
  key : Z;
  backing : option Backing;
  label : string                     (* deviceInfo.label *)
}.

(** [isinstance(device, vim.vm.device.VirtualPrecisionClock)] *)
Definition is_precision_clock (d : VirtualDevice) : bool :=
  match dev_class d with VirtualPrecisionClock => true | _ => false end.

(** [vim.vm.device.VirtualDeviceSpec.Operation] *)
Inductive Operation := op_add | op_remove | op_edit.

Record VirtualDeviceSpec := {
  operation : Operation;
  device : VirtualDevice
}.

(** [vim.vm.ConfigSpec]: every field is optional; an unset field is
    [None] (or the empty list for [deviceChange]). *)
Record ConfigSpec := {
  deviceChange : list VirtualDeviceSpec;
  spec_vmOpNotificationToAppEnabled : option bool;
  spec_vmOpNotificationTimeout : option Z
}.

Definition empty_spec : ConfigSpec :=
  {| deviceChange := [];
     spec_vmOpNotificationToAppEnabled := None;
     spec_vmOpNotificationTimeout := None |}.

(** One virtual machine as the server holds it. *)
Record VM := {
  name : string;
  powerState : VirtualMachinePowerState;          (* runtime.powerState *)
  hardware_device : list VirtualDevice;            (* config.hardware.device *)
  vmOpNotificationToAppEnabled : option bool;      (* config.<field>, None = unset *)
  vmOpNotificationTimeout : option Z
}.

(** [vim.TaskInfo.State], with the fault of the error state.  A fault has
    the message the platform reports ([error.msg]) and its rendering by
    [str()]. *)
Record Fault := { msg : string; fault_str : string }.

Inductive TaskState :=
| queued
| running
| success
| error (f : Fault).

(** [task.info.state in [State.success, State.error]] *)
Definition is_terminal (s : TaskState) : bool :=
  match s with
  | success | error _ => true
  | queued | running => false
  end.

(** A task handle.  Reading [task.info.state] is a remote property fetch;
    [t k] is what the k-th read returns. *)
Definition Task := nat -> TaskState.

(** What a scripted task does: [delay] reads show [running], every later
    read shows the outcome. *)
Inductive TaskResult := Succeeds | Fails (f : Fault) | Hangs.

Record TaskPlan := { delay : nat; result : TaskResult }.

Definition task_of_plan (p : TaskPlan) : Task :=
  fun k =>
    if (k <? delay p)%nat then running
    else match result p with
         | Succeeds => success
         | Fails f => error f
         | Hangs => running
         end.

(** The server's reaction to a request: the call raises, or it returns a
    task. *)
Inductive Response :=
| Raises (e : string)
| Accepts (p : TaskPlan).

(** A managed-object reference to a VM: its position in the inventory. *)
Definition VmRef := nat.

(** What the platform and the process observe, in order. *)
Inductive Event :=
| PowerOffVM_Task (vm : VmRef)
| PowerOnVM_Task (vm : VmRef)
| ReconfigVM_Task (vm : VmRef) (spec : ConfigSpec)
| ReadTaskState (s : TaskState)        (* one read of task.info.state *)
| Sleep (seconds : Z).                 (* time.sleep *)

Record World := {
  inventory : list VM;          (* container.view, in enumeration order *)
  clock : Z;                    (* time.time(), in seconds *)
  trace : list Event;           (* oldest first *)
  stdout : list string;         (* printed lines, oldest first *)
  stderr : list string;         (* lines printed with file=sys.stderr *)
  reaction : nat -> Response    (* reaction to the n-th request of the run *)
}.

Definition is_request (e : Event) : bool :=
  match e with
  | PowerOffVM_Task _ | PowerOnVM_Task _ | ReconfigVM_Task _ _ => true
  | ReadTaskState _ | Sleep _ => false
  end.

Definition is_power_request (e : Event) : bool :=
  match e with
  | PowerOffVM_Task _ | PowerOnVM_Task _ => true
  | _ => false
  end.

Definition is_reconfig_request (e : Event) : bool :=
  match e with
  | ReconfigVM_Task _ _ => true
  | _ => false
  end.

(** The requests sent so far. *)
Definition requests (w : World) : list Event := filter is_request (trace w).

(** ** Primitive effects *)

Definition log (e : Event) (w : World) : World :=
  {| inventory := inventory w; clock := clock w; trace := trace w ++ [e];
     stdout := stdout w; stderr := stderr w; reaction := reaction w |}.

Definition print (line : string) (w : World) : World :=
  {| inventory := inventory w; clock := clock w; trace := trace w;
     stdout := stdout w ++ [line]; stderr := stderr w; reaction := reaction w |}.

Definition eprint (line : string) (w : World) : World :=
  {| inventory := inventory w; clock := clock w; trace := trace w;
     stdout := stdout w; stderr := stderr w ++ [line]; reaction := reaction w |}.

(** [time.sleep(n)]: the simulated clock moves only here. *)
Definition sleep (n : Z) (w : World) : World :=
  {| inventory := inventory w; clock := clock w + n;
     trace := trace w ++ [Sleep n];
     stdout := stdout w; stderr := stderr w; reaction := reaction w |}.

Definition set_inventory (inv : list VM) (w : World) : World :=
  {| inventory := inv; clock := clock w; trace := trace w;
     stdout := stdout w; stderr := stderr w; reaction := reaction w |}.

(** Reading [task.info.state] for the k-th time. *)
Definition read_state (t : Task) (k : nat) (w : World) : TaskState * World :=
  (t k, log (ReadTaskState (t k)) w).

(** [str(n)] for an integer. *)
Definition str_Z (n : Z) : string := NilZero.string_of_int (Z.to_int n).

(** ** [VCenterManager.wait_for_task] (add_ptp_to_vm.py) *)

(** The [while] loop.  [start] is [start_time], [k] counts the reads of
    the task state done so far.  Each turn that does not leave the loop
    sleeps one second, so the time left before the deadline shrinks. *)
Equations? wait_loop (task : Task) (timeout start : Z) (k : nat) (w : World)
  : option nat * World
  by wf (Z.to_nat (timeout + 1 - (clock w - start))) lt :=
wait_loop task timeout start k w with is_terminal (task k) := {
  | true => (Some (S k), log (ReadTaskState (task k)) w)
  | false with Z_gt_le_dec (clock w - start) timeout := {
    | left _ =>
        (None, print ("Task timed out after " ++ str_Z timeout ++ " seconds")
                 (log (ReadTaskState (task k)) w))
    | right _ =>
        wait_loop task timeout start (S k)
          (sleep 1 (log (ReadTaskState (task k)) w)) } }.
Proof. simpl. lia. Qed.

(** The whole function; the result is Python's [True]/[False].  After the
    loop the state is read once more to tell success from error. *)
Definition wait_for_task (task : Task) (timeout : Z) (w : World) : bool * World :=
  let start_time := clock w in
  match wait_loop task timeout start_time 0 w with
  | (None, w1) => (false, w1)
  | (Some k, w1) =>
      let (st, w2) := read_state task k w1 in
      match st with
      | success => (true, w2)
      | error f => (false, print ("Task failed: " ++ fault_str f) w2)
      | _ => (false, print "Task failed: None" w2)
      end
  end.

(** ** The platform side of a request

    The scripts see the server only through requests and property reads.
    The scripted platform below commits a change when it accepts a request
    whose task ends in success; reading the task state only observes it. *)

Definition default_vm : VM :=
  {| name := ""; powerState := poweredOff; hardware_device := [];
     vmOpNotificationToAppEnabled := None; vmOpNotificationTimeout := None |}.

(** Property reads through a reference.  References come from
    [get_vm_by_name] only, so they are positions of the inventory. *)
Definition the_vm (w : World) (vm : VmRef) : VM := nth vm (inventory w) default_vm.

Fixpoint update_vm (vm : VmRef) (f : VM -> VM) (inv : list VM) : list VM :=
  match inv, vm with
  | [], _ => []
  | v :: rest, O => f v :: rest
  | v :: rest, S n => v :: update_vm n f rest
  end.

Definition set_power (p : VirtualMachinePowerState) (v : VM) : VM :=
  {| name := name v; powerState := p; hardware_device := hardware_device v;
     vmOpNotificationToAppEnabled := vmOpNotificationToAppEnabled v;
     vmOpNotificationTimeout := vmOpNotificationTimeout v |}.

(** The platform assigns the key of an added device whose key is negative. *)
Definition fresh_key (devs : list VirtualDevice) : Z :=
  1 + fold_right (fun d m => Z.max (key d) m) 0 devs.

Definition default_label (c : DeviceClass) : string :=
  match c with
  | VirtualPrecisionClock => "Precision Clock"
  | VirtualDisk => "Hard disk"
  | VirtualEthernetCard => "Network adapter"
  | VirtualOtherDevice => "Device"
  end.

Definition apply_device_change (devs : list VirtualDevice) (ch : VirtualDeviceSpec)
  : list VirtualDevice :=
  let d := device ch in
  match operation ch with
  | op_add =>
      devs ++ [ {| dev_class := dev_class d;
                   key := if key d <? 0 then fresh_key devs else key d;
                   backing := backing d;
                   label := default_label (dev_class d) |} ]
  | op_remove => filter (fun x => negb (key x =? key d)) devs
  | op_edit => map (fun x => if key x =? key d then d else x) devs
  end.

(** A ConfigSpec is a delta: a field that is not set leaves the VM's value
    as it is. *)
Definition apply_spec (s : ConfigSpec) (v : VM) : VM :=
  {| name := name v;
     powerState := powerState v;
     hardware_device := fold_left apply_device_change (deviceChange s) (hardware_device v);
     vmOpNotificationToAppEnabled :=
       match spec_vmOpNotificationToAppEnabled s with
       | Some b => Some b
       | None => vmOpNotificationToAppEnabled v
       end;
     vmOpNotificationTimeout :=
       match spec_vmOpNotificationTimeout s with
       | Some t => Some t
       | None => vmOpNotificationTimeout v
       end |}.

(** Sending a request: it is recorded, the platform reacts, and the call
    either raises or returns the task. *)
Definition submit (e : Event) (vm : VmRef) (effect : VM -> VM) (w : World)
  : (string + Task) * World :=
  let r := reaction w (List.length (requests w)) in
  let w1 := log e w in
  match r with
  | Raises exn => (inl exn, w1)
  | Accepts p =>
      (inr (task_of_plan p),
       match result p with
       | Succeeds => set_inventory (update_vm vm effect (inventory w1)) w1
       | _ => w1
       end)
  end.

Definition call_PowerOffVM_Task (vm : VmRef) : World -> (string + Task) * World :=
  submit (PowerOffVM_Task vm) vm (set_power poweredOff).

Definition call_PowerOnVM_Task (vm : VmRef) : World -> (string + Task) * World :=
  submit (PowerOnVM_Task vm) vm (set_power poweredOn).

Definition call_ReconfigVM_Task (vm : VmRef) (spec : ConfigSpec)
  : World -> (string + Task) * World :=
  submit (ReconfigVM_Task vm spec) vm (apply_spec spec).

(** ** add_ptp_to_vm.py: class VCenterManager *)

Module Ptp.

(** [get_vm_by_name]: the first VM of the view whose name is [vm_name]. *)
Fixpoint find_vm (vm_name : string) (view : list VM) (i : nat) : option VmRef :=
  match view with
  | [] => None
  | vm :: rest => if (name vm =? vm_name)%string then Some i else find_vm vm_name rest (S i)
  end.

Definition get_vm_by_name (vm_name : string) (w : World) : option VmRef :=
  find_vm vm_name (inventory w) 0.

Definition default_timeout : Z := 300.

Definition power_off_vm (vm : VmRef) (w : World) : bool * World :=
  let w := print ("  Powering off VM: " ++ name (the_vm w vm) ++ "...") w in
  match call_PowerOffVM_Task vm w with
  | (inl e, w) => (false, print ("  Error powering off VM: " ++ e) w)
  | (inr task, w) =>
      let (ok, w) := wait_for_task task default_timeout w in
      if ok then
        (true, print ("  VM " ++ name (the_vm w vm) ++ " powered off successfully") w)
      else (false, w)
  end.

Definition power_on_vm (vm : VmRef) (w : World) : bool * World :=
  let w := print ("  Powering on VM: " ++ name (the_vm w vm) ++ "...") w in
  match call_PowerOnVM_Task vm w with
  | (inl e, w) => (false, print ("  Error powering on VM: " ++ e) w)
  | (inr task, w) =>
      let (ok, w) := wait_for_task task default_timeout w in
      if ok then
        (true, print ("  VM " ++ name (the_vm w vm) ++ " powered on successfully") w)
      else (false, w)
  end.

(** The device and the ConfigSpec [add_ptp_device] builds. *)
Definition ptp_device : VirtualDevice :=
  {| dev_class := VirtualPrecisionClock; key := -1;
     backing := Some SystemClockBackingInfo; label := "" |}.

Definition add_spec : ConfigSpec :=
  {| deviceChange := [ {| operation := op_add; device := ptp_device |} ];
     spec_vmOpNotificationToAppEnabled := None;
     spec_vmOpNotificationTimeout := None |}.

Definition add_ptp_device (vm : VmRef) (w : World) : bool * World :=
  let w := print ("  Adding PTP device to VM: " ++ name (the_vm w vm) ++ "...") w in
  match call_ReconfigVM_Task vm add_spec w with
  | (inl e, w) => (false, print ("  Error adding PTP device: " ++ e) w)
  | (inr task, w) =>
      let (ok, w) := wait_for_task task default_timeout w in
      if ok then
        (true, print ("  PTP device added successfully to " ++ name (the_vm w vm)) w)
      else
        (false, print ("  Failed to add PTP device to " ++ name (the_vm w vm)) w)
  end.

Definition has_ptp_device (vm : VmRef) (w : World) : bool :=
  existsb is_precision_clock (hardware_device (the_vm w vm)).

Definition get_ptp_device (vm : VmRef) (w : World) : option VirtualDevice :=
  find is_precision_clock (hardware_device (the_vm w vm)).

Definition remove_spec (d : VirtualDevice) : ConfigSpec :=
  {| deviceChange := [ {| operation := op_remove; device := d |} ];
     spec_vmOpNotificationToAppEnabled := None;
     spec_vmOpNotificationTimeout := None |}.

Definition remove_ptp_device (vm : VmRef) (w : World) : bool * World :=
  let w := print ("  Removing PTP device from VM: " ++ name (the_vm w vm) ++ "...") w in
  match get_ptp_device vm w with
  | None => (false, print ("  No PTP device found on " ++ name (the_vm w vm)) w)
  | Some d =>
      match call_ReconfigVM_Task vm (remove_spec d) w with
      | (inl e, w) => (false, print ("  Error removing PTP device: " ++ e) w)
      | (inr task, w) =>
          let (ok, w) := wait_for_task task default_timeout w in
          if ok then
            (true, print ("  PTP device removed successfully from " ++ name (the_vm w vm)) w)
          else
            (false, print ("  Failed to remove PTP device from " ++ name (the_vm w vm)) w)
      end
  end.

(** The part of [process_vm] that the enable and the disable branch both
    spell out, from "Check power state" on; [edit] is [add_ptp_device] or
    [remove_ptp_device]. *)
Definition edit_with_power_bracket (edit : VmRef -> World -> bool * World)
    (vm_name : string) (vm : VmRef) (w : World) : option bool * World :=
  let power_state := powerState (the_vm w vm) in
  let w := print ("  Current power state: " ++ str_power_state power_state) w in
  (* was_powered_on = False; if power_state == poweredOn: ... *)
  let '(was_powered_on, powered_off, w) :=
    if power_state_eqb power_state poweredOn then
      let (ok, w) := power_off_vm vm w in
      (true, ok, if ok then sleep 2 w else w)
    else (false, true, w) in
  if negb powered_off then (Some false, w)
  else
    let (success, w) := edit vm w in
    if was_powered_on && success then
      let w := sleep 2 w in
      let (on, w) := power_on_vm vm w in
      if negb on then
        (Some false, print ("  WARNING: Failed to power on VM " ++ vm_name) w)
      else (Some success, w)
    else (Some success, w).

(** [process_vm]: [Some true] is True, [Some false] is False, [None] is
    None (skipped). *)
Definition process_vm (vm_name : string) (action : string) (w : World)
  : option bool * World :=
  let w := print ("Processing VM: " ++ vm_name) (print "" w) in
  match get_vm_by_name vm_name w with
  | None => (Some false, print ("  ERROR: VM '" ++ vm_name ++ "' not found") w)
  | Some vm =>
      if (action =? "read")%string then
        let has_ptp := has_ptp_device vm w in
        let w := print ("  PTP Device Status: "
                        ++ (if has_ptp then "Present" else "Not Present")) w in
        let w :=
          if has_ptp then
            match get_ptp_device vm w with
            | Some d =>
                print ("  PTP Device Label: " ++ label d)
                  (print ("  PTP Device Key: " ++ str_Z (key d)) w)
            | None => w
            end
          else w in
        (Some true, w)
      else if (action =? "enable")%string then
        if has_ptp_device vm w then
          (None, print ("  VM " ++ vm_name ++ " already has a PTP device. Skipping.") w)
        else edit_with_power_bracket add_ptp_device vm_name vm w
      else if (action =? "disable")%string then
        if negb (has_ptp_device vm w) then
          (None, print ("  VM " ++ vm_name ++ " does not have a PTP device. Skipping.") w)
        else edit_with_power_bracket remove_ptp_device vm_name vm w
      else (Some false, w)
  end.

(** *** [main], from "Parse VM names" on

    [vcenter.connect()] has returned True.  [vms] is [args.vms] after
    [split(',')] and [strip()]; [reply] is what the operator types at the
    confirmation prompt, after [strip().lower()]. *)

Record Args := {
  vms : list string;
  read : bool;
  enable : bool;
  disable : bool;
  no_confirm : bool;
  dry_run : bool
}.

(** The [results] dict. *)
Record Results := {
  res_success : list string;
  res_skipped : list string;
  res_failed : list string
}.

Definition rule : string := "============================================================".

Definition str_nat (n : nat) : string := str_Z (Z.of_nat n).

Definition action_of (args : Args) : string :=
  if read args then "read"
  else if enable args then "enable"
  else if disable args then "disable"
  else "enable".

(** "Find all VMs": the first loop of [main]. *)
Fixpoint lookup_vms (vm_names : list string) (found : list VmRef) (w : World)
  : list VmRef * World :=
  match vm_names with
  | [] => (found, w)
  | vm_name :: rest =>
      match get_vm_by_name vm_name w with
      | Some vm => lookup_vms rest (found ++ [vm]) (print ("  Found: " ++ vm_name) w)
      | None =>
          lookup_vms rest found (print ("  WARNING: VM '" ++ vm_name ++ "' not found") w)
      end
  end.

(** "Process each VM": the second loop. *)
Fixpoint process_all (action : string) (todo : list VmRef) (results : Results) (w : World)
  : Results * World :=
  match todo with
  | [] => (results, w)
  | vm :: rest =>
      let (result, w) := process_vm (name (the_vm w vm)) action w in
      let vm_name := name (the_vm w vm) in
      let results :=
        match result with
        | Some true =>
            {| res_success := res_success results ++ [vm_name];
               res_skipped := res_skipped results;
               res_failed := res_failed results |}
        | None =>
            {| res_success := res_success results;
               res_skipped := res_skipped results ++ [vm_name];
               res_failed := res_failed results |}
        | Some false =>
            {| res_success := res_success results;
               res_skipped := res_skipped results;
               res_failed := res_failed results ++ [vm_name] |}
        end in
      process_all action rest results w
  end.

Definition print_all (lines : list string) (w : World) : World :=
  fold_left (fun w l => print l w) lines w.

Definition is_nil {A} (l : list A) : bool :=
  match l with [] => true | _ => false end.

Definition print_summary (action : string) (total : nat) (r : Results) (w : World) : World :=
  let w := print_all [""; rule; "SUMMARY"; rule;
                      "Total VMs processed: " ++ str_nat total;
                      "Successful: " ++ str_nat (List.length (res_success r));
                      "Skipped: " ++ str_nat (List.length (res_skipped r));
                      "Failed: " ++ str_nat (List.length (res_failed r))] w in
  let w := if is_nil (res_success r) then w
           else print_all ("" :: "Successful VMs:" :: map (fun n => "  ✓ " ++ n) (res_success r)) w in
  let w := if is_nil (res_skipped r) then w
           else
             let skip_reason :=
               if (action =? "enable")%string then "already have PTP" else "don't have PTP" in
             print_all ("" :: ("Skipped VMs (" ++ skip_reason ++ "):")
                           :: map (fun n => "  ⊘ " ++ n) (res_skipped r)) w in
  let w := if is_nil (res_failed r) then w
           else print_all ("" :: "Failed VMs:" :: map (fun n => "  ✗ " ++ n) (res_failed r)) w in
  print_all [""; "Script completed."] w.

(** The result is the exit status and, when the run got as far as
    creating it, the [results] dict. *)
Definition main (args : Args) (reply : string) (w : World)
  : (Z * option Results) * World :=
  let action := action_of args in
  let vm_names := vms args in
  let w := print_all [""; "Looking up VMs: " ++ String.concat ", " vm_names] w in
  let (vms_to_process, w) := lookup_vms vm_names [] w in
  if is_nil vms_to_process then
    ((0, None), print_all [""; "No VMs to process. Exiting."] w)
  else
    let w := print_all [""; rule;
                        "Total VMs to process: " ++ str_nat (List.length vms_to_process)] w in
    let w := print_all (map (fun vm => "  - " ++ name (the_vm w vm)) vms_to_process) w in
    if dry_run args then
      ((0, None), print_all [""; rule; "DRY RUN MODE - No changes will be made"; rule;
                             ""; "Script completed (dry run)."] w)
    else
      let cancelled :=
        if negb (no_confirm args) && negb (read args) then
          negb ((reply =? "yes")%string || (reply =? "y")%string)
        else false in
      let w := if negb (no_confirm args) && negb (read args)
               then print_all [""; rule] w else w in
      if cancelled then ((0, None), print "Operation cancelled." w)
      else
        let w := print_all [""; rule; "Processing VMs..."; rule] w in
        let results := {| res_success := []; res_skipped := []; res_failed := [] |} in
        let (results, w) := process_all action vms_to_process results w in
        let w := print_summary action (List.length vms_to_process) results w in
        if negb (is_nil (res_failed results)) then ((1, Some results), w)
        else ((0, Some results), w).

End Ptp.

(** ** add_vmotion_notification_to_vm.py *)

(** The wait loop of this script has no deadline, so a run may never come
    back.  A run is followed for a bounded number of turns of that loop:
    it has returned, or it is still spinning in the world reached so far. *)
Inductive Run (A : Type) :=
| Returned (a : A) (w : World)
| Spinning (w : World).
Arguments Spinning {A} w.

Definition world_of {A} (r : Run A) : World :=
  match r with Returned _ w => w | Spinning w => w end.

Module Notify.

Definition get_vm_by_name (vm_name : string) (w : World) : option VmRef :=
  Ptp.find_vm vm_name (inventory w) 0.

(** The [settings] dict of [get_vm_notification_settings]. *)
Record Settings := {
  get_vmOpNotificationToAppEnabled : option bool;
  get_vmOpNotificationTimeout : option Z
}.

Definition get_vm_notification_settings (vm : VmRef) (w : World) : Settings :=
  let config := the_vm w vm in
  {| get_vmOpNotificationToAppEnabled := vmOpNotificationToAppEnabled config;
     get_vmOpNotificationTimeout := vmOpNotificationTimeout config |}.

(** The ConfigSpec [set_vm_notification_settings] builds: a field is
    assigned only when the argument is not None. *)
Definition build_spec (timeout : option Z) (enabled : option bool) : ConfigSpec :=
  let spec := empty_spec in
  let spec :=
    match enabled with
    | Some e => {| deviceChange := deviceChange spec;
                   spec_vmOpNotificationToAppEnabled := Some e;
                   spec_vmOpNotificationTimeout := spec_vmOpNotificationTimeout spec |}
    | None => spec
    end in
  match timeout with
  | Some t => {| deviceChange := deviceChange spec;
                 spec_vmOpNotificationToAppEnabled := spec_vmOpNotificationToAppEnabled spec;
                 spec_vmOpNotificationTimeout := Some t |}
  | None => spec
  end.

(** [while task.info.state not in [success, error]: pass].  [k] counts the
    reads done so far; [fuel] bounds the turns that are followed. *)
Fixpoint busy_wait (fuel : nat) (task : Task) (k : nat) (w : World) : Run nat :=
  let (st, w) := read_state task k w in
  if is_terminal st then Returned (S k) w
  else match fuel with
       | O => Spinning w
       | S fuel => busy_wait fuel task (S k) w
       end.

Definition set_vm_notification_settings (fuel : nat) (vm : VmRef)
    (timeout : option Z) (enabled : option bool) (w : World) : Run bool :=
  let spec := build_spec timeout enabled in
  match call_ReconfigVM_Task vm spec w with
  | (inl e, w) => Returned false (eprint ("Error: Failed to reconfigure VM: " ++ e) w)
  | (inr task, w) =>
      match busy_wait fuel task 0 w with
      | Spinning w => Spinning w
      | Returned k w =>
          let (st, w) := read_state task k w in
          match st with
          | success => Returned true w
          | error f =>
              Returned false (eprint ("Error: Task failed with error: " ++ msg f) w)
          | _ =>
              (* task.info.error is None: reading .msg raises, the except
                 clause reports it *)
              Returned false
                (eprint ("Error: Failed to reconfigure VM: "
                         ++ "'NoneType' object has no attribute 'msg'") w)
          end
      end
  end.

Record Args := {
  vms : list string;
  read : bool;
  enable : bool;
  disable : bool;
  timeout : option Z;
  no_confirm : bool;
  dry_run : bool
}.

Definition str_opt_bool (b : option bool) : string :=
  match b with Some true => "True" | Some false => "False" | None => "None" end.

Definition str_opt_Z (z : option Z) : string :=
  match z with Some n => str_Z n | None => "None" end.

Definition print_settings (title : string) (s : Settings) (w : World) : World :=
  Ptp.print_all
    [title;
     "    vmOpNotificationToAppEnabled: " ++ str_opt_bool (get_vmOpNotificationToAppEnabled s);
     "    vmOpNotificationTimeout: " ++ str_opt_Z (get_vmOpNotificationTimeout s)] w.

Definition process_vm (fuel : nat) (vm : VmRef) (args : Args) (w : World) : Run bool :=
  let w := Ptp.print_all [""; "Processing VM: " ++ name (the_vm w vm)] w in
  if read args then
    let settings := get_vm_notification_settings vm w in
    Returned true (print_settings "  Current VM Notification Settings:" settings w)
  else
    let enabled :=
      if enable args then Some true else if disable args then Some false else None in
    let timeout := timeout args in
    let w := Ptp.print_all
               ["  Configuring VM notification settings...";
                "    vmOpNotificationToAppEnabled: " ++ str_opt_bool enabled] w in
    let w := match timeout with
             | Some t => print ("    vmOpNotificationTimeout: " ++ str_Z t) w
             | None => w
             end in
    match set_vm_notification_settings fuel vm timeout enabled w with
    | Spinning w => Spinning w
    | Returned ok w =>
        if ok then
          let w := print "  ✓ VM notification settings updated successfully" w in
          let settings := get_vm_notification_settings vm w in
          Returned true (print_settings "  New VM Notification Settings:" settings w)
        else
          Returned false (eprint "  ✗ Failed to update VM notification settings" w)
    end.

(** The [results] dict of this script has two keys. *)
Record Results := {
  res_success : list string;
  res_failed : list string
}.

Fixpoint lookup_vms (vm_names : list string) (found : list VmRef) (w : World)
  : list VmRef * World :=
  match vm_names with
  | [] => (found, w)
  | vm_name :: rest =>
      match get_vm_by_name vm_name w with
      | Some vm => lookup_vms rest (found ++ [vm]) (print ("  Found: " ++ vm_name) w)
      | None =>
          lookup_vms rest found (print ("  WARNING: VM '" ++ vm_name ++ "' not found") w)
      end
  end.

Fixpoint process_all (fuel : nat) (args : Args) (todo : list VmRef) (results : Results)
    (w : World) : Run Results :=
  match todo with
  | [] => Returned results w
  | vm :: rest =>
      match process_vm fuel vm args w with
      | Spinning w => Spinning w
      | Returned ok w =>
          let vm_name := name (the_vm w vm) in
          let results :=
            if ok then
              {| res_success := res_success results ++ [vm_name];
                 res_failed := res_failed results |}
            else
              {| res_success := res_success results;
                 res_failed := res_failed results ++ [vm_name] |} in
          process_all fuel args rest results w
      end
  end.

Definition print_summary (total : nat) (r : Results) (w : World) : World :=
  let w := Ptp.print_all
             [""; Ptp.rule; "SUMMARY"; Ptp.rule;
              "Total VMs processed: " ++ Ptp.str_nat total;
              "Successful: " ++ Ptp.str_nat (List.length (res_success r));
              "Failed: " ++ Ptp.str_nat (List.length (res_failed r))] w in
  let w := if Ptp.is_nil (res_success r) then w
           else Ptp.print_all
                  ("" :: "Successful VMs:" :: map (fun n => "  ✓ " ++ n) (res_success r)) w in
  let w := if Ptp.is_nil (res_failed r) then w
           else Ptp.print_all
                  ("" :: "Failed VMs:" :: map (fun n => "  ✗ " ++ n) (res_failed r)) w in
  Ptp.print_all [""; "Script completed."] w.

(** [main] inside the [try], from "Parse VM names" on: the connection is
    up and [content] has been retrieved. *)
Definition main (fuel : nat) (args : Args) (reply : string) (w : World)
  : Run (Z * option Results) :=
  let vm_names := vms args in
  let w := Ptp.print_all [""; "Looking up VMs: " ++ String.concat ", " vm_names] w in
  let (vms_to_process, w) := lookup_vms vm_names [] w in
  if Ptp.is_nil vms_to_process then
    Returned (0, None) (Ptp.print_all [""; "No VMs to process. Exiting."] w)
  else
    let w := Ptp.print_all
               [""; Ptp.rule;
                "Total VMs to process: " ++ Ptp.str_nat (List.length vms_to_process)] w in
    let w := Ptp.print_all (map (fun vm => "  - " ++ name (the_vm w vm)) vms_to_process) w in
    if dry_run args then
      Returned (0, None)
        (Ptp.print_all [""; Ptp.rule; "DRY RUN MODE - No changes will be made"; Ptp.rule;
                        ""; "Script completed (dry run)."] w)
    else
      let cancelled :=
        if negb (no_confirm args) && negb (read args) then
          negb ((reply =? "yes")%string || (reply =? "y")%string)
        else false in
      let w := if negb (no_confirm args) && negb (read args)
               then Ptp.print_all [""; Ptp.rule] w else w in
      if cancelled then Returned (0, None) (print "Operation cancelled." w)
      else
        let w := Ptp.print_all [""; Ptp.rule; "Processing VMs..."; Ptp.rule] w in
        let results := {| res_success := []; res_failed := [] |} in
        match process_all fuel args vms_to_process results w with
        | Spinning w => Spinning w
        | Returned results w =>
            let w := print_summary (List.length vms_to_process) results w in
            if negb (Ptp.is_nil (res_failed results)) then Returned (1, Some results) w
            else Returned (0, Some results) w
        end.

End Notify.

(** * Properties *)

Open Scope list_scope.
Unset Implicit Arguments.

(** ** Events of one call *)

(** The trace only grows; [since w w'] is what a call that took [w] to
    [w'] added to it. *)
Definition since (w w' : World) : list Event :=
  skipn (List.length (trace w)) (trace w').

Lemma since_app w w' evs : trace w' = trace w ++ evs -> since w w' = evs.
Proof.
  intros E. unfold since. rewrite E.
  rewrite skipn_app, skipn_all, Nat.sub_diag. reflexivity.
Qed.

Lemma requests_log e w :
  requests (log e w) = requests w ++ (if is_request e then [e] else []).
Proof. unfold requests. simpl. rewrite filter_app. reflexivity. Qed.

(** ** What waiting leaves alone *)

(** [quiet w w']: between [w] and [w'] the process only printed, slept and
    read task states. *)
Record quiet (w w' : World) : Prop := {
  quiet_inventory : inventory w' = inventory w;
  quiet_reaction : reaction w' = reaction w;
  quiet_requests : requests w' = requests w;
  quiet_trace : exists evs, trace w' = trace w ++ evs /\ filter is_request evs = []
}.

Lemma quiet_refl w : quiet w w.
Proof.
  split; try reflexivity. exists []. rewrite app_nil_r. auto.
Qed.

Lemma quiet_trans w1 w2 w3 : quiet w1 w2 -> quiet w2 w3 -> quiet w1 w3.
Proof.
  intros [I1 R1 Q1 [e1 [T1 F1]]] [I2 R2 Q2 [e2 [T2 F2]]].
  split; try congruence.
  exists (e1 ++ e2). rewrite T2, T1, app_assoc, filter_app, F1, F2. auto.
Qed.

Lemma quiet_print l w : quiet w (print l w).
Proof.
  split; try reflexivity. exists []. simpl. rewrite app_nil_r. auto.
Qed.

Lemma quiet_eprint l w : quiet w (eprint l w).
Proof.
  split; try reflexivity. exists []. simpl. rewrite app_nil_r. auto.
Qed.

Lemma quiet_log e w : is_request e = false -> quiet w (log e w).
Proof.
  intros H. split; try reflexivity.
  - rewrite requests_log, H, app_nil_r. reflexivity.
  - exists [e]. simpl. rewrite H. auto.
Qed.

Lemma quiet_sleep n w : quiet w (sleep n w).
Proof.
  split; try reflexivity.
  - unfold requests. simpl. rewrite filter_app. simpl. apply app_nil_r.
  - exists [Sleep n]. auto.
Qed.

Create HintDb quiet.

#[local] Hint Resolve quiet_refl quiet_print quiet_eprint quiet_sleep : quiet.

Lemma quiet_read s w : quiet w (log (ReadTaskState s) w).
Proof. apply quiet_log. reflexivity. Qed.

#[local] Hint Resolve quiet_read : quiet.

Lemma wait_loop_quiet task timeout start k w :
  quiet w (snd (wait_loop task timeout start k w)).
Proof.
  funelim (wait_loop task timeout start k w); simpl.
  - auto with quiet.
  - eapply quiet_trans; [apply quiet_read | apply quiet_print].
  - eapply quiet_trans; [| eassumption].
    eapply quiet_trans; [apply quiet_read | apply quiet_sleep].
Qed.

Lemma wait_for_task_quiet task timeout w :
  quiet w (snd (wait_for_task task timeout w)).
Proof.
  unfold wait_for_task.
  pose proof (wait_loop_quiet task timeout (clock w) 0 w) as Q.
  destruct (wait_loop task timeout (clock w) 0 w) as [[m|] w1]; simpl in *; auto.
  destruct (task m); simpl;
    (eapply quiet_trans; [exact Q |]);
    repeat (first [apply quiet_read | apply quiet_print
                  | eapply quiet_trans; [apply quiet_read |]]).
Qed.

(** ** The wait loop, turn by turn *)

(** The loop is entered for the k-th read with k seconds gone.  It leaves
    through the first terminal state, if that is read before the deadline
    check trips, and through the deadline otherwise. *)
Lemma wait_loop_spec task timeout start k w :
  clock w - start = Z.of_nat k ->
  match wait_loop task timeout start k w with
  | (Some m, w') =>
      exists n, m = S n /\ (k <= n)%nat /\ is_terminal (task n) = true /\
                (forall j, (k <= j < n)%nat -> is_terminal (task j) = false) /\
                (forall j, (k <= j < n)%nat -> Z.of_nat j <= timeout) /\
                clock w' - start = Z.of_nat n /\ stdout w' = stdout w
  | (None, w') =>
      exists n, (k <= n)%nat /\
                (forall j, (k <= j <= n)%nat -> is_terminal (task j) = false) /\
                (forall j, (k <= j < n)%nat -> Z.of_nat j <= timeout) /\
                timeout < Z.of_nat n /\
                clock w' - start = Z.of_nat n /\
                stdout w' =
                  stdout w ++ [("Task timed out after " ++ str_Z timeout ++ " seconds")%string]
  end.
Proof.
  funelim (wait_loop task timeout start k w); intros E.
  - exists k. simpl. repeat apply conj; auto; intros; lia.
  - exists k. simpl. repeat apply conj; auto; try lia.
    intros j Hj. assert (j = k) by lia. subst. assumption.
  - assert (E' : clock (sleep 1 (log (ReadTaskState (task k)) w)) - start
                 = Z.of_nat (S k)) by (simpl; lia).
    specialize (H E').
    destruct (wait_loop task timeout start (S k)
                (sleep 1 (log (ReadTaskState (task k)) w))) as [[m|] w'].
    + destruct H as (n & -> & Hn & Ht & Hb & Hd & Hc & Ho).
      exists n. repeat apply conj; auto; try lia.
      * intros j Hj. destruct (Nat.eq_dec j k); [subst; assumption | apply Hb; lia].
      * intros j Hj. destruct (Nat.eq_dec j k); [subst; lia | apply Hd; lia].
    + destruct H as (n & Hn & Hb & Hd & Ht & Hc & Ho).
      exists n. repeat apply conj; auto; try lia.
      * intros j Hj. destruct (Nat.eq_dec j k); [subst; assumption | apply Hb; lia].
      * intros j Hj. destruct (Nat.eq_dec j k); [subst; lia | apply Hd; lia].
Qed.

(** [first_terminal task n]: the n-th read is the first one that shows a
    terminal state. *)
Definition first_terminal (task : Task) (n : nat) : Prop :=
  is_terminal (task n) = true /\
  forall j, (j < n)%nat -> is_terminal (task j) = false.

(** Read [n] is made before the deadline check trips. *)
Definition in_time (n : nat) (timeout : Z) : Prop :=
  n = O \/ Z.of_nat n <= timeout + 1.

Lemma wait_loop_leaves task timeout w n :
  first_terminal task n -> in_time n timeout ->
  exists w1, wait_loop task timeout (clock w) 0 w = (Some (S n), w1) /\
             stdout w1 = stdout w /\ clock w1 = clock w + Z.of_nat n.
Proof.
  intros [Ht Hb] Hin.
  pose proof (wait_loop_spec task timeout (clock w) 0 w) as S.
  destruct (wait_loop task timeout (clock w) 0 w) as [[m|] w1].
  - destruct S as (n' & -> & _ & Ht' & Hb' & _ & Hc & Ho); [simpl; lia |].
    assert (n' = n).
    { destruct (Nat.lt_trichotomy n' n) as [L | [L | L]]; auto.
      - rewrite (Hb n' L) in Ht'. discriminate.
      - rewrite (Hb' n) in Ht; [discriminate | lia]. }
    subst. exists w1. repeat apply conj; auto. lia.
  - destruct S as (n' & _ & Hb' & Hd & Hlt & _); [simpl; lia |].
    exfalso.
    assert (L : (n' < n)%nat).
    { destruct (le_lt_dec n n') as [L|L]; auto.
      rewrite (Hb' n) in Ht; [discriminate | lia]. }
    destruct Hin as [-> | Hin]; [lia |].
    lia.
Qed.

Lemma wait_loop_deadline task timeout w :
  0 <= timeout ->
  (forall j, Z.of_nat j <= timeout + 1 -> is_terminal (task j) = false) ->
  exists w1, wait_loop task timeout (clock w) 0 w = (None, w1) /\
             stdout w1 = stdout w ++
               [("Task timed out after " ++ str_Z timeout ++ " seconds")%string] /\
             clock w1 = clock w + timeout + 1.
Proof.
  intros H0 Hrun.
  pose proof (wait_loop_spec task timeout (clock w) 0 w) as S.
  destruct (wait_loop task timeout (clock w) 0 w) as [[m|] w1].
  - destruct S as (n & -> & _ & Ht & _ & Hd & _); [simpl; lia |].
    exfalso. rewrite Hrun in Ht; [discriminate |].
    destruct n; [lia |]. specialize (Hd n). lia.
  - destruct S as (n & _ & _ & Hd & Hlt & Hc & Ho); [simpl; lia |].
    exists w1. repeat apply conj; auto.
    destruct n; [lia |]. specialize (Hd n). lia.
Qed.

(** The value of [wait_for_task] on a task whose first terminal state is
    read in time: that state decides. *)
Lemma wait_for_task_success task timeout w n :
  first_terminal task n -> in_time n timeout ->
  task (S n) = success ->
  fst (wait_for_task task timeout w) = true /\
  stdout (snd (wait_for_task task timeout w)) = stdout w.
Proof.
  intros Hf Hin Hs.
  destruct (wait_loop_leaves _ _ w _ Hf Hin) as (w1 & E & Ho & _).
  unfold wait_for_task. rewrite E. simpl. rewrite Hs. simpl. auto.
Qed.

Lemma wait_for_task_error task timeout w n f :
  first_terminal task n -> in_time n timeout ->
  task (S n) = error f ->
  fst (wait_for_task task timeout w) = false /\
  stdout (snd (wait_for_task task timeout w)) =
    stdout w ++ [("Task failed: " ++ fault_str f)%string].
Proof.
  intros Hf Hin Hs.
  destruct (wait_loop_leaves _ _ w _ Hf Hin) as (w1 & E & Ho & _).
  unfold wait_for_task. rewrite E. simpl. rewrite Hs. simpl. rewrite Ho. auto.
Qed.

Lemma wait_for_task_timed_out task timeout w :
  0 <= timeout ->
  (forall j, Z.of_nat j <= timeout + 1 -> is_terminal (task j) = false) ->
  fst (wait_for_task task timeout w) = false /\
  stdout (snd (wait_for_task task timeout w)) =
    stdout w ++ [("Task timed out after " ++ str_Z timeout ++ " seconds")%string] /\
  clock (snd (wait_for_task task timeout w)) = clock w + timeout + 1.
Proof.
  intros H0 Hrun.
  destruct (wait_loop_deadline _ _ w H0 Hrun) as (w1 & E & Ho & Hc).
  unfold wait_for_task. rewrite E. simpl. auto.
Qed.

(** [True] is returned only for a task that was seen in state success. *)
Lemma wait_for_task_true task timeout w :
  fst (wait_for_task task timeout w) = true -> exists n, task n = success.
Proof.
  unfold wait_for_task.
  destruct (wait_loop task timeout (clock w) 0 w) as [[m|] w1]; simpl;
    [| discriminate].
  destruct (task m) eqn:E; simpl; try discriminate. eauto.
Qed.

(** *** Scripted tasks *)

Definition is_succeeds (r : TaskResult) : bool :=
  match r with Succeeds => true | _ => false end.

(** Whether waiting for a scripted task with the default timeout comes
    back with True: the task succeeds, and does so by read 301. *)
Definition completes (p : TaskPlan) : bool :=
  is_succeeds (result p) && (delay p <=? 301)%nat.

Lemma plan_first_terminal p :
  result p <> Hangs -> first_terminal (task_of_plan p) (delay p).
Proof.
  intros H. unfold first_terminal, task_of_plan. split.
  - rewrite Nat.ltb_irrefl. destruct (result p); simpl; auto; congruence.
  - intros j Hj. apply Nat.ltb_lt in Hj. rewrite Hj. reflexivity.
Qed.

Lemma plan_never_success p n :
  is_succeeds (result p) = false -> task_of_plan p n <> success.
Proof.
  unfold task_of_plan. destruct (n <? delay p)%nat; [discriminate |].
  destruct (result p); simpl; congruence.
Qed.

Lemma plan_running p j : (j < delay p)%nat -> task_of_plan p j = running.
Proof.
  intros Hj. apply Nat.ltb_lt in Hj. unfold task_of_plan. rewrite Hj. reflexivity.
Qed.

Lemma wait_for_plan p w :
  fst (wait_for_task (task_of_plan p) Ptp.default_timeout w) = completes p.
Proof.
  unfold completes.
  destruct (is_succeeds (result p)) eqn:Hs; simpl.
  - destruct (delay p <=? 301)%nat eqn:Hd.
    + apply Nat.leb_le in Hd.
      apply (wait_for_task_success _ _ w (delay p)).
      * apply plan_first_terminal. destruct (result p); discriminate.
      * right. unfold Ptp.default_timeout. lia.
      * unfold task_of_plan.
        replace (S (delay p) <? delay p)%nat with false
          by (symmetry; apply Nat.ltb_ge; lia).
        destruct (result p); auto; discriminate.
    + apply Nat.leb_gt in Hd.
      apply wait_for_task_timed_out; [unfold Ptp.default_timeout; lia |].
      intros j Hj. rewrite plan_running; auto.
      unfold Ptp.default_timeout in Hj. lia.
  - destruct (fst (wait_for_task (task_of_plan p) Ptp.default_timeout w)) eqn:E; auto.
    apply wait_for_task_true in E. destruct E as [n E].
    exfalso. exact (plan_never_success p n Hs E).
Qed.

(** ** Requests of one call *)

(** [sends rs w w']: between [w] and [w'] exactly the requests [rs] went
    to the platform, in that order. *)
Definition sends (rs : list Event) (w w' : World) : Prop :=
  reaction w' = reaction w /\
  exists evs, trace w' = trace w ++ evs /\ filter is_request evs = rs.

(** The requests a call that took [w] to [w'] sent. *)
Definition requests_of_call (w w' : World) : list Event :=
  filter is_request (since w w').

Lemma sends_trans rs1 rs2 w1 w2 w3 :
  sends rs1 w1 w2 -> sends rs2 w2 w3 -> sends (rs1 ++ rs2) w1 w3.
Proof.
  intros [R1 [e1 [T1 F1]]] [R2 [e2 [T2 F2]]]. split; [congruence |].
  exists (e1 ++ e2). rewrite T2, T1, app_assoc, filter_app, F1, F2. auto.
Qed.

Lemma quiet_sends w w' : quiet w w' -> sends [] w w'.
Proof. intros [_ R _ T]. split; assumption. Qed.

Lemma sends_quiet_l rs w1 w2 w3 : quiet w1 w2 -> sends rs w2 w3 -> sends rs w1 w3.
Proof.
  intros Q S. change rs with ([] ++ rs).
  eapply sends_trans; [apply quiet_sends |]; eassumption.
Qed.

Lemma sends_quiet_r rs w1 w2 w3 : sends rs w1 w2 -> quiet w2 w3 -> sends rs w1 w3.
Proof.
  intros S Q. rewrite <- (app_nil_r rs).
  eapply sends_trans; [| apply quiet_sends]; eassumption.
Qed.

Lemma sends_requests rs w w' : sends rs w w' -> requests w' = requests w ++ rs.
Proof.
  intros [_ [evs [T F]]]. unfold requests. rewrite T, filter_app, F. reflexivity.
Qed.

Lemma sends_requests_of_call rs w w' : sends rs w w' -> requests_of_call w w' = rs.
Proof.
  intros [_ [evs [T F]]]. unfold requests_of_call. rewrite (since_app _ _ _ T). exact F.
Qed.

Lemma sends_reaction rs w w' : sends rs w w' -> reaction w' = reaction w.
Proof. intros [R _]. exact R. Qed.

(** ** One request and the wait for its task *)

(** Whether the request is answered with a task that is seen to succeed
    within the default timeout ... *)
Definition accepted (r : Response) : bool :=
  match r with
  | Accepts p => completes p
  | Raises _ => false
  end.

(** ... and whether the platform commits its effect (a task that succeeds
    too late is still committed: the wait gives up, the task goes on). *)
Definition committed (r : Response) : bool :=
  match r with
  | Accepts p => is_succeeds (result p)
  | Raises _ => false
  end.

(** The reaction the next request of [w] will get. *)
Definition next_reaction (w : World) : Response :=
  reaction w (List.length (requests w)).

(** The reaction the request after that one will get. *)
Definition second_reaction (w : World) : Response :=
  reaction w (S (List.length (requests w))).

Definition third_reaction (w : World) : Response :=
  reaction w (S (S (List.length (requests w)))).

Lemma submit_sends e vm f w :
  is_request e = true -> sends [e] w (snd (submit e vm f w)).
Proof.
  intros He. unfold submit.
  destruct (reaction w (List.length (requests w))) as [exn | p]; simpl.
  - split; [reflexivity |]. exists [e]. simpl. rewrite He. auto.
  - destruct (result p); simpl; (split; [reflexivity |]);
      exists [e]; simpl; rewrite He; auto.
Qed.

Lemma submit_inventory e vm f w :
  inventory (snd (submit e vm f w)) =
    if committed (next_reaction w) then update_vm vm f (inventory w) else inventory w.
Proof.
  unfold submit, next_reaction.
  destruct (reaction w (List.length (requests w))) as [exn | p]; simpl; auto.
  destruct (result p); reflexivity.
Qed.

(** The shape the four request functions of the PTP script share. *)
Definition request_and_wait (e : Event) (vm : VmRef) (effect : VM -> VM)
    (on_exn : string -> World -> World) (on_true on_false : World -> World)
    (w : World) : bool * World :=
  match submit e vm effect w with
  | (inl exn, w) => (false, on_exn exn w)
  | (inr task, w) =>
      let (ok, w) := wait_for_task task Ptp.default_timeout w in
      if ok then (true, on_true w) else (false, on_false w)
  end.

(** What such a call amounts to. *)
Record request_step (e : Event) (vm : VmRef) (effect : VM -> VM)
    (w : World) (res : bool * World) : Prop := {
  step_result : fst res = accepted (next_reaction w);
  step_inventory :
    inventory (snd res) =
      if committed (next_reaction w) then update_vm vm effect (inventory w)
      else inventory w;
  step_sends : sends [e] w (snd res)
}.

Lemma submit_answer e vm f w :
  fst (submit e vm f w) =
    match next_reaction w with
    | Raises exn => inl exn
    | Accepts p => inr (task_of_plan p)
    end.
Proof.
  unfold submit, next_reaction.
  destruct (reaction w (List.length (requests w))); reflexivity.
Qed.

Lemma request_and_wait_step e vm effect on_exn on_true on_false w :
  is_request e = true ->
  (forall exn w, quiet w (on_exn exn w)) ->
  (forall w, quiet w (on_true w)) ->
  (forall w, quiet w (on_false w)) ->
  request_step e vm effect w
    (request_and_wait e vm effect on_exn on_true on_false w).
Proof.
  intros He Qe Qt Qf. unfold request_and_wait.
  pose proof (submit_sends e vm effect w He) as S.
  pose proof (submit_inventory e vm effect w) as I.
  pose proof (submit_answer e vm effect w) as A.
  destruct (submit e vm effect w) as [r w1]. simpl in S, I, A.
  destruct (next_reaction w) as [exn | p] eqn:R; subst r.
  - split; rewrite ?R; simpl.
    + reflexivity.
    + rewrite (quiet_inventory _ _ (Qe exn _)). exact I.
    + eapply sends_quiet_r; [exact S | apply Qe].
  - pose proof (wait_for_plan p w1) as V.
    pose proof (wait_for_task_quiet (task_of_plan p) Ptp.default_timeout w1) as Q.
    destruct (wait_for_task (task_of_plan p) Ptp.default_timeout w1) as [ok w2].
    simpl in V, Q. subst ok.
    assert (Q' : quiet w1 (snd (if completes p then (true, on_true w2)
                                else (false, on_false w2)))).
    { destruct (completes p); simpl; (eapply quiet_trans; [exact Q | auto]). }
    split; rewrite ?R; simpl.
    + destruct (completes p); reflexivity.
    + rewrite (quiet_inventory _ _ Q'). exact I.
    + eapply sends_quiet_r; [exact S | exact Q'].
Qed.

Lemma request_step_print e vm effect l w res :
  request_step e vm effect (print l w) res -> request_step e vm effect w res.
Proof.
  intros [A B [C [evs D]]]. split; [exact A | exact B |].
  split; [exact C | exists evs; exact D].
Qed.

Lemma power_off_vm_step vm w :
  request_step (PowerOffVM_Task vm) vm (set_power poweredOff) w (Ptp.power_off_vm vm w).
Proof.
  apply request_step_print with
    (l := ("  Powering off VM: " ++ name (the_vm w vm) ++ "...")%string).
  apply (request_and_wait_step (PowerOffVM_Task vm) vm (set_power poweredOff)
           (fun e w => print ("  Error powering off VM: " ++ e)%string w)
           (fun w => print ("  VM " ++ name (the_vm w vm) ++ " powered off successfully")%string w)
           (fun w => w)
           (print ("  Powering off VM: " ++ name (the_vm w vm) ++ "...")%string w));
    auto with quiet.
Qed.

Lemma power_on_vm_step vm w :
  request_step (PowerOnVM_Task vm) vm (set_power poweredOn) w (Ptp.power_on_vm vm w).
Proof.
  apply request_step_print with
    (l := ("  Powering on VM: " ++ name (the_vm w vm) ++ "...")%string).
  apply (request_and_wait_step (PowerOnVM_Task vm) vm (set_power poweredOn)
           (fun e w => print ("  Error powering on VM: " ++ e)%string w)
           (fun w => print ("  VM " ++ name (the_vm w vm) ++ " powered on successfully")%string w)
           (fun w => w)
           (print ("  Powering on VM: " ++ name (the_vm w vm) ++ "...")%string w));
    auto with quiet.
Qed.

Lemma add_ptp_device_step vm w :
  request_step (ReconfigVM_Task vm Ptp.add_spec) vm (apply_spec Ptp.add_spec) w
    (Ptp.add_ptp_device vm w).
Proof.
  apply request_step_print with
    (l := ("  Adding PTP device to VM: " ++ name (the_vm w vm) ++ "...")%string).
  apply (request_and_wait_step (ReconfigVM_Task vm Ptp.add_spec) vm (apply_spec Ptp.add_spec)
           (fun e w => print ("  Error adding PTP device: " ++ e)%string w)
           (fun w => print ("  PTP device added successfully to " ++ name (the_vm w vm))%string w)
           (fun w => print ("  Failed to add PTP device to " ++ name (the_vm w vm))%string w)
           (print ("  Adding PTP device to VM: " ++ name (the_vm w vm) ++ "...")%string w));
    auto with quiet.
Qed.

Lemma remove_ptp_device_step vm w d :
  Ptp.get_ptp_device vm w = Some d ->
  request_step (ReconfigVM_Task vm (Ptp.remove_spec d)) vm (apply_spec (Ptp.remove_spec d)) w
    (Ptp.remove_ptp_device vm w).
Proof.
  intros G. unfold Ptp.remove_ptp_device.
  change (Ptp.get_ptp_device vm
            (print ("  Removing PTP device from VM: " ++ name (the_vm w vm) ++ "...")%string w))
    with (Ptp.get_ptp_device vm w).
  rewrite G.
  apply request_step_print with
    (l := ("  Removing PTP device from VM: " ++ name (the_vm w vm) ++ "...")%string).
  apply (request_and_wait_step (ReconfigVM_Task vm (Ptp.remove_spec d)) vm
           (apply_spec (Ptp.remove_spec d))
           (fun e w => print ("  Error removing PTP device: " ++ e)%string w)
           (fun w => print ("  PTP device removed successfully from " ++ name (the_vm w vm))%string w)
           (fun w => print ("  Failed to remove PTP device from " ++ name (the_vm w vm))%string w)
           (print ("  Removing PTP device from VM: " ++ name (the_vm w vm) ++ "...")%string w));
    auto with quiet.
Qed.

(** ** Reading a VM after an update *)


(** A field the effect does not touch reads the same at every reference. *)
Lemma nth_update_vm_field {A} (h : VM -> A) vm f inv i :
  (forall v, h (f v) = h v) ->
  h (nth i (update_vm vm f inv) default_vm) = h (nth i inv default_vm).
Proof.
  intros Hf. revert vm i.
  induction inv as [| v inv IH]; intros [| n] [| i]; simpl; auto.
Qed.

Lemma nth_update_vm_eq vm f inv :
  (vm < List.length inv)%nat ->
  nth vm (update_vm vm f inv) default_vm = f (nth vm inv default_vm).
Proof.
  revert vm. induction inv as [| v inv IH]; intros [| n] H; simpl in *; try lia; auto.
  apply IH. lia.
Qed.

Lemma map_update_vm_field {A} (h : VM -> A) vm f inv :
  (forall v, h (f v) = h v) ->
  map h (update_vm vm f inv) = map h inv.
Proof.
  intros Hf. revert vm.
  induction inv as [| v inv IH]; intros [| n]; simpl; auto; congruence.
Qed.

(** Conditional update, as the platform commits or not. *)
Definition commit (c : bool) (vm : VmRef) (f : VM -> VM) (inv : list VM) : list VM :=
  if c then update_vm vm f inv else inv.

Lemma next_reaction_quiet w w' : quiet w w' -> next_reaction w' = next_reaction w.
Proof.
  intros Q. unfold next_reaction.
  rewrite (quiet_reaction _ _ Q), (quiet_requests _ _ Q). reflexivity.
Qed.

Lemma next_reaction_sends rs w w' :
  sends rs w w' ->
  next_reaction w' = reaction w (List.length (requests w) + List.length rs).
Proof.
  intros S. unfold next_reaction.
  rewrite (sends_reaction _ _ _ S), (sends_requests _ _ _ S), length_app. reflexivity.
Qed.

(** ** [process_vm] of the PTP script, case by case *)

(** What a call did: its value, the requests it sent, the inventory it
    left. *)
Record outcome {A} (w : World) (res : A * World)
    (value : A) (rs : list Event) (inv : list VM) : Prop := {
  out_value : fst res = value;
  out_sends : sends rs w (snd res);
  out_inventory : inventory (snd res) = inv
}.

Section PowerBracket.

Variable edit : VmRef -> World -> bool * World.
Variable vm_name : string.
Variable vm : VmRef.
Variable spec : ConfigSpec.
Variable w : World.

(** The edit is one reconfiguration request with [spec], in any world
    that shows the device list [w] shows. *)
Hypothesis edit_step :
  forall w1,
    hardware_device (the_vm w1 vm) = hardware_device (the_vm w vm) ->
    request_step (ReconfigVM_Task vm spec) vm (apply_spec spec) w1 (edit vm w1).

Let r1 := next_reaction w.
Let r2 := second_reaction w.
Let r3 := third_reaction w.
Let off := set_power poweredOff.
Let on := set_power poweredOn.
Let run := Ptp.edit_with_power_bracket edit vm_name vm w.

(** Not powered on: the edit alone. *)
Lemma bracket_not_powered_on :
  powerState (the_vm w vm) <> poweredOn ->
  outcome w run (Some (accepted r1)) [ReconfigVM_Task vm spec]
    (commit (committed r1) vm (apply_spec spec) (inventory w)).
Proof.
  intros Hp. unfold run, Ptp.edit_with_power_bracket.
  change (powerState (the_vm (print _ w) vm)) with (powerState (the_vm w vm)).
  assert (E : power_state_eqb (powerState (the_vm w vm)) poweredOn = false)
    by (destruct (powerState (the_vm w vm)); simpl; congruence).
  cbv zeta. rewrite E. cbv iota beta.
  set (w0 := print _ w).
  pose proof (request_step_print _ _ _ _ _ _ (edit_step w0 eq_refl)) as St.
  destruct (edit vm w0) as [ok w1]. destruct St as [Hr Hi Hs].
  cbn [fst snd] in *. fold r1 in Hr, Hi. subst ok.
  split; cbn [fst snd]; auto.
Qed.

(** Powered on, and the power-off is not seen to succeed: nothing else is
    tried. *)
Lemma bracket_power_off_fails :
  powerState (the_vm w vm) = poweredOn ->
  accepted r1 = false ->
  outcome w run (Some false) [PowerOffVM_Task vm]
    (commit (committed r1) vm off (inventory w)).
Proof.
  intros Hp Ha. unfold run, Ptp.edit_with_power_bracket.
  rewrite Hp. cbv zeta. simpl power_state_eqb. cbv iota beta.
  set (w0 := print _ w).
  pose proof (request_step_print _ _ _ _ _ _ (power_off_vm_step vm w0)) as St.
  destruct (Ptp.power_off_vm vm w0) as [ok w1]. destruct St as [Hr Hi Hs].
  cbn [fst snd] in *. fold r1 in Hr, Hi. rewrite Ha in Hr. subst ok.
  cbn [negb]. split; cbn [fst snd]; auto.
Qed.

Lemma accepted_committed r : accepted r = true -> committed r = true.
Proof.
  destruct r as [| p]; simpl; [discriminate |].
  unfold completes. intros H. apply andb_prop in H. tauto.
Qed.

(** The world in which the edit runs after a power-off that went well. *)
Lemma after_power_off w1 :
  sends [PowerOffVM_Task vm] w w1 ->
  inventory w1 = commit (committed r1) vm off (inventory w) ->
  let w2 := sleep 2 w1 in
  sends [PowerOffVM_Task vm] w w2 /\
  inventory w2 = commit (committed r1) vm off (inventory w) /\
  next_reaction w2 = r2 /\
  hardware_device (the_vm w2 vm) = hardware_device (the_vm w vm).
Proof.
  intros Hs Hi w2.
  assert (S2 : sends [PowerOffVM_Task vm] w w2)
    by (eapply sends_quiet_r; [exact Hs | apply quiet_sleep]).
  split; [exact S2 | split; [exact Hi | split]].
  - rewrite (next_reaction_sends _ _ _ S2). unfold r2, second_reaction.
    cbn [List.length]. rewrite Nat.add_1_r. reflexivity.
  - unfold the_vm. change (inventory w2) with (inventory w1). rewrite Hi.
    unfold commit. destruct (committed r1); auto.
    apply nth_update_vm_field. reflexivity.
Qed.

(** Powered on, powered off, and the edit is not seen to succeed: the VM
    is not powered on again. *)
Lemma bracket_edit_fails :
  powerState (the_vm w vm) = poweredOn ->
  accepted r1 = true ->
  accepted r2 = false ->
  outcome w run (Some false)
    [PowerOffVM_Task vm; ReconfigVM_Task vm spec]
    (commit (committed r2) vm (apply_spec spec) (update_vm vm off (inventory w))).
Proof.
  intros Hp Ha1 Ha2. unfold run, Ptp.edit_with_power_bracket.
  rewrite Hp. cbv zeta. simpl power_state_eqb. cbv iota beta.
  set (w0 := print _ w).
  pose proof (request_step_print _ _ _ _ _ _ (power_off_vm_step vm w0)) as St.
  destruct (Ptp.power_off_vm vm w0) as [ok w1]. destruct St as [Hr Hi Hs].
  cbn [fst snd] in *. fold r1 in Hr, Hi. rewrite Ha1 in Hr. subst ok.
  cbn [negb].
  destruct (after_power_off w1 Hs Hi) as (S2 & I2 & N2 & D2).
  pose proof (edit_step _ D2) as St.
  destruct (edit vm (sleep 2 w1)) as [ok w3]. destruct St as [Hr3 Hi3 Hs3].
  cbn [fst snd] in *. rewrite N2 in Hr3, Hi3. rewrite Ha2 in Hr3. subst ok.
  cbn [andb]. split; cbn [fst snd]; auto.
  - apply (sends_trans [PowerOffVM_Task vm] [ReconfigVM_Task vm spec] _ _ _ S2 Hs3).
  - rewrite Hi3, I2. rewrite (accepted_committed _ Ha1). reflexivity.
Qed.

(** Powered on, powered off, edited: the power-on decides. *)
Lemma bracket_edit_succeeds :
  powerState (the_vm w vm) = poweredOn ->
  accepted r1 = true ->
  accepted r2 = true ->
  outcome w run (Some (accepted r3))
    [PowerOffVM_Task vm; ReconfigVM_Task vm spec; PowerOnVM_Task vm]
    (commit (committed r3) vm on
       (update_vm vm (apply_spec spec) (update_vm vm off (inventory w)))).
Proof.
  intros Hp Ha1 Ha2. unfold run, Ptp.edit_with_power_bracket.
  rewrite Hp. cbv zeta. simpl power_state_eqb. cbv iota beta.
  set (w0 := print _ w).
  pose proof (request_step_print _ _ _ _ _ _ (power_off_vm_step vm w0)) as St.
  destruct (Ptp.power_off_vm vm w0) as [ok w1]. destruct St as [Hr Hi Hs].
  cbn [fst snd] in *. fold r1 in Hr, Hi. rewrite Ha1 in Hr. subst ok.
  cbn [negb].
  destruct (after_power_off w1 Hs Hi) as (S2 & I2 & N2 & D2).
  pose proof (edit_step _ D2) as St.
  destruct (edit vm (sleep 2 w1)) as [ok w3]. destruct St as [Hr3 Hi3 Hs3].
  cbn [fst snd] in *. rewrite N2 in Hr3, Hi3. rewrite Ha2 in Hr3. subst ok.
  cbn [andb].
  assert (S3 : sends [PowerOffVM_Task vm; ReconfigVM_Task vm spec] w (sleep 2 w3)).
  { eapply sends_quiet_r; [| apply quiet_sleep].
    apply (sends_trans [PowerOffVM_Task vm] [ReconfigVM_Task vm spec] _ _ _ S2 Hs3). }
  assert (N3 : next_reaction (sleep 2 w3) = r3).
  { rewrite (next_reaction_sends _ _ _ S3). unfold r3, third_reaction.
    cbn [List.length]. f_equal. lia. }
  pose proof (power_on_vm_step vm (sleep 2 w3)) as St.
  destruct (Ptp.power_on_vm vm (sleep 2 w3)) as [ok w4]. destruct St as [Hr4 Hi4 Hs4].
  cbn [fst snd] in *. rewrite N3 in Hr4, Hi4. subst ok.
  assert (I4 : inventory w4 =
               commit (committed r3) vm on
                 (update_vm vm (apply_spec spec) (update_vm vm off (inventory w)))).
  { rewrite Hi4. change (inventory (sleep 2 w3)) with (inventory w3).
    rewrite Hi3, I2, (accepted_committed _ Ha1), (accepted_committed _ Ha2).
    reflexivity. }
  pose proof (sends_trans _ [PowerOnVM_Task vm] _ _ _ S3 Hs4) as S4.
  destruct (accepted r3); cbn [negb]; split; cbn [fst snd]; auto.
Qed.

End PowerBracket.

(** ** Looking a VM up *)

Lemma find_vm_some vm_name view i vm :
  Ptp.find_vm vm_name view i = Some vm ->
  (i <= vm)%nat /\ (vm - i < List.length view)%nat /\
  name (nth (vm - i) view default_vm) = vm_name.
Proof.
  revert i. induction view as [| v view IH]; intros i H; simpl in H; [discriminate |].
  destruct (name v =? vm_name)%string eqn:E.
  - injection H as <-. rewrite Nat.sub_diag. simpl.
    apply String.eqb_eq in E. repeat apply conj; auto; lia.
  - apply IH in H. destruct H as (H1 & H2 & H3).
    replace (vm - i)%nat with (S (vm - S i)) by lia. simpl.
    repeat apply conj; auto; lia.
Qed.

Lemma find_vm_none vm_name view i :
  Ptp.find_vm vm_name view i = None -> ~ In vm_name (map name view).
Proof.
  revert i. induction view as [| v view IH]; intros i H; simpl in *; [tauto |].
  destruct (name v =? vm_name)%string eqn:E; [discriminate |].
  apply String.eqb_neq in E. intros [F | F]; [congruence |]. exact (IH _ H F).
Qed.

(** A VM that is found is in the inventory and has the name asked for. *)
Lemma found_vm vm_name w vm :
  Ptp.get_vm_by_name vm_name w = Some vm ->
  (vm < List.length (inventory w))%nat /\ name (the_vm w vm) = vm_name.
Proof.
  intros H. apply find_vm_some in H. rewrite Nat.sub_0_r in H.
  unfold the_vm. tauto.
Qed.

Lemma has_no_ptp_device vm w :
  Ptp.has_ptp_device vm w = false -> Ptp.get_ptp_device vm w = None.
Proof.
  unfold Ptp.has_ptp_device, Ptp.get_ptp_device.
  induction (hardware_device (the_vm w vm)) as [| d l IH]; simpl; auto.
  destruct (is_precision_clock d); simpl; [discriminate | exact IH].
Qed.

Lemma has_a_ptp_device vm w :
  Ptp.has_ptp_device vm w = true ->
  exists d, Ptp.get_ptp_device vm w = Some d /\ is_precision_clock d = true.
Proof.
  unfold Ptp.has_ptp_device, Ptp.get_ptp_device.
  induction (hardware_device (the_vm w vm)) as [| d l IH]; simpl; [discriminate |].
  destruct (is_precision_clock d) eqn:E; simpl; eauto.
Qed.

Lemma since_same w w' : trace w' = trace w -> since w w' = [].
Proof.
  intros E. apply since_app. rewrite app_nil_r. exact E.
Qed.

(** ** [process_vm] by action *)

(** The world in which the branches of [process_vm] start. *)
Definition announced (vm_name : string) (w : World) : World :=
  print ("Processing VM: " ++ vm_name)%string (print ""%string w).

Lemma process_vm_read vm_name vm w :
  Ptp.get_vm_by_name vm_name w = Some vm ->
  exists lines,
    Ptp.process_vm vm_name "read" w = (Some true, Ptp.print_all lines w).
Proof.
  intros F. unfold Ptp.process_vm.
  change (Ptp.get_vm_by_name vm_name (print _ (print _ w)))
    with (Ptp.get_vm_by_name vm_name w).
  rewrite F. cbv zeta. change ("read" =? "read")%string with true. cbv iota.
  set (w0 := print _ (print _ w)).
  change (Ptp.has_ptp_device vm w0) with (Ptp.has_ptp_device vm w).
  destruct (Ptp.has_ptp_device vm w) eqn:H.
  - change (Ptp.get_ptp_device vm (print _ w0)) with (Ptp.get_ptp_device vm w).
    destruct (Ptp.get_ptp_device vm w) as [d |].
    + eexists [_; _; _; _; _]. reflexivity.
    + eexists [_; _; _]. reflexivity.
  - eexists [_; _; _]. reflexivity.
Qed.

Lemma process_vm_enable vm_name vm w :
  Ptp.get_vm_by_name vm_name w = Some vm ->
  Ptp.process_vm vm_name "enable" w =
    if Ptp.has_ptp_device vm w then
      (None, print ("  VM " ++ vm_name ++ " already has a PTP device. Skipping.")%string
               (announced vm_name w))
    else Ptp.edit_with_power_bracket Ptp.add_ptp_device vm_name vm (announced vm_name w).
Proof.
  intros F. unfold Ptp.process_vm.
  change (Ptp.get_vm_by_name vm_name (print _ (print _ w)))
    with (Ptp.get_vm_by_name vm_name w).
  rewrite F. reflexivity.
Qed.

Lemma process_vm_disable vm_name vm w :
  Ptp.get_vm_by_name vm_name w = Some vm ->
  Ptp.process_vm vm_name "disable" w =
    if negb (Ptp.has_ptp_device vm w) then
      (None, print ("  VM " ++ vm_name ++ " does not have a PTP device. Skipping.")%string
               (announced vm_name w))
    else Ptp.edit_with_power_bracket Ptp.remove_ptp_device vm_name vm (announced vm_name w).
Proof.
  intros F. unfold Ptp.process_vm.
  change (Ptp.get_vm_by_name vm_name (print _ (print _ w)))
    with (Ptp.get_vm_by_name vm_name w).
  rewrite F. reflexivity.
Qed.

Lemma process_vm_not_found vm_name action w :
  Ptp.get_vm_by_name vm_name w = None ->
  Ptp.process_vm vm_name action w =
    (Some false, print ("  ERROR: VM '" ++ vm_name ++ "' not found")%string
                   (announced vm_name w)).
Proof.
  intros F. unfold Ptp.process_vm.
  change (Ptp.get_vm_by_name vm_name (print _ (print _ w)))
    with (Ptp.get_vm_by_name vm_name w).
  rewrite F. reflexivity.
Qed.

Lemma print_all_quiet lines w : quiet w (Ptp.print_all lines w).
Proof.
  revert w. induction lines as [| l lines IH]; intros w; simpl.
  - apply quiet_refl.
  - eapply quiet_trans; [apply quiet_print | apply IH].
Qed.

Lemma print_all_trace lines w : trace (Ptp.print_all lines w) = trace w.
Proof.
  revert w. induction lines as [| l lines IH]; intros w; simpl; auto.
  rewrite IH. reflexivity.
Qed.

Lemma print_all_inventory lines w : inventory (Ptp.print_all lines w) = inventory w.
Proof. apply (quiet_inventory _ _ (print_all_quiet lines w)). Qed.

Lemma outcome_announced {A} vm_name w (res : A * World) value rs inv :
  outcome (announced vm_name w) res value rs inv -> outcome w res value rs inv.
Proof.
  intros [V [R [evs T]] I]. split; auto. split; [exact R | exists evs; exact T].
Qed.

(** ** Concrete scenarios *)

Module Scenario.

Definition clock_device : VirtualDevice :=
  {| dev_class := VirtualPrecisionClock; key := 19000;
     backing := Some SystemClockBackingInfo; label := "Precision Clock" |}.

Definition disk : VirtualDevice :=
  {| dev_class := VirtualDisk; key := 2000; backing := Some OtherBacking;
     label := "Hard disk 1" |}.

Definition vm_of (n : string) (p : VirtualMachinePowerState) (devs : list VirtualDevice) : VM :=
  {| name := n; powerState := p; hardware_device := devs;
     vmOpNotificationToAppEnabled := None; vmOpNotificationTimeout := Some 120 |}.

Definition make_world (inv : list VM) (r : nat -> Response) : World :=
  {| inventory := inv; clock := 1000; trace := []; stdout := []; stderr := [];
     reaction := r |}.

Definition fault : Fault :=
  {| msg := "The operation is not allowed in the current state.";
     fault_str := "(vim.fault.InvalidState)" |}.

Definition ok_after (d : nat) : Response := Accepts {| delay := d; result := Succeeds |}.
Definition fails_after (d : nat) : Response := Accepts {| delay := d; result := Fails fault |}.
Definition hangs : Response := Accepts {| delay := 0; result := Hangs |}.

(** Three VMs: A runs and has no clock, B is off and has none, C runs and
    has one. *)
Definition three : list VM :=
  [ vm_of "A" poweredOn [disk];
    vm_of "B" poweredOff [disk];
    vm_of "C" poweredOn [disk; clock_device] ].

(** Every request is answered with a task that succeeds after two reads. *)
Definition all_well : World := make_world three (fun _ => ok_after 2).

(** The first request succeeds, every later one fails. *)
Definition second_fails : World :=
  make_world three (fun n => match n with O => ok_after 1 | _ => fails_after 1 end).

(** Every request fails. *)
Definition all_fail : World := make_world three (fun _ => fails_after 0).

(** Every request is answered with a task that succeeds after three reads. *)
Definition slow : World := make_world three (fun _ => ok_after 3).

(** A task that never leaves the running state. *)
Definition stuck : Task := fun _ => running.

(** A task that is running for two reads and then in error. *)
Definition breaks : Task := task_of_plan {| delay := 2; result := Fails fault |}.

End Scenario.

(** ** The idempotency gate and the read action *)

(** C3.  A found VM that already has a precision-clock device: enable
    gives None (skipped), sends no request and adds nothing to the trace;
    a found VM without one: disable does the same. *)
Theorem skip_sends_nothing vm_name vm w :
  Ptp.get_vm_by_name vm_name w = Some vm ->
  (Ptp.has_ptp_device vm w = true ->
   let res := Ptp.process_vm vm_name "enable" w in
   fst res = None /\ fst res <> Some true /\ fst res <> Some false /\
   filter is_reconfig_request (since w (snd res)) = [] /\
   filter is_power_request (since w (snd res)) = [] /\
   since w (snd res) = [] /\
   inventory (snd res) = inventory w) /\
  (Ptp.has_ptp_device vm w = false ->
   let res := Ptp.process_vm vm_name "disable" w in
   fst res = None /\ fst res <> Some true /\ fst res <> Some false /\
   filter is_reconfig_request (since w (snd res)) = [] /\
   filter is_power_request (since w (snd res)) = [] /\
   since w (snd res) = [] /\
   inventory (snd res) = inventory w).
Proof.
  intros F. split; intros H res; subst res.
  - rewrite (process_vm_enable _ _ _ F), H. cbn [fst snd].
    rewrite since_same by reflexivity.
    repeat apply conj; auto; discriminate.
  - rewrite (process_vm_disable _ _ _ F), H. cbn [fst snd negb].
    rewrite since_same by reflexivity.
    repeat apply conj; auto; discriminate.
Qed.

Lemma skip_sends_nothing_witness :
  fst (Ptp.process_vm "C" "enable" Scenario.all_well) = None /\
  fst (Ptp.process_vm "B" "disable" Scenario.all_well) = None.
Proof.
  split.
  - apply (proj1 (skip_sends_nothing "C" 2%nat Scenario.all_well eq_refl) eq_refl).
  - apply (proj2 (skip_sends_nothing "B" 1%nat Scenario.all_well eq_refl) eq_refl).
Defined.

(** C10.  The read action on a found VM returns True, adds nothing to the
    trace (no reconfiguration, no power request) and leaves the inventory
    as it is, with or without a precision-clock device. *)
Theorem read_changes_nothing vm_name vm w :
  Ptp.get_vm_by_name vm_name w = Some vm ->
  let res := Ptp.process_vm vm_name "read" w in
  fst res = Some true /\
  filter is_reconfig_request (since w (snd res)) = [] /\
  filter is_power_request (since w (snd res)) = [] /\
  since w (snd res) = [] /\
  inventory (snd res) = inventory w.
Proof.
  intros F res. subst res.
  destruct (process_vm_read _ _ _ F) as [lines ->]. cbn [fst snd].
  rewrite (since_same w _ (print_all_trace lines w)).
  repeat apply conj; auto. apply print_all_inventory.
Qed.

Lemma read_changes_nothing_witness :
  fst (Ptp.process_vm "C" "read" Scenario.all_fail) = Some true /\
  fst (Ptp.process_vm "A" "read" Scenario.all_fail) = Some true.
Proof.
  split.
  - apply (read_changes_nothing "C" 2%nat Scenario.all_fail eq_refl).
  - apply (read_changes_nothing "A" 0%nat Scenario.all_fail eq_refl).
Defined.

(** C9.  [remove_ptp_device] on a VM without a precision-clock device
    returns False and sends nothing. *)
Theorem remove_without_device vm w :
  Ptp.has_ptp_device vm w = false ->
  let res := Ptp.remove_ptp_device vm w in
  fst res = false /\
  filter is_reconfig_request (since w (snd res)) = [] /\
  since w (snd res) = [] /\
  inventory (snd res) = inventory w.
Proof.
  intros H res. subst res. unfold Ptp.remove_ptp_device.
  change (Ptp.get_ptp_device vm (print _ w)) with (Ptp.get_ptp_device vm w).
  rewrite (has_no_ptp_device _ _ H). cbn [fst snd].
  rewrite since_same by reflexivity. auto.
Qed.

Lemma remove_without_device_witness :
  fst (Ptp.remove_ptp_device 0%nat Scenario.all_well) = false.
Proof.
  apply (remove_without_device 0%nat Scenario.all_well eq_refl).
Defined.

(** ** The power bracket around an edit *)

Lemma add_edit_step vm w w1 :
  hardware_device (the_vm w1 vm) = hardware_device (the_vm w vm) ->
  request_step (ReconfigVM_Task vm Ptp.add_spec) vm (apply_spec Ptp.add_spec) w1
    (Ptp.add_ptp_device vm w1).
Proof. intros _. apply add_ptp_device_step. Qed.

Lemma remove_edit_step vm w d w1 :
  Ptp.get_ptp_device vm w = Some d ->
  hardware_device (the_vm w1 vm) = hardware_device (the_vm w vm) ->
  request_step (ReconfigVM_Task vm (Ptp.remove_spec d)) vm
    (apply_spec (Ptp.remove_spec d)) w1 (Ptp.remove_ptp_device vm w1).
Proof.
  intros G E. apply remove_ptp_device_step.
  unfold Ptp.get_ptp_device in *. rewrite E. exact G.
Qed.

Lemma not_in_since e rs w w' :
  requests_of_call w w' = rs -> is_request e = true -> ~ In e rs -> ~ In e (since w w').
Proof.
  intros R He Hn Hi. apply Hn. rewrite <- R. unfold requests_of_call.
  apply filter_In. auto.
Qed.

Lemma power_state_after_edit c vm s p inv :
  (vm < List.length inv)%nat ->
  powerState (nth vm (commit c vm (apply_spec s) (update_vm vm (set_power p) inv)) default_vm)
  = p.
Proof.
  intros L. unfold commit. destruct c.
  - rewrite (nth_update_vm_field powerState) by reflexivity.
    rewrite nth_update_vm_eq by assumption. reflexivity.
  - rewrite nth_update_vm_eq by assumption. reflexivity.
Qed.

(** C2, as the code has it.  For a found VM without a precision-clock
    device, enable sends exactly power-off, reconfigure-add, power-on when
    the VM is powered on and the power-off and the add are seen to succeed;
    it sends exactly the reconfigure-add when the VM is not powered on. *)
Theorem enable_request_sequence vm_name vm w :
  Ptp.get_vm_by_name vm_name w = Some vm ->
  Ptp.has_ptp_device vm w = false ->
  let w' := snd (Ptp.process_vm vm_name "enable" w) in
  (powerState (the_vm w vm) = poweredOn ->
   accepted (next_reaction w) = true ->
   accepted (second_reaction w) = true ->
   requests_of_call w w' =
     [PowerOffVM_Task vm; ReconfigVM_Task vm Ptp.add_spec; PowerOnVM_Task vm]) /\
  (powerState (the_vm w vm) <> poweredOn ->
   requests_of_call w w' = [ReconfigVM_Task vm Ptp.add_spec] /\
   filter is_power_request (requests_of_call w w') = []).
Proof.
  intros F H w'. subst w'. rewrite (process_vm_enable _ _ _ F), H. split.
  - intros Hp A1 A2. apply sends_requests_of_call.
    apply (out_sends (A := option bool) w _ (Some (accepted (third_reaction w)))
             _ (commit (committed (third_reaction w)) vm (set_power poweredOn)
                  (update_vm vm (apply_spec Ptp.add_spec)
                     (update_vm vm (set_power poweredOff) (inventory w))))).
    apply (outcome_announced vm_name).
    apply (bracket_edit_succeeds Ptp.add_ptp_device vm_name vm Ptp.add_spec
             (announced vm_name w) (add_edit_step vm _) Hp A1 A2).
  - intros Hp.
    assert (S : requests_of_call w
                  (snd (Ptp.edit_with_power_bracket Ptp.add_ptp_device vm_name vm
                          (announced vm_name w)))
                = [ReconfigVM_Task vm Ptp.add_spec]).
    { apply sends_requests_of_call.
      apply (out_sends (A := option bool) w _ (Some (accepted (next_reaction w)))
               _ (commit (committed (next_reaction w)) vm (apply_spec Ptp.add_spec)
                    (inventory w))).
      apply (outcome_announced vm_name).
      apply (bracket_not_powered_on Ptp.add_ptp_device vm_name vm Ptp.add_spec
               (announced vm_name w) (add_edit_step vm _) Hp). }
    rewrite S. auto.
Qed.

Lemma enable_request_sequence_witness :
  requests_of_call Scenario.all_well
    (snd (Ptp.process_vm "A" "enable" Scenario.all_well)) =
    [PowerOffVM_Task 0%nat; ReconfigVM_Task 0%nat Ptp.add_spec; PowerOnVM_Task 0%nat] /\
  requests_of_call Scenario.all_well
    (snd (Ptp.process_vm "B" "enable" Scenario.all_well)) =
    [ReconfigVM_Task 1%nat Ptp.add_spec].
Proof.
  split.
  - apply (proj1 (enable_request_sequence "A" 0%nat Scenario.all_well eq_refl eq_refl));
      reflexivity.
  - apply (proj2 (enable_request_sequence "B" 1%nat Scenario.all_well eq_refl eq_refl)).
    discriminate.
Defined.

(** C2 as stated fails: a powered-on VM whose power-off fails gets the
    power-off request and nothing else. *)
Lemma enable_stops_after_failed_power_off :
  Ptp.get_vm_by_name "A" Scenario.all_fail = Some 0%nat /\
  Ptp.has_ptp_device 0%nat Scenario.all_fail = false /\
  powerState (the_vm Scenario.all_fail 0%nat) = poweredOn /\
  requests_of_call Scenario.all_fail
    (snd (Ptp.process_vm "A" "enable" Scenario.all_fail)) = [PowerOffVM_Task 0%nat] /\
  requests_of_call Scenario.all_fail
    (snd (Ptp.process_vm "A" "enable" Scenario.all_fail)) <>
    [PowerOffVM_Task 0%nat; ReconfigVM_Task 0%nat Ptp.add_spec; PowerOnVM_Task 0%nat].
Proof.
  repeat apply conj; try reflexivity.
  vm_compute. discriminate.
Qed.

(** C1, as the code has it.  A powered-on VM is powered off; when the edit
    is then not seen to succeed, the result is False, no power-on is sent
    and the VM stays powered off. *)
Theorem failed_edit_leaves_vm_off vm_name vm w :
  Ptp.get_vm_by_name vm_name w = Some vm ->
  powerState (the_vm w vm) = poweredOn ->
  accepted (next_reaction w) = true ->
  accepted (second_reaction w) = false ->
  (Ptp.has_ptp_device vm w = false ->
   let res := Ptp.process_vm vm_name "enable" w in
   fst res = Some false /\
   requests_of_call w (snd res) = [PowerOffVM_Task vm; ReconfigVM_Task vm Ptp.add_spec] /\
   ~ In (PowerOnVM_Task vm) (since w (snd res)) /\
   powerState (the_vm (snd res) vm) = poweredOff) /\
  (Ptp.has_ptp_device vm w = true ->
   exists d, Ptp.get_ptp_device vm w = Some d /\
   let res := Ptp.process_vm vm_name "disable" w in
   fst res = Some false /\
   requests_of_call w (snd res) =
     [PowerOffVM_Task vm; ReconfigVM_Task vm (Ptp.remove_spec d)] /\
   ~ In (PowerOnVM_Task vm) (since w (snd res)) /\
   powerState (the_vm (snd res) vm) = poweredOff).
Proof.
  intros F Hp A1 A2. destruct (found_vm _ _ _ F) as [L _]. split.
  - intros H res. subst res. rewrite (process_vm_enable _ _ _ F), H.
    destruct (outcome_announced vm_name w _ _ _ _
                (bracket_edit_fails Ptp.add_ptp_device vm_name vm Ptp.add_spec
                   (announced vm_name w) (add_edit_step vm _) Hp A1 A2))
      as [V S I].
    pose proof (sends_requests_of_call _ _ _ S) as R.
    repeat apply conj; auto.
    + apply (not_in_since _ _ _ _ R); [reflexivity |].
      simpl. intros [E | [E | []]]; discriminate.
    + unfold the_vm. rewrite I. apply power_state_after_edit. exact L.
  - intros H. destruct (has_a_ptp_device _ _ H) as [d [G _]].
    exists d. split; [exact G |]. intros res. subst res.
    rewrite (process_vm_disable _ _ _ F), H. cbn [negb].
    destruct (outcome_announced vm_name w _ _ _ _
                (bracket_edit_fails Ptp.remove_ptp_device vm_name vm (Ptp.remove_spec d)
                   (announced vm_name w)
                   (fun w1 => remove_edit_step vm (announced vm_name w) d w1 G)
                   Hp A1 A2))
      as [V S I].
    pose proof (sends_requests_of_call _ _ _ S) as R.
    repeat apply conj; auto.
    + apply (not_in_since _ _ _ _ R); [reflexivity |].
      simpl. intros [E | [E | []]]; discriminate.
    + unfold the_vm. rewrite I. apply power_state_after_edit. exact L.
Qed.

Lemma failed_edit_leaves_vm_off_witness :
  fst (Ptp.process_vm "A" "enable" Scenario.second_fails) = Some false /\
  powerState (the_vm (snd (Ptp.process_vm "A" "enable" Scenario.second_fails)) 0%nat)
    = poweredOff /\
  fst (Ptp.process_vm "C" "disable" Scenario.second_fails) = Some false.
Proof.
  pose proof (failed_edit_leaves_vm_off "A" 0%nat Scenario.second_fails
                eq_refl eq_refl eq_refl eq_refl) as [HA _].
  pose proof (failed_edit_leaves_vm_off "C" 2%nat Scenario.second_fails
                eq_refl eq_refl eq_refl eq_refl) as [_ HC].
  destruct (HA eq_refl) as (V & _ & _ & P).
  destruct (HC eq_refl) as (d & _ & V' & _).
  repeat apply conj; assumption.
Defined.

(** C1 as stated fails: the VM was powered on, the power-off succeeded,
    the add failed, and no power-on request follows; the VM is left off. *)
Lemma no_power_on_after_failed_edit :
  Ptp.get_vm_by_name "A" Scenario.second_fails = Some 0%nat /\
  powerState (the_vm Scenario.second_fails 0%nat) = poweredOn /\
  fst (Ptp.process_vm "A" "enable" Scenario.second_fails) = Some false /\
  requests_of_call Scenario.second_fails
    (snd (Ptp.process_vm "A" "enable" Scenario.second_fails)) =
    [PowerOffVM_Task 0%nat; ReconfigVM_Task 0%nat Ptp.add_spec] /\
  existsb (fun e => match e with PowerOnVM_Task _ => true | _ => false end)
    (since Scenario.second_fails
       (snd (Ptp.process_vm "A" "enable" Scenario.second_fails))) = false /\
  powerState
    (the_vm (snd (Ptp.process_vm "A" "enable" Scenario.second_fails)) 0%nat) = poweredOff.
Proof.
  vm_compute. repeat apply conj; reflexivity.
Qed.

(** ** The wait in the notification script *)

Lemma busy_wait_quiet fuel task k w : quiet w (world_of (Notify.busy_wait fuel task k w)).
Proof.
  revert k w. induction fuel as [| fuel IH]; intros k w; simpl;
    destruct (is_terminal (task k)); simpl; auto with quiet.
  eapply quiet_trans; [apply quiet_read | apply IH].
Qed.

(** The loop only reads: what it adds to the trace is the states it saw,
    one after the other. *)
Lemma busy_wait_trace fuel task k w :
  exists m, trace (world_of (Notify.busy_wait fuel task k w)) =
            trace w ++ map (fun j => ReadTaskState (task j)) (seq k m).
Proof.
  revert k w. induction fuel as [| fuel IH]; intros k w; simpl.
  - exists 1%nat. destruct (is_terminal (task k)); reflexivity.
  - destruct (is_terminal (task k)).
    + exists 1%nat. reflexivity.
    + destruct (IH (S k) (log (ReadTaskState (task k)) w)) as [m E].
      exists (S m). rewrite E. simpl. rewrite <- app_assoc. reflexivity.
Qed.

Lemma busy_wait_returns fuel task k w n :
  (k <= n)%nat -> (n - k <= fuel)%nat ->
  is_terminal (task n) = true ->
  (forall j, (k <= j < n)%nat -> is_terminal (task j) = false) ->
  exists w', Notify.busy_wait fuel task k w = Returned (S n) w' /\
             stderr w' = stderr w /\ stdout w' = stdout w.
Proof.
  revert k w. induction fuel as [| fuel IH]; intros k w Hk Hf Ht Hb; simpl.
  - assert (n = k) by lia. subst. rewrite Ht. eauto.
  - destruct (Nat.eq_dec n k) as [-> | Hne].
    + rewrite Ht. eauto.
    + rewrite (Hb k) by lia.
      destruct (IH (S k) (log (ReadTaskState (task k)) w)) as (w' & E & H1 & H2);
        try lia; auto.
      * intros j Hj. apply Hb. lia.
      * exists w'. auto.
Qed.

(** A task that stays in a non-terminal state keeps the loop spinning,
    however long it is followed. *)
Lemma busy_wait_spins fuel task k w :
  (forall j, is_terminal (task j) = false) ->
  exists w', Notify.busy_wait fuel task k w = Spinning w'.
Proof.
  intros H. revert k w. induction fuel as [| fuel IH]; intros k w; simpl; rewrite H; eauto.
Qed.

(** Whether a reaction lets the notification script come back within
    [fuel] turns of its loop. *)
Definition settles (fuel : nat) (r : Response) : bool :=
  match r with
  | Raises _ => true
  | Accepts p =>
      match result p with
      | Hangs => false
      | _ => (delay p <=? fuel)%nat
      end
  end.

Lemma set_settings_sends fuel vm timeout enabled w :
  sends [ReconfigVM_Task vm (Notify.build_spec timeout enabled)] w
    (world_of (Notify.set_vm_notification_settings fuel vm timeout enabled w)) /\
  inventory (world_of (Notify.set_vm_notification_settings fuel vm timeout enabled w)) =
    commit (committed (next_reaction w)) vm
      (apply_spec (Notify.build_spec timeout enabled)) (inventory w).
Proof.
  unfold Notify.set_vm_notification_settings, call_ReconfigVM_Task.
  set (spec := Notify.build_spec timeout enabled).
  pose proof (submit_sends (ReconfigVM_Task vm spec) vm (apply_spec spec) w eq_refl) as S.
  pose proof (submit_inventory (ReconfigVM_Task vm spec) vm (apply_spec spec) w) as I.
  destruct (submit (ReconfigVM_Task vm spec) vm (apply_spec spec) w) as [[exn | task] w1];
    cbn [snd] in S, I.
  - split; [exact S | exact I].
  - pose proof (busy_wait_quiet fuel task 0 w1) as Q.
    destruct (Notify.busy_wait fuel task 0 w1) as [m w2 | w2]; cbn [world_of] in *.
    + assert (Q' : quiet w1
                     (world_of
                        (let (st, w3) := read_state task m w2 in
                         match st with
                         | success => Returned true w3
                         | error f =>
                             Returned false
                               (eprint ("Error: Task failed with error: " ++ msg f)%string w3)
                         | _ =>
                             Returned false
                               (eprint ("Error: Failed to reconfigure VM: "
                                        ++ "'NoneType' object has no attribute 'msg'")%string
                                  w3)
                         end))).
      { unfold read_state. eapply quiet_trans; [exact Q |].
        destruct (task m); cbn [world_of];
          first [apply quiet_read
                | eapply quiet_trans; [apply quiet_read | apply quiet_eprint]]. }
      split.
      * eapply sends_quiet_r; [exact S | exact Q'].
      * rewrite (quiet_inventory _ _ Q'). exact I.
    + split.
      * eapply sends_quiet_r; [exact S | exact Q].
      * rewrite (quiet_inventory _ _ Q). exact I.
Qed.

Lemma set_settings_returns fuel vm timeout enabled w :
  settles fuel (next_reaction w) = true ->
  exists w',
    Notify.set_vm_notification_settings fuel vm timeout enabled w =
      Returned (committed (next_reaction w)) w'.
Proof.
  intros H. unfold Notify.set_vm_notification_settings, call_ReconfigVM_Task.
  set (spec := Notify.build_spec timeout enabled).
  pose proof (submit_answer (ReconfigVM_Task vm spec) vm (apply_spec spec) w) as A.
  destruct (submit (ReconfigVM_Task vm spec) vm (apply_spec spec) w) as [r w1].
  cbn [fst] in A. destruct (next_reaction w) as [exn | p]; subst r.
  - eauto.
  - simpl in H. cbn [committed].
    assert (Hh : result p <> Hangs) by (destruct (result p); congruence).
    assert (Hd : (delay p <= fuel)%nat)
      by (destruct (result p); try discriminate; apply Nat.leb_le; exact H).
    destruct (plan_first_terminal p Hh) as [Ht Hb].
    destruct (busy_wait_returns fuel (task_of_plan p) 0 w1 (delay p)) as (w2 & E & _);
      try lia; auto.
    { intros j Hj. apply Hb. lia. }
    rewrite E. unfold read_state.
    assert (T : task_of_plan p (S (delay p)) =
                match result p with
                | Succeeds => success | Fails f => error f | Hangs => running
                end).
    { unfold task_of_plan.
      replace (S (delay p) <? delay p)%nat with false
        by (symmetry; apply Nat.ltb_ge; lia).
      reflexivity. }
    rewrite T. destruct (result p); try congruence; eauto.
Qed.

Lemma submit_stderr e vm f w : stderr (snd (submit e vm f w)) = stderr w.
Proof.
  unfold submit. destruct (reaction w (List.length (requests w))) as [exn | p]; simpl; auto.
  destruct (result p); reflexivity.
Qed.

Lemma set_settings_error fuel vm timeout enabled w d f :
  next_reaction w = Accepts {| delay := d; result := Fails f |} ->
  (d <= fuel)%nat ->
  exists w',
    Notify.set_vm_notification_settings fuel vm timeout enabled w = Returned false w' /\
    stderr w' = stderr w ++ [("Error: Task failed with error: " ++ msg f)%string].
Proof.
  intros R Hd. unfold Notify.set_vm_notification_settings, call_ReconfigVM_Task.
  set (spec := Notify.build_spec timeout enabled).
  pose proof (submit_answer (ReconfigVM_Task vm spec) vm (apply_spec spec) w) as A.
  pose proof (submit_stderr (ReconfigVM_Task vm spec) vm (apply_spec spec) w) as E1.
  destruct (submit (ReconfigVM_Task vm spec) vm (apply_spec spec) w) as [r w1].
  cbn [fst snd] in A, E1. rewrite R in A. subst r.
  set (p := {| delay := d; result := Fails f |}).
  destruct (plan_first_terminal p) as [Ht Hb]; [discriminate |].
  destruct (busy_wait_returns fuel (task_of_plan p) 0 w1 d) as (w2 & E & E2 & _);
    try lia; auto.
  { intros j Hj. apply Hb. simpl. lia. }
  rewrite E. unfold read_state.
  assert (T : task_of_plan p (S d) = error f).
  { unfold task_of_plan. simpl delay.
    replace (S d <? d)%nat with false by (symmetry; apply Nat.ltb_ge; lia).
    reflexivity. }
  rewrite T. eexists. split; [reflexivity |]. simpl. congruence.
Qed.

(** ** The Task Awaiter *)

(** C4, as the code has it.  [wait_for_task] returns False when the
    timeout elapses before the task leaves the non-terminal states, after
    printing that the task timed out and without sending anything to the
    platform (the task is not cancelled); it returns False, and prints the
    platform's error, when the task ends in error.  The wait of the
    notification script returns False and prints the platform's message
    when the task ends in error. *)
Theorem wait_for_task_outcomes task timeout w :
  (0 <= timeout ->
   (forall j, Z.of_nat j <= timeout + 1 -> is_terminal (task j) = false) ->
   let res := wait_for_task task timeout w in
   fst res = false /\
   stdout (snd res) =
     stdout w ++ [("Task timed out after " ++ str_Z timeout ++ " seconds")%string] /\
   clock (snd res) = clock w + timeout + 1 /\
   requests_of_call w (snd res) = []) /\
  (forall n f,
   first_terminal task n -> in_time n timeout ->
   task n = error f -> task (S n) = error f ->
   let res := wait_for_task task timeout w in
   fst res = false /\
   stdout (snd res) = stdout w ++ [("Task failed: " ++ fault_str f)%string] /\
   requests_of_call w (snd res) = []) /\
  (forall fuel vm t e d f,
   next_reaction w = Accepts {| delay := d; result := Fails f |} ->
   (d <= fuel)%nat ->
   exists w',
     Notify.set_vm_notification_settings fuel vm t e w = Returned false w' /\
     stderr w' = stderr w ++ [("Error: Task failed with error: " ++ msg f)%string]).
Proof.
  assert (Q : requests_of_call w (snd (wait_for_task task timeout w)) = []).
  { apply sends_requests_of_call, quiet_sends, wait_for_task_quiet. }
  repeat apply conj.
  - intros H0 Hrun res. subst res.
    destruct (wait_for_task_timed_out task timeout w H0 Hrun) as (V & O & C).
    auto.
  - intros n f Hf Hin _ Hs res. subst res.
    destruct (wait_for_task_error task timeout w n f Hf Hin Hs) as (V & O).
    auto.
  - intros fuel vm t e d f. apply set_settings_error.
Qed.

Lemma wait_for_task_outcomes_witness :
  fst (wait_for_task Scenario.stuck 3 Scenario.all_well) = false /\
  fst (wait_for_task Scenario.breaks 3 Scenario.all_well) = false /\
  (exists w',
     Notify.set_vm_notification_settings 5 1%nat (Some 600) (Some true) Scenario.all_fail
       = Returned false w').
Proof.
  destruct (wait_for_task_outcomes Scenario.stuck 3 Scenario.all_well) as (T & _ & _).
  destruct (wait_for_task_outcomes Scenario.breaks 3 Scenario.all_well) as (_ & E & _).
  destruct (wait_for_task_outcomes Scenario.stuck 3 Scenario.all_fail) as (_ & _ & N).
  repeat apply conj.
  - apply T; [lia | intros j _; reflexivity].
  - apply (E 2%nat Scenario.fault).
    + split; [reflexivity |].
      intros j Hj. destruct j as [| [| j]]; [reflexivity | reflexivity | lia].
    + right. lia.
    + reflexivity.
    + reflexivity.
  - destruct (N 5%nat 1%nat (Some 600) (Some true) 0%nat Scenario.fault eq_refl)
      as (w' & R & _); [lia |].
    exists w'. exact R.
Defined.

(** C4 as stated fails: a task that never leaves the running state and a
    task that ends in error give the same result, False; there is no
    third value for the timeout. *)
Lemma timeout_and_error_same_result :
  fst (wait_for_task Scenario.stuck 3 Scenario.all_well) = false /\
  fst (wait_for_task Scenario.breaks 3 Scenario.all_well) = false /\
  fst (wait_for_task Scenario.stuck 3 Scenario.all_well) =
  fst (wait_for_task Scenario.breaks 3 Scenario.all_well).
Proof.
  vm_compute. repeat apply conj; reflexivity.
Qed.

(** ** Polling *)

(** C5.  The wait of the notification script reads the task state over
    and over with no sleep in between, where [wait_for_task] of the PTP
    script sleeps one second after each read that leaves it in the loop. *)
Theorem notification_wait_never_sleeps :
  since Scenario.slow
    (world_of (Notify.set_vm_notification_settings 10 1%nat (Some 600) (Some true)
                 Scenario.slow)) =
    [ReconfigVM_Task 1%nat (Notify.build_spec (Some 600) (Some true));
     ReadTaskState running; ReadTaskState running; ReadTaskState running;
     ReadTaskState success; ReadTaskState success] /\
  since Scenario.slow
    (snd (wait_for_task (task_of_plan {| delay := 3; result := Succeeds |}) 300
            Scenario.slow)) =
    [ReadTaskState running; Sleep 1; ReadTaskState running; Sleep 1;
     ReadTaskState running; Sleep 1; ReadTaskState success; ReadTaskState success].
Proof.
  split; vm_compute; reflexivity.
Qed.

(** ** Writing the notification settings *)

(** C6.  With the timeout left out and enabled given, the request carries
    a ConfigSpec with the enabled field set and no timeout field, and the
    VM's timeout stays what it was; with enabled left out and the timeout
    given, the ConfigSpec has no enabled field and the VM's enabled flag
    stays what it was.  This holds however long the wait is followed. *)
Theorem settings_write_is_partial_update fuel vm w :
  (forall e,
   let w' := world_of (Notify.set_vm_notification_settings fuel vm None (Some e) w) in
   requests_of_call w w' =
     [ReconfigVM_Task vm {| deviceChange := [];
                            spec_vmOpNotificationToAppEnabled := Some e;
                            spec_vmOpNotificationTimeout := None |}] /\
   vmOpNotificationTimeout (the_vm w' vm) = vmOpNotificationTimeout (the_vm w vm)) /\
  (forall t,
   let w' := world_of (Notify.set_vm_notification_settings fuel vm (Some t) None w) in
   requests_of_call w w' =
     [ReconfigVM_Task vm {| deviceChange := [];
                            spec_vmOpNotificationToAppEnabled := None;
                            spec_vmOpNotificationTimeout := Some t |}] /\
   vmOpNotificationToAppEnabled (the_vm w' vm) = vmOpNotificationToAppEnabled (the_vm w vm)).
Proof.
  split.
  - intros e w'. subst w'.
    destruct (set_settings_sends fuel vm None (Some e) w) as [S I]. split.
    + apply sends_requests_of_call in S. exact S.
    + unfold the_vm. rewrite I. unfold commit.
      destruct (committed (next_reaction w)); auto.
      apply (nth_update_vm_field vmOpNotificationTimeout). reflexivity.
  - intros t w'. subst w'.
    destruct (set_settings_sends fuel vm (Some t) None w) as [S I]. split.
    + apply sends_requests_of_call in S. exact S.
    + unfold the_vm. rewrite I. unfold commit.
      destruct (committed (next_reaction w)); auto.
      apply (nth_update_vm_field vmOpNotificationToAppEnabled). reflexivity.
Qed.

(** ** At most one precision clock *)

(** The number of precision-clock devices of a VM. *)
Definition ptp_count (v : VM) : nat :=
  List.length (filter is_precision_clock (hardware_device v)).

Definition at_most_one_ptp (v : VM) : Prop := (ptp_count v <= 1)%nat.

(** Whether a ConfigSpec carries a device addition. *)
Definition adds_device (s : ConfigSpec) : bool :=
  existsb (fun ch => match operation ch with op_add => true | _ => false end)
    (deviceChange s).

Lemma no_ptp_count vm w :
  Ptp.has_ptp_device vm w = false -> ptp_count (the_vm w vm) = 0%nat.
Proof.
  unfold Ptp.has_ptp_device, ptp_count.
  induction (hardware_device (the_vm w vm)) as [| d l IH]; simpl; auto.
  destruct (is_precision_clock d); simpl; [discriminate | exact IH].
Qed.

Lemma nth_update_vm_other i vm f inv :
  i <> vm -> nth i (update_vm vm f inv) default_vm = nth i inv default_vm.
Proof.
  revert i vm. induction inv as [| v inv IH]; intros [| i] [| n] H; simpl; auto;
    try congruence.
Qed.

Lemma update_vm_beyond vm f inv :
  (List.length inv <= vm)%nat -> update_vm vm f inv = inv.
Proof.
  revert vm. induction inv as [| v inv IH]; intros [| n] H; simpl in *; auto; try lia.
  rewrite IH by lia. reflexivity.
Qed.

Lemma ptp_count_add v :
  ptp_count (apply_spec Ptp.add_spec v) = S (ptp_count v).
Proof.
  unfold ptp_count. simpl. unfold apply_device_change. simpl.
  rewrite filter_app, length_app. simpl. lia.
Qed.

Lemma ptp_count_remove d v :
  (ptp_count (apply_spec (Ptp.remove_spec d) v) <= ptp_count v)%nat.
Proof.
  unfold ptp_count. simpl. unfold apply_device_change. simpl.
  induction (hardware_device v) as [| x l IH]; simpl; auto.
  destruct (negb (key x =? key d)); simpl; destruct (is_precision_clock x); simpl; lia.
Qed.

(** Counting after the three commits of a bracket: only the edit counts. *)
Lemma ptp_count_bracket c1 c2 c3 vm spec inv i :
  (forall v, ptp_count v = ptp_count (nth vm inv default_vm) ->
             (ptp_count (nth vm inv default_vm) <= 1)%nat ->
             (ptp_count (apply_spec spec v) <= 1)%nat) ->
  (ptp_count (nth i inv default_vm) <= 1)%nat ->
  (ptp_count
     (nth i (commit c3 vm (set_power poweredOn)
               (commit c2 vm (apply_spec spec)
                  (commit c1 vm (set_power poweredOff) inv))) default_vm) <= 1)%nat.
Proof.
  intros Hs Hi.
  assert (P : forall c p l j,
             ptp_count (nth j (commit c vm (set_power p) l) default_vm)
             = ptp_count (nth j l default_vm)).
  { intros c p l j. unfold commit. destruct c; auto.
    apply (nth_update_vm_field ptp_count). reflexivity. }
  rewrite P. unfold commit at 1. destruct c2; [| rewrite P; exact Hi].
  set (Y := commit c1 vm (set_power poweredOff) inv).
  destruct (Nat.eq_dec i vm) as [-> | Hne].
  - destruct (le_lt_dec (List.length Y) vm) as [L | L].
    + rewrite update_vm_beyond by exact L. unfold Y. rewrite P. exact Hi.
    + rewrite nth_update_vm_eq by exact L. apply Hs; [| exact Hi].
      unfold Y. apply P.
  - rewrite nth_update_vm_other by exact Hne. unfold Y. rewrite P. exact Hi.
Qed.

(** Whatever the platform answers, a bracket sends only its own three
    requests and leaves the inventory after at most three commits. *)
Lemma bracket_shape edit vm_name vm spec w :
  (forall w1,
     hardware_device (the_vm w1 vm) = hardware_device (the_vm w vm) ->
     request_step (ReconfigVM_Task vm spec) vm (apply_spec spec) w1 (edit vm w1)) ->
  exists c1 c2 c3 rs,
    inventory (snd (Ptp.edit_with_power_bracket edit vm_name vm w)) =
      commit c3 vm (set_power poweredOn)
        (commit c2 vm (apply_spec spec)
           (commit c1 vm (set_power poweredOff) (inventory w))) /\
    sends rs w (snd (Ptp.edit_with_power_bracket edit vm_name vm w)) /\
    incl rs [PowerOffVM_Task vm; ReconfigVM_Task vm spec; PowerOnVM_Task vm].
Proof.
  intros St.
  destruct (power_state_eqb (powerState (the_vm w vm)) poweredOn) eqn:Ep.
  - assert (Hp : powerState (the_vm w vm) = poweredOn)
      by (destruct (powerState (the_vm w vm)); simpl in Ep; congruence).
    destruct (accepted (next_reaction w)) eqn:A1.
    + destruct (accepted (second_reaction w)) eqn:A2.
      * destruct (bracket_edit_succeeds edit vm_name vm spec w St Hp A1 A2) as [_ S I].
        exists true, true, (committed (third_reaction w)). eexists.
        repeat split; [exact I | apply S | apply S | apply incl_refl].
      * destruct (bracket_edit_fails edit vm_name vm spec w St Hp A1 A2) as [_ S I].
        exists true, (committed (second_reaction w)), false. eexists.
        repeat split; [exact I | apply S | apply S |].
        intros e [<- | [<- | []]]; simpl; auto.
    + destruct (bracket_power_off_fails edit vm_name vm w Hp A1) as [_ S I].
      exists (committed (next_reaction w)), false, false. eexists.
      repeat split; [exact I | apply S | apply S |].
      intros e [<- | []]; simpl; auto.
  - assert (Hp : powerState (the_vm w vm) <> poweredOn)
      by (intros E; rewrite E in Ep; discriminate).
    destruct (bracket_not_powered_on edit vm_name vm spec w St Hp) as [_ S I].
    exists false, (committed (next_reaction w)), false. eexists.
    repeat split; [exact I | apply S | apply S |].
    intros e [<- | []]; simpl; auto.
Qed.

Lemma process_vm_other vm_name action vm w :
  Ptp.get_vm_by_name vm_name w = Some vm ->
  (action =? "read")%string = false ->
  (action =? "enable")%string = false ->
  (action =? "disable")%string = false ->
  Ptp.process_vm vm_name action w = (Some false, announced vm_name w).
Proof.
  intros F R E D. unfold Ptp.process_vm.
  change (Ptp.get_vm_by_name vm_name (print _ (print _ w)))
    with (Ptp.get_vm_by_name vm_name w).
  rewrite F. cbv zeta. rewrite R, E, D. reflexivity.
Qed.

Lemma in_since_sends e rs w w' :
  sends rs w w' -> is_request e = true -> In e (since w w') -> In e rs.
Proof.
  intros S He Hi. rewrite <- (sends_requests_of_call _ _ _ S).
  unfold requests_of_call. apply filter_In. auto.
Qed.

(** C7.  A VM that has at most one precision-clock device has at most
    one after [process_vm], whatever the action, the VM processed and the
    platform's answers; and a reconfiguration that adds a device is sent
    only by enable, for a VM that was checked to have no precision-clock
    device. *)
Theorem process_vm_keeps_at_most_one_ptp vm_name action w i :
  at_most_one_ptp (the_vm w i) ->
  at_most_one_ptp (the_vm (snd (Ptp.process_vm vm_name action w)) i) /\
  (forall vm spec,
     In (ReconfigVM_Task vm spec) (since w (snd (Ptp.process_vm vm_name action w))) ->
     adds_device spec = true ->
     action = "enable"%string /\ Ptp.has_ptp_device vm w = false).
Proof.
  unfold at_most_one_ptp. intros Hi.
  assert (Same : forall res : option bool * World,
            trace (snd res) = trace w -> inventory (snd res) = inventory w ->
            (ptp_count (the_vm (snd res) i) <= 1)%nat /\
            (forall vm spec,
               In (ReconfigVM_Task vm spec) (since w (snd res)) ->
               adds_device spec = true ->
               action = "enable"%string /\ Ptp.has_ptp_device vm w = false)).
  { intros res T I. split.
    - unfold the_vm in *. rewrite I. exact Hi.
    - intros vm spec Hin. rewrite (since_same _ _ T) in Hin. destruct Hin. }
  destruct (Ptp.get_vm_by_name vm_name w) as [vm |] eqn:F.
  2: { rewrite (process_vm_not_found _ action _ F). apply Same; reflexivity. }
  destruct (action =? "read")%string eqn:R.
  { apply String.eqb_eq in R. subst action.
    destruct (process_vm_read _ _ _ F) as [lines ->].
    apply Same; [apply print_all_trace | apply print_all_inventory]. }
  destruct (action =? "enable")%string eqn:E.
  { apply String.eqb_eq in E. subst action.
    rewrite (process_vm_enable _ _ _ F).
    destruct (Ptp.has_ptp_device vm w) eqn:H; [apply Same; reflexivity |].
    destruct (bracket_shape Ptp.add_ptp_device vm_name vm Ptp.add_spec
                (announced vm_name w) (add_edit_step vm _))
      as (c1 & c2 & c3 & rs & I & S & Incl).
    split.
    - unfold the_vm at 1. rewrite I. apply ptp_count_bracket; [| exact Hi].
      intros v Hv _. rewrite ptp_count_add, Hv.
      change (inventory (announced vm_name w)) with (inventory w).
      fold (the_vm w vm). rewrite (no_ptp_count _ _ H). lia.
    - intros vm' spec' Hin _.
      assert (S' : sends rs w
                     (snd (Ptp.edit_with_power_bracket Ptp.add_ptp_device vm_name vm
                             (announced vm_name w))))
        by (destruct S as [Sr [evs St]]; split; [exact Sr | exists evs; exact St]).
      pose proof (in_since_sends (ReconfigVM_Task vm' spec') _ _ _ S' eq_refl Hin) as Hr.
      apply Incl in Hr. simpl in Hr.
      destruct Hr as [Hr | [Hr | [Hr | []]]]; try discriminate.
      injection Hr as <- _. auto. }
  destruct (action =? "disable")%string eqn:D.
  { apply String.eqb_eq in D. subst action.
    rewrite (process_vm_disable _ _ _ F).
    destruct (Ptp.has_ptp_device vm w) eqn:H; cbn [negb]; [| apply Same; reflexivity].
    destruct (has_a_ptp_device _ _ H) as [d [G _]].
    destruct (bracket_shape Ptp.remove_ptp_device vm_name vm (Ptp.remove_spec d)
                (announced vm_name w)
                (fun w1 => remove_edit_step vm (announced vm_name w) d w1 G))
      as (c1 & c2 & c3 & rs & I & S & Incl).
    split.
    - unfold the_vm at 1. rewrite I. apply ptp_count_bracket; [| exact Hi].
      intros v Hv Hi'. pose proof (ptp_count_remove d v) as Hle. lia.
    - intros vm' spec' Hin Ha.
      assert (S' : sends rs w
                     (snd (Ptp.edit_with_power_bracket Ptp.remove_ptp_device vm_name vm
                             (announced vm_name w))))
        by (destruct S as [Sr [evs St]]; split; [exact Sr | exists evs; exact St]).
      pose proof (in_since_sends (ReconfigVM_Task vm' spec') _ _ _ S' eq_refl Hin) as Hr.
      apply Incl in Hr. simpl in Hr.
      destruct Hr as [Hr | [Hr | [Hr | []]]]; try discriminate.
      injection Hr as <- <-. discriminate Ha. }
  rewrite (process_vm_other _ _ _ _ F R E D). apply Same; reflexivity.
Qed.

Lemma process_vm_keeps_at_most_one_ptp_witness :
  at_most_one_ptp (the_vm (snd (Ptp.process_vm "A" "enable" Scenario.all_well)) 0%nat) /\
  at_most_one_ptp (the_vm (snd (Ptp.process_vm "C" "disable" Scenario.all_well)) 2%nat).
Proof.
  split.
  - apply (process_vm_keeps_at_most_one_ptp "A" "enable" Scenario.all_well 0%nat).
    unfold at_most_one_ptp. vm_compute. lia.
  - apply (process_vm_keeps_at_most_one_ptp "C" "disable" Scenario.all_well 2%nat).
    unfold at_most_one_ptp. vm_compute. lia.
Defined.

(** ** The batch *)

Lemma map_name_commit c vm f inv :
  (forall v, name (f v) = name v) ->
  map name (commit c vm f inv) = map name inv.
Proof.
  intros H. unfold commit. destruct c; auto. apply map_update_vm_field. exact H.
Qed.

(** No request renames a VM. *)
Lemma process_vm_names vm_name action w :
  map name (inventory (snd (Ptp.process_vm vm_name action w))) = map name (inventory w).
Proof.
  assert (Shape : forall edit spec vm,
            (forall w1,
               hardware_device (the_vm w1 vm)
               = hardware_device (the_vm (announced vm_name w) vm) ->
               request_step (ReconfigVM_Task vm spec) vm (apply_spec spec) w1 (edit vm w1)) ->
            map name (inventory (snd (Ptp.edit_with_power_bracket edit vm_name vm
                                        (announced vm_name w))))
            = map name (inventory w)).
  { intros edit spec vm St.
    destruct (bracket_shape edit vm_name vm spec (announced vm_name w) St)
      as (c1 & c2 & c3 & rs & I & _).
    rewrite I. rewrite !map_name_commit by reflexivity. reflexivity. }
  destruct (Ptp.get_vm_by_name vm_name w) as [vm |] eqn:F.
  2: { rewrite (process_vm_not_found _ action _ F). reflexivity. }
  destruct (action =? "read")%string eqn:R.
  { apply String.eqb_eq in R. subst action.
    destruct (process_vm_read _ _ _ F) as [lines ->].
    cbn [snd]. rewrite print_all_inventory. reflexivity. }
  destruct (action =? "enable")%string eqn:E.
  { apply String.eqb_eq in E. subst action. rewrite (process_vm_enable _ _ _ F).
    destruct (Ptp.has_ptp_device vm w); [reflexivity |].
    apply (Shape _ Ptp.add_spec). apply add_edit_step. }
  destruct (action =? "disable")%string eqn:D.
  { apply String.eqb_eq in D. subst action. rewrite (process_vm_disable _ _ _ F).
    destruct (Ptp.has_ptp_device vm w) eqn:H; cbn [negb]; [| reflexivity].
    destruct (has_a_ptp_device _ _ H) as [d [G _]].
    apply (Shape _ (Ptp.remove_spec d)).
    intros w1. apply remove_edit_step. exact G. }
  rewrite (process_vm_other _ _ _ _ F R E D). reflexivity.
Qed.

Lemma name_in_inventory vm inv :
  (vm < List.length inv)%nat -> In (name (nth vm inv default_vm)) (map name inv).
Proof.
  intros L. apply in_map. apply nth_In. exact L.
Qed.

(** The first loop of [main] finds references into the inventory and
    changes nothing but the output. *)
Lemma lookup_vms_spec vm_names found w :
  let res := Ptp.lookup_vms vm_names found w in
  quiet w (snd res) /\
  (forall vm, In vm (fst res) ->
     In vm found \/ (vm < List.length (inventory w))%nat) /\
  (fst res = [] <->
   found = [] /\ forall n, In n vm_names -> Ptp.get_vm_by_name n w = None).
Proof.
  revert found w. induction vm_names as [| n rest IH]; intros found w; simpl.
  - repeat apply conj; auto with quiet.
    + intros ->. split; [reflexivity | intros n []].
    + tauto.
  - change (Ptp.get_vm_by_name n w) with (Ptp.find_vm n (inventory w) 0).
    destruct (Ptp.find_vm n (inventory w) 0) as [vm |] eqn:F.
    + destruct (IH (found ++ [vm]) (print ("  Found: " ++ n)%string w)) as (Q & B & E).
      repeat apply conj.
      * eapply quiet_trans; [apply quiet_print | exact Q].
      * intros v Hv. destruct (B v Hv) as [Hin | L]; [| right; exact L].
        apply in_app_or in Hin. destruct Hin as [Hin | [Hin | []]]; [left; exact Hin |].
        subst v. right. apply (found_vm n w vm F).
      * intros H. apply E in H. destruct H as [H _].
        destruct found; discriminate.
      * intros [_ H]. specialize (H n (or_introl eq_refl)).
        unfold Ptp.get_vm_by_name in H. congruence.
    + destruct (IH found (print ("  WARNING: VM '" ++ n ++ "' not found")%string w))
        as (Q & B & E).
      repeat apply conj.
      * eapply quiet_trans; [apply quiet_print | exact Q].
      * exact B.
      * intros H. apply E in H. destruct H as [-> H]. split; [reflexivity |].
        intros m [<- | Hm]; [exact F | apply (H m Hm)].
      * intros [-> H]. apply E. split; [reflexivity |].
        intros m Hm. apply (H m). right. exact Hm.
Qed.

(** All names of the three buckets. *)
Definition bucket_names (r : Ptp.Results) : list string :=
  Ptp.res_success r ++ Ptp.res_skipped r ++ Ptp.res_failed r.

(** The second loop puts into the buckets only names of the inventory. *)
Lemma process_all_names action todo results w :
  (forall vm, In vm todo -> (vm < List.length (inventory w))%nat) ->
  let res := Ptp.process_all action todo results w in
  map name (inventory (snd res)) = map name (inventory w) /\
  forall n, In n (bucket_names (fst res)) ->
            In n (bucket_names results) \/ In n (map name (inventory w)).
Proof.
  revert results w. induction todo as [| vm rest IH]; intros results w Hb; simpl.
  - auto.
  - pose proof (process_vm_names (name (the_vm w vm)) action w) as N.
    destruct (Ptp.process_vm (name (the_vm w vm)) action w) as [result w1].
    cbn [snd] in N.
    assert (L : List.length (inventory w1) = List.length (inventory w))
      by (rewrite <- (length_map name), N, length_map; reflexivity).
    assert (Hin : In (name (the_vm w1 vm)) (map name (inventory w))).
    { rewrite <- N. apply name_in_inventory. rewrite L. apply Hb. left. reflexivity. }
    match goal with
    | |- context [Ptp.process_all action rest ?r w1] =>
        destruct (IH r w1) as [N' B];
          [intros v Hv; rewrite L; apply Hb; right; exact Hv |];
          assert (Hr : forall n, In n (bucket_names r) ->
                                 In n (bucket_names results) \/
                                 In n (map name (inventory w)))
    end.
    { intros n. unfold bucket_names.
      destruct result as [[|] |]; cbn [Ptp.res_success Ptp.res_skipped Ptp.res_failed];
        rewrite ?in_app_iff; simpl; intuition (subst; auto). }
    split; [congruence |].
    intros n Hn. destruct (B n Hn) as [H | H]; [apply Hr; exact H |].
    right. rewrite <- N. exact H.
Qed.

(** ** Output is only ever appended to *)

Definition grows (w w' : World) : Prop := exists l, stdout w' = stdout w ++ l.

Lemma grows_refl w : grows w w.
Proof. exists []. rewrite app_nil_r. reflexivity. Qed.

Lemma grows_trans w1 w2 w3 : grows w1 w2 -> grows w2 w3 -> grows w1 w3.
Proof.
  intros [l1 E1] [l2 E2]. exists (l1 ++ l2). rewrite E2, E1, app_assoc. reflexivity.
Qed.

Lemma grows_same w w' : stdout w' = stdout w -> grows w w'.
Proof. intros E. exists []. rewrite app_nil_r. exact E. Qed.

Lemma grows_print l w : grows w (print l w).
Proof. exists [l]. reflexivity. Qed.

Lemma grows_In l w w' : grows w w' -> In l (stdout w) -> In l (stdout w').
Proof. intros [s E] H. rewrite E. apply in_or_app. auto. Qed.

Create HintDb grows.
#[local] Hint Resolve grows_refl grows_print : grows.

Ltac grows_step :=
  first [ apply grows_refl
        | apply grows_print
        | apply grows_same; reflexivity
        | eapply grows_trans; [| apply grows_print ] ].

Lemma print_all_grows lines w : grows w (Ptp.print_all lines w).
Proof.
  revert w. induction lines as [| l lines IH]; intros w; simpl.
  - apply grows_refl.
  - eapply grows_trans; [apply grows_print | apply IH].
Qed.

Lemma wait_loop_grows task timeout start k w :
  grows w (snd (wait_loop task timeout start k w)).
Proof.
  funelim (wait_loop task timeout start k w); simpl.
  - apply grows_same. reflexivity.
  - eapply grows_trans; [| apply grows_print]. apply grows_same. reflexivity.
  - eapply grows_trans; [| eassumption]. apply grows_same. reflexivity.
Qed.

Lemma wait_for_task_grows task timeout w : grows w (snd (wait_for_task task timeout w)).
Proof.
  unfold wait_for_task.
  pose proof (wait_loop_grows task timeout (clock w) 0 w) as G.
  destruct (wait_loop task timeout (clock w) 0 w) as [[m |] w1]; cbn [snd] in *; auto.
  unfold read_state. eapply grows_trans; [exact G |].
  destruct (task m); cbn [snd];
    first [apply grows_same; reflexivity
          | eapply grows_trans; [| apply grows_print]; apply grows_same; reflexivity].
Qed.

Lemma submit_grows e vm f w : grows w (snd (submit e vm f w)).
Proof.
  apply grows_same. unfold submit.
  destruct (reaction w (List.length (requests w))) as [exn | p]; simpl; auto.
  destruct (result p); reflexivity.
Qed.

Lemma request_and_wait_grows e vm effect on_exn on_true on_false w :
  (forall exn w, grows w (on_exn exn w)) ->
  (forall w, grows w (on_true w)) ->
  (forall w, grows w (on_false w)) ->
  grows w (snd (request_and_wait e vm effect on_exn on_true on_false w)).
Proof.
  intros Ge Gt Gf. unfold request_and_wait.
  pose proof (submit_grows e vm effect w) as G.
  destruct (submit e vm effect w) as [[exn | task] w1]; cbn [snd] in *.
  - eapply grows_trans; [exact G | apply Ge].
  - pose proof (wait_for_task_grows task Ptp.default_timeout w1) as G2.
    destruct (wait_for_task task Ptp.default_timeout w1) as [ok w2]. cbn [snd] in G2.
    destruct ok; cbn [snd];
      (eapply grows_trans; [exact G |]); (eapply grows_trans; [exact G2 |]); auto.
Qed.

Lemma power_off_vm_grows vm w : grows w (snd (Ptp.power_off_vm vm w)).
Proof.
  eapply grows_trans; [apply grows_print |].
  apply (request_and_wait_grows (PowerOffVM_Task vm) vm (set_power poweredOff)
           (fun e w => print ("  Error powering off VM: " ++ e)%string w)
           (fun w => print ("  VM " ++ name (the_vm w vm) ++ " powered off successfully")%string w)
           (fun w => w));
    auto with grows.
Qed.

Lemma power_on_vm_grows vm w : grows w (snd (Ptp.power_on_vm vm w)).
Proof.
  eapply grows_trans; [apply grows_print |].
  apply (request_and_wait_grows (PowerOnVM_Task vm) vm (set_power poweredOn)
           (fun e w => print ("  Error powering on VM: " ++ e)%string w)
           (fun w => print ("  VM " ++ name (the_vm w vm) ++ " powered on successfully")%string w)
           (fun w => w));
    auto with grows.
Qed.

Lemma add_ptp_device_grows vm w : grows w (snd (Ptp.add_ptp_device vm w)).
Proof.
  eapply grows_trans; [apply grows_print |].
  apply (request_and_wait_grows (ReconfigVM_Task vm Ptp.add_spec) vm (apply_spec Ptp.add_spec)
           (fun e w => print ("  Error adding PTP device: " ++ e)%string w)
           (fun w => print ("  PTP device added successfully to " ++ name (the_vm w vm))%string w)
           (fun w => print ("  Failed to add PTP device to " ++ name (the_vm w vm))%string w));
    auto with grows.
Qed.

Lemma remove_ptp_device_grows vm w : grows w (snd (Ptp.remove_ptp_device vm w)).
Proof.
  unfold Ptp.remove_ptp_device.
  destruct (Ptp.get_ptp_device vm _) as [d |].
  - eapply grows_trans; [apply grows_print |].
    apply (request_and_wait_grows (ReconfigVM_Task vm (Ptp.remove_spec d)) vm
             (apply_spec (Ptp.remove_spec d))
             (fun e w => print ("  Error removing PTP device: " ++ e)%string w)
             (fun w => print ("  PTP device removed successfully from " ++ name (the_vm w vm))%string w)
             (fun w => print ("  Failed to remove PTP device from " ++ name (the_vm w vm))%string w));
      auto with grows.
  - cbn [snd]. eapply grows_trans; apply grows_print.
Qed.

Lemma bracket_grows edit vm_name vm w :
  (forall w1, grows w1 (snd (edit vm w1))) ->
  grows w (snd (Ptp.edit_with_power_bracket edit vm_name vm w)).
Proof.
  intros Ge. unfold Ptp.edit_with_power_bracket. cbv zeta.
  set (w0 := print _ w).
  apply grows_trans with w0; [apply grows_print |].
  destruct (power_state_eqb (powerState (the_vm w vm)) poweredOn).
  - pose proof (power_off_vm_grows vm w0) as G1.
    destruct (Ptp.power_off_vm vm w0) as [[|] w1]; cbn [snd negb] in *; auto.
    pose proof (Ge (sleep 2 w1)) as G2.
    destruct (edit vm (sleep 2 w1)) as [[|] w2]; cbn [snd andb] in *.
    + pose proof (power_on_vm_grows vm (sleep 2 w2)) as G3.
      destruct (Ptp.power_on_vm vm (sleep 2 w2)) as [[|] w3]; cbn [snd negb] in *;
        (eapply grows_trans; [exact G1 |]);
        (eapply grows_trans; [apply grows_same; reflexivity |]);
        (eapply grows_trans; [exact G2 |]);
        (eapply grows_trans; [apply grows_same; reflexivity |]);
        (eapply grows_trans; [exact G3 |]); auto with grows.
    + eapply grows_trans; [exact G1 |].
      eapply grows_trans; [apply grows_same; reflexivity | exact G2].
  - cbn [negb]. pose proof (Ge w0) as G2.
    destruct (edit vm w0) as [ok w2]. cbn [snd andb] in *. exact G2.
Qed.

Lemma process_vm_grows vm_name action w :
  grows w (snd (Ptp.process_vm vm_name action w)).
Proof.
  eapply grows_trans with (announced vm_name w).
  { eapply grows_trans; apply grows_print. }
  destruct (Ptp.get_vm_by_name vm_name w) as [vm |] eqn:F.
  2: { rewrite (process_vm_not_found _ action _ F). apply grows_print. }
  destruct (action =? "read")%string eqn:R.
  { apply String.eqb_eq in R. subst action. unfold Ptp.process_vm.
    change (Ptp.get_vm_by_name vm_name (print _ (print _ w)))
      with (Ptp.get_vm_by_name vm_name w).
    rewrite F. cbv zeta. change ("read" =? "read")%string with true. cbv iota.
    fold (announced vm_name w). cbn [snd].
    destruct (Ptp.has_ptp_device vm (announced vm_name w)).
    - destruct (Ptp.get_ptp_device vm _); repeat grows_step.
    - grows_step. }
  destruct (action =? "enable")%string eqn:E.
  { apply String.eqb_eq in E. subst action. rewrite (process_vm_enable _ _ _ F).
    destruct (Ptp.has_ptp_device vm w); [apply grows_print |].
    apply bracket_grows. apply add_ptp_device_grows. }
  destruct (action =? "disable")%string eqn:D.
  { apply String.eqb_eq in D. subst action. rewrite (process_vm_disable _ _ _ F).
    destruct (Ptp.has_ptp_device vm w); cbn [negb]; [| apply grows_print].
    apply bracket_grows. apply remove_ptp_device_grows. }
  rewrite (process_vm_other _ _ _ _ F R E D). apply grows_refl.
Qed.

Lemma process_all_grows action todo results w :
  grows w (snd (Ptp.process_all action todo results w)).
Proof.
  revert results w. induction todo as [| vm rest IH]; intros results w; simpl.
  - apply grows_refl.
  - pose proof (process_vm_grows (name (the_vm w vm)) action w) as G.
    destruct (Ptp.process_vm (name (the_vm w vm)) action w) as [result w1].
    eapply grows_trans; [exact G | apply IH].
Qed.

Lemma print_summary_grows action total r w : grows w (Ptp.print_summary action total r w).
Proof.
  unfold Ptp.print_summary. cbv zeta.
  repeat match goal with
         | |- grows _ (Ptp.print_all _ _) =>
             eapply grows_trans; [| apply print_all_grows]
         | |- grows _ (if ?c then _ else _) => destruct c
         end; apply grows_refl.
Qed.

(** The warning for a name that is not found is printed by the first
    loop. *)
Lemma lookup_vms_warns vm_names found w n :
  In n vm_names -> Ptp.get_vm_by_name n w = None ->
  In ("  WARNING: VM '" ++ n ++ "' not found")%string
     (stdout (snd (Ptp.lookup_vms vm_names found w))).
Proof.
  revert found w. induction vm_names as [| m rest IH]; intros found w Hin F; simpl.
  - destruct Hin.
  - assert (G : forall f w1, grows w1 (snd (Ptp.lookup_vms rest f w1))).
    { clear. induction rest as [| x rest IH]; intros f w1; simpl.
      - apply grows_refl.
      - destruct (Ptp.get_vm_by_name x w1);
          (eapply grows_trans; [apply grows_print | apply IH]). }
    destruct Hin as [-> | Hin].
    + rewrite F. eapply grows_In; [apply G |].
      simpl. apply in_or_app. right. left. reflexivity.
    + destruct (Ptp.get_vm_by_name m w); apply IH; auto.
Qed.

Lemma is_nil_true {A} (l : list A) : Ptp.is_nil l = true <-> l = [].
Proof. destruct l; simpl; split; congruence. Qed.

(** What [main] of the PTP script reports. *)
Record batch_report (names : list string) (w : World)
    (code : Z) (buckets : option (list string)) (failed : option (list string))
    (w' : World) : Prop := {
  report_warns :
    forall n, In n names -> Ptp.get_vm_by_name n w = None ->
              In ("  WARNING: VM '" ++ n ++ "' not found")%string (stdout w');
  report_excludes :
    forall n l, Ptp.get_vm_by_name n w = None -> buckets = Some l -> ~ In n l;
  report_failed :
    code = 1 <-> exists l, failed = Some l /\ l <> [];
  report_code : code = 0 \/ code = 1;
  report_none :
    (forall n, In n names -> Ptp.get_vm_by_name n w = None) -> code = 0
}.

Lemma ptp_main_report args reply w :
  let res := Ptp.main args reply w in
  batch_report (Ptp.vms args) w (fst (fst res))
    (option_map bucket_names (snd (fst res)))
    (option_map Ptp.res_failed (snd (fst res)))
    (snd res).
Proof.
  unfold Ptp.main. cbv zeta.
  set (w1 := Ptp.print_all _ w).
  assert (I1 : inventory w1 = inventory w) by apply print_all_inventory.
  assert (Gv : forall n, Ptp.get_vm_by_name n w1 = Ptp.get_vm_by_name n w)
    by (intros n; unfold Ptp.get_vm_by_name; rewrite I1; reflexivity).
  destruct (lookup_vms_spec (Ptp.vms args) [] w1) as (Q2 & B & E).
  assert (W : forall n, In n (Ptp.vms args) -> Ptp.get_vm_by_name n w = None ->
              In ("  WARNING: VM '" ++ n ++ "' not found")%string
                 (stdout (snd (Ptp.lookup_vms (Ptp.vms args) [] w1)))).
  { intros n Hin F. apply lookup_vms_warns; [exact Hin | rewrite Gv; exact F]. }
  destruct (Ptp.lookup_vms (Ptp.vms args) [] w1) as [todo w2]. cbn [fst snd] in *.
  assert (Early : forall wf, grows w2 wf ->
            ((forall n, In n (Ptp.vms args) -> Ptp.get_vm_by_name n w = None) ->
             todo = []) ->
            batch_report (Ptp.vms args) w 0 None None wf).
  { intros wf G _. split; try (intros; discriminate); auto.
    - intros n Hin F. apply (grows_In _ _ _ G). apply W; assumption.
    - split; [discriminate | intros (l & D & _); discriminate]. }
  assert (Enone : (forall n, In n (Ptp.vms args) -> Ptp.get_vm_by_name n w = None) ->
                  todo = []).
  { intros H. apply E. split; [reflexivity |]. intros n Hin. rewrite Gv. auto. }
  destruct (Ptp.is_nil todo) eqn:N.
  { apply Early; auto. apply print_all_grows. }
  set (w3 := Ptp.print_all _ w2). set (w4 := Ptp.print_all _ w3).
  assert (G4 : grows w2 w4)
    by (eapply grows_trans; apply print_all_grows).
  destruct (Ptp.dry_run args).
  { apply Early; auto. eapply grows_trans; [exact G4 | apply print_all_grows]. }
  set (ask := negb (Ptp.no_confirm args) && negb (Ptp.read args)).
  set (w5 := if ask then Ptp.print_all _ w4 else w4).
  assert (G5 : grows w2 w5).
  { unfold w5. destruct ask; [| exact G4].
    eapply grows_trans; [exact G4 | apply print_all_grows]. }
  assert (I5 : inventory w5 = inventory w).
  { unfold w5. destruct ask; unfold w4, w3; rewrite ?print_all_inventory;
      rewrite (quiet_inventory _ _ Q2); exact I1. }
  destruct (if ask then negb ((reply =? "yes")%string || (reply =? "y")%string) else false).
  { apply Early; auto. eapply grows_trans; [exact G5 | apply grows_print]. }
  set (w6 := Ptp.print_all _ w5).
  set (init := {| Ptp.res_success := []; Ptp.res_skipped := []; Ptp.res_failed := [] |}).
  assert (I6 : inventory w6 = inventory w)
    by (unfold w6; rewrite print_all_inventory; exact I5).
  destruct (process_all_names (Ptp.action_of args) todo init w6) as [_ Names].
  { intros vm Hin. rewrite I6, <- I1. destruct (B vm Hin) as [[] | L]. exact L. }
  pose proof (process_all_grows (Ptp.action_of args) todo init w6) as G7.
  destruct (Ptp.process_all (Ptp.action_of args) todo init w6) as [results w7].
  cbn [fst snd] in *.
  set (w8 := Ptp.print_summary _ _ results w7).
  assert (G8 : grows w2 w8).
  { eapply grows_trans; [exact G5 |].
    eapply grows_trans; [apply print_all_grows |].
    eapply grows_trans; [exact G7 | apply print_summary_grows]. }
  assert (Ex : forall n l, Ptp.get_vm_by_name n w = None ->
                           Some (bucket_names results) = Some l -> ~ In n l).
  { intros n l F [= <-] Hin. destruct (Names n Hin) as [[] | H].
    rewrite I6 in H. exact (find_vm_none _ _ _ F H). }
  assert (Nz : todo <> []) by (intros ->; discriminate).
  destruct (Ptp.is_nil (Ptp.res_failed results)) eqn:Fl; cbn [negb fst snd option_map].
  - apply is_nil_true in Fl.
    split;
      [ intros n Hin F; apply (grows_In _ _ _ G8); apply W; assumption
      | exact Ex
      | split; [discriminate | intros (l & [= <-] & H); congruence]
      | left; reflexivity
      | intros _; reflexivity ].
  - split;
      [ intros n Hin F; apply (grows_In _ _ _ G8); apply W; assumption
      | exact Ex
      | split; [intros _ | reflexivity]
      | right; reflexivity
      | intros H; elim Nz; apply Enone; exact H ].
    exists (Ptp.res_failed results). split; [reflexivity |].
    intros H. rewrite H in Fl. discriminate.
Qed.

(** ** The batch of the notification script *)

Lemma notify_lookup_vms vm_names found w :
  Notify.lookup_vms vm_names found w = Ptp.lookup_vms vm_names found w.
Proof.
  revert found w. induction vm_names as [| n rest IH]; intros found w; simpl; auto.
Qed.

Lemma busy_wait_stdout fuel task k w :
  stdout (world_of (Notify.busy_wait fuel task k w)) = stdout w.
Proof.
  revert k w. induction fuel as [| fuel IH]; intros k w; simpl;
    destruct (is_terminal (task k)); simpl; auto.
  rewrite IH. reflexivity.
Qed.

Lemma set_settings_stdout fuel vm timeout enabled w :
  stdout (world_of (Notify.set_vm_notification_settings fuel vm timeout enabled w))
  = stdout w.
Proof.
  unfold Notify.set_vm_notification_settings, call_ReconfigVM_Task.
  set (spec := Notify.build_spec timeout enabled).
  destruct (submit_grows (ReconfigVM_Task vm spec) vm (apply_spec spec) w) as [l G].
  assert (G' : stdout (snd (submit (ReconfigVM_Task vm spec) vm (apply_spec spec) w))
               = stdout w).
  { unfold submit. destruct (reaction w (List.length (requests w))) as [exn | p]; simpl; auto.
    destruct (result p); reflexivity. }
  clear G. destruct (submit (ReconfigVM_Task vm spec) vm (apply_spec spec) w)
    as [[exn | task] w1]; cbn [snd] in G'.
  - exact G'.
  - pose proof (busy_wait_stdout fuel task 0 w1) as B.
    destruct (Notify.busy_wait fuel task 0 w1) as [m w2 | w2]; cbn [world_of] in *.
    + unfold read_state. destruct (task m); cbn [world_of]; simpl; congruence.
    + congruence.
Qed.

(** One VM of the notification batch: what is known of the world it
    leaves, returned or still spinning. *)
Lemma notify_process_vm_world fuel vm args w :
  let r := Notify.process_vm fuel vm args w in
  map name (inventory (world_of r)) = map name (inventory w) /\
  reaction (world_of r) = reaction w /\
  grows w (world_of r).
Proof.
  unfold Notify.process_vm. cbv zeta.
  set (w0 := Ptp.print_all _ w).
  assert (I0 : inventory w0 = inventory w) by apply print_all_inventory.
  assert (R0 : reaction w0 = reaction w)
    by apply (quiet_reaction _ _ (print_all_quiet _ w)).
  assert (G0 : grows w w0) by apply print_all_grows.
  destruct (Notify.read args).
  - cbn [world_of]. unfold Notify.print_settings.
    rewrite print_all_inventory, I0.
    rewrite (quiet_reaction _ _ (print_all_quiet _ w0)), R0.
    repeat apply conj; auto. eapply grows_trans; [exact G0 | apply print_all_grows].
  - set (enabled := if Notify.enable args then Some true
                    else if Notify.disable args then Some false else None).
    set (w1 := Ptp.print_all _ w0).
    set (w2 := match Notify.timeout args with
               | Some t => print ("    vmOpNotificationTimeout: " ++ str_Z t)%string w1
               | None => w1
               end).
    assert (I2 : inventory w2 = inventory w).
    { unfold w2. destruct (Notify.timeout args); cbn [print inventory];
        unfold w1; rewrite print_all_inventory; exact I0. }
    assert (R2 : reaction w2 = reaction w).
    { unfold w2. destruct (Notify.timeout args); cbn [print reaction];
        unfold w1; rewrite (quiet_reaction _ _ (print_all_quiet _ w0)); exact R0. }
    assert (G2 : grows w w2).
    { eapply grows_trans; [exact G0 |].
      eapply grows_trans; [apply print_all_grows |].
      unfold w2. destruct (Notify.timeout args); [apply grows_print | apply grows_refl]. }
    destruct (set_settings_sends fuel vm (Notify.timeout args) enabled w2) as [S I].
    pose proof (set_settings_stdout fuel vm (Notify.timeout args) enabled w2) as O.
    destruct (Notify.set_vm_notification_settings fuel vm (Notify.timeout args) enabled w2)
      as [ok w3 | w3]; cbn [world_of] in *.
    + assert (N3 : map name (inventory w3) = map name (inventory w)).
      { rewrite I, map_name_commit by reflexivity. rewrite I2. reflexivity. }
      assert (R3 : reaction w3 = reaction w)
        by (rewrite (sends_reaction _ _ _ S); exact R2).
      assert (G3 : grows w w3)
        by (eapply grows_trans; [exact G2 | apply grows_same; exact O]).
      destruct ok; cbn [world_of].
      * unfold Notify.print_settings.
        rewrite print_all_inventory, (quiet_reaction _ _ (print_all_quiet _ _)).
        repeat apply conj; auto.
        eapply grows_trans; [exact G3 |].
        eapply grows_trans; [apply grows_print | apply print_all_grows].
      * repeat apply conj; auto.
    + repeat apply conj.
      * rewrite I, map_name_commit by reflexivity. rewrite I2. reflexivity.
      * rewrite (sends_reaction _ _ _ S). exact R2.
      * eapply grows_trans; [exact G2 | apply grows_same; exact O].
Qed.

(** ... and that it returns when the platform settles the request within
    the turns followed. *)
Lemma notify_process_vm_returns fuel vm args w :
  settles fuel (next_reaction w) = true ->
  exists ok w', Notify.process_vm fuel vm args w = Returned ok w'.
Proof.
  intros H. unfold Notify.process_vm. cbv zeta.
  destruct (Notify.read args); [eauto |].
  match goal with
  | |- context [Notify.set_vm_notification_settings fuel vm ?t ?e ?w2] =>
      destruct (set_settings_returns fuel vm t e w2) as [w3 E]
  end.
  - erewrite next_reaction_quiet; [exact H |].
    destruct (Notify.timeout args).
    + eapply quiet_trans; [| apply quiet_print].
      eapply quiet_trans; apply print_all_quiet.
    + eapply quiet_trans; apply print_all_quiet.
  - rewrite E. destruct (committed _); eauto.
Qed.

(** The names in the two buckets of this script. *)
Definition notify_bucket_names (r : Notify.Results) : list string :=
  Notify.res_success r ++ Notify.res_failed r.

Lemma notify_process_all_world fuel args todo results w :
  (forall vm, In vm todo -> (vm < List.length (inventory w))%nat) ->
  let r := Notify.process_all fuel args todo results w in
  grows w (world_of r) /\
  forall res w', r = Returned res w' ->
    forall n, In n (notify_bucket_names res) ->
              In n (notify_bucket_names results) \/ In n (map name (inventory w)).
Proof.
  revert results w. induction todo as [| vm rest IH]; intros results w Hb; simpl.
  - split; [apply grows_refl |]. intros res w' [= <- <-]. auto.
  - destruct (notify_process_vm_world fuel vm args w) as (N & _ & G).
    destruct (Notify.process_vm fuel vm args w) as [ok w1 | w1]; cbn [world_of] in *.
    2: { split; [exact G | discriminate]. }
    assert (L : List.length (inventory w1) = List.length (inventory w))
      by (rewrite <- (length_map name), N, length_map; reflexivity).
    assert (Hin : In (name (the_vm w1 vm)) (map name (inventory w))).
    { rewrite <- N. apply name_in_inventory. rewrite L. apply Hb. left. reflexivity. }
    match goal with
    | |- context [Notify.process_all fuel args rest ?r w1] =>
        destruct (IH r w1) as [G' B];
          [intros v Hv; rewrite L; apply Hb; right; exact Hv |];
          assert (Hr : forall n, In n (notify_bucket_names r) ->
                                 In n (notify_bucket_names results) \/
                                 In n (map name (inventory w)))
    end.
    { intros n. unfold notify_bucket_names.
      destruct ok; cbn [Notify.res_success Notify.res_failed];
        rewrite ?in_app_iff; simpl; intuition (subst; auto). }
    split; [eapply grows_trans; eassumption |].
    intros res w' E n Hn. destruct (B res w' E n Hn) as [H | H]; [apply Hr; exact H |].
    right. rewrite <- N. exact H.
Qed.

(** The number of requests only grows, so a platform that settles every
    request lets the whole second loop return. *)
Lemma notify_process_all_returns fuel args todo results w :
  (forall n, settles fuel (reaction w n) = true) ->
  exists res w', Notify.process_all fuel args todo results w = Returned res w'.
Proof.
  revert results w. induction todo as [| vm rest IH]; intros results w H; simpl.
  - eauto.
  - destruct (notify_process_vm_returns fuel vm args w (H _)) as (ok & w1 & E).
    destruct (notify_process_vm_world fuel vm args w) as (_ & R & _).
    rewrite E in *. cbn [world_of] in R.
    apply IH. intros n. rewrite R. apply H.
Qed.

Lemma notify_main_report fuel args reply w :
  match Notify.main fuel args reply w with
  | Returned (code, results) w' =>
      batch_report (Notify.vms args) w code
        (option_map notify_bucket_names results)
        (option_map Notify.res_failed results) w'
  | Spinning _ => True
  end.
Proof.
  unfold Notify.main. cbv zeta. rewrite notify_lookup_vms.
  set (w1 := Ptp.print_all _ w).
  assert (I1 : inventory w1 = inventory w) by apply print_all_inventory.
  assert (Gv : forall n, Ptp.get_vm_by_name n w1 = Ptp.get_vm_by_name n w)
    by (intros n; unfold Ptp.get_vm_by_name; rewrite I1; reflexivity).
  destruct (lookup_vms_spec (Notify.vms args) [] w1) as (Q2 & B & E).
  assert (W : forall n, In n (Notify.vms args) -> Ptp.get_vm_by_name n w = None ->
              In ("  WARNING: VM '" ++ n ++ "' not found")%string
                 (stdout (snd (Ptp.lookup_vms (Notify.vms args) [] w1)))).
  { intros n Hin F. apply lookup_vms_warns; [exact Hin | rewrite Gv; exact F]. }
  destruct (Ptp.lookup_vms (Notify.vms args) [] w1) as [todo w2]. cbn [fst snd] in *.
  assert (Early : forall wf, grows w2 wf ->
            batch_report (Notify.vms args) w 0 None None wf).
  { intros wf G. split; try (intros; discriminate); auto.
    - intros n Hin F. apply (grows_In _ _ _ G). apply W; assumption.
    - split; [discriminate | intros (l & D & _); discriminate]. }
  assert (Enone : (forall n, In n (Notify.vms args) -> Ptp.get_vm_by_name n w = None) ->
                  todo = []).
  { intros H. apply E. split; [reflexivity |]. intros n Hin. rewrite Gv. auto. }
  destruct (Ptp.is_nil todo) eqn:N.
  { apply Early. apply print_all_grows. }
  set (w3 := Ptp.print_all _ w2). set (w4 := Ptp.print_all _ w3).
  assert (G4 : grows w2 w4)
    by (eapply grows_trans; apply print_all_grows).
  destruct (Notify.dry_run args).
  { apply Early. eapply grows_trans; [exact G4 | apply print_all_grows]. }
  set (ask := negb (Notify.no_confirm args) && negb (Notify.read args)).
  set (w5 := if ask then Ptp.print_all _ w4 else w4).
  assert (G5 : grows w2 w5).
  { unfold w5. destruct ask; [| exact G4].
    eapply grows_trans; [exact G4 | apply print_all_grows]. }
  assert (I5 : inventory w5 = inventory w).
  { unfold w5. destruct ask; unfold w4, w3; rewrite ?print_all_inventory;
      rewrite (quiet_inventory _ _ Q2); exact I1. }
  destruct (if ask then negb ((reply =? "yes")%string || (reply =? "y")%string) else false).
  { apply Early. eapply grows_trans; [exact G5 | apply grows_print]. }
  set (w6 := Ptp.print_all _ w5).
  set (init := {| Notify.res_success := []; Notify.res_failed := [] |}).
  assert (I6 : inventory w6 = inventory w)
    by (unfold w6; rewrite print_all_inventory; exact I5).
  destruct (notify_process_all_world fuel args todo init w6) as [G7 Names].
  { intros vm Hin. rewrite I6, <- I1. destruct (B vm Hin) as [[] | L]. exact L. }
  destruct (Notify.process_all fuel args todo init w6) as [results w7 | w7]; [| exact I].
  cbn [world_of] in G7. specialize (Names results w7 eq_refl).
  set (w8 := Notify.print_summary _ results w7).
  assert (G8 : grows w2 w8).
  { eapply grows_trans; [exact G5 |].
    eapply grows_trans; [apply print_all_grows |].
    eapply grows_trans; [exact G7 |].
    unfold w8, Notify.print_summary. cbv zeta.
    repeat match goal with
           | |- grows _ (Ptp.print_all _ _) =>
               eapply grows_trans; [| apply print_all_grows]
           | |- grows _ (if ?c then _ else _) => destruct c
           end; apply grows_refl. }
  assert (Ex : forall n l, Ptp.get_vm_by_name n w = None ->
                           Some (notify_bucket_names results) = Some l -> ~ In n l).
  { intros n l F [= <-] Hin. destruct (Names n Hin) as [[] | H].
    rewrite I6 in H. exact (find_vm_none _ _ _ F H). }
  assert (Nz : todo <> []) by (intros ->; discriminate).
  destruct (Ptp.is_nil (Notify.res_failed results)) eqn:Fl; cbn [negb option_map].
  - apply is_nil_true in Fl.
    split;
      [ intros n Hin F; apply (grows_In _ _ _ G8); apply W; assumption
      | exact Ex
      | split; [discriminate | intros (l & [= <-] & H); congruence]
      | left; reflexivity
      | intros _; reflexivity ].
  - split;
      [ intros n Hin F; apply (grows_In _ _ _ G8); apply W; assumption
      | exact Ex
      | split; [intros _ | reflexivity]
      | right; reflexivity
      | intros H; elim Nz; apply Enone; exact H ].
    exists (Notify.res_failed results). split; [reflexivity |].
    intros H. rewrite H in Fl. discriminate.
Qed.

Lemma notify_main_returns fuel args reply w :
  (forall n, settles fuel (reaction w n) = true) ->
  exists code results w', Notify.main fuel args reply w = Returned (code, results) w'.
Proof.
  intros H. unfold Notify.main. cbv zeta. rewrite notify_lookup_vms.
  set (w1 := Ptp.print_all _ w).
  destruct (lookup_vms_spec (Notify.vms args) [] w1) as (Q2 & _).
  destruct (Ptp.lookup_vms (Notify.vms args) [] w1) as [todo w2]. cbn [snd] in Q2.
  destruct (Ptp.is_nil todo); [eauto |].
  destruct (Notify.dry_run args); [eauto |].
  destruct (if negb (Notify.no_confirm args) && negb (Notify.read args)
            then negb ((reply =? "yes")%string || (reply =? "y")%string) else false);
    [eauto |].
  match goal with
  | |- context [Notify.process_all fuel args todo ?init ?w6] =>
      destruct (notify_process_all_returns fuel args todo init w6) as (res & w7 & E)
  end.
  - intros n.
    assert (R : forall w', quiet w2 w' -> reaction w' = reaction w).
    { intros w' Q. rewrite (quiet_reaction _ _ Q), (quiet_reaction _ _ Q2).
      apply (quiet_reaction _ _ (print_all_quiet _ w)). }
    rewrite R; [apply H |].
    eapply quiet_trans; [| apply print_all_quiet].
    destruct (negb (Notify.no_confirm args) && negb (Notify.read args));
      repeat (eapply quiet_trans; [| apply print_all_quiet]); apply quiet_refl.
  - rewrite E. destruct (negb (Ptp.is_nil (Notify.res_failed res))); eauto.
Qed.

(** ** What the second loop files, result by result *)

(** The references the first loop of [main] collects: one for every name
    of the list that is found, in the order of the list. *)
Definition found_refs (w : World) (vm_names : list string) : list VmRef :=
  flat_map (fun n => match Ptp.get_vm_by_name n w with
                     | Some vm => [vm]
                     | None => []
                     end) vm_names.

(** The names of the list that are found in the inventory, in order. *)
Definition found_names (w : World) (vm_names : list string) : list string :=
  filter (fun n => match Ptp.get_vm_by_name n w with Some _ => true | None => false end)
    vm_names.

(** Whether the operator is asked and does not answer yes. *)
Definition declined (no_confirm read : bool) (reply : string) : bool :=
  if negb no_confirm && negb read
  then negb ((reply =? "yes")%string || (reply =? "y")%string)
  else false.

(** A world that differs from [w] only in what has been printed to
    stdout. *)
Definition same_platform (w w' : World) : Prop :=
  inventory w' = inventory w /\ trace w' = trace w /\ clock w' = clock w /\
  reaction w' = reaction w /\ stderr w' = stderr w.

(** [process_vm] of the PTP script called for each VM in turn: the name
    of the VM and the value returned, VM by VM. *)
Fixpoint ptp_outcomes (action : string) (todo : list VmRef) (w : World)
  : list (string * option bool) * World :=
  match todo with
  | [] => ([], w)
  | vm :: rest =>
      let (result, w1) := Ptp.process_vm (name (the_vm w vm)) action w in
      let (outs, w2) := ptp_outcomes action rest w1 in
      ((name (the_vm w1 vm), result) :: outs, w2)
  end.

Definition same_result (a b : option bool) : bool :=
  match a, b with
  | Some x, Some y => Bool.eqb x y
  | None, None => true
  | _, _ => false
  end.

(** The names whose [process_vm] returned [o], in order. *)
Definition returned (o : option bool) (outs : list (string * option bool)) : list string :=
  map fst (filter (fun p => same_result (snd p) o) outs).

(** The same for the notification script, whose [process_vm] returns a
    bool and may never come back. *)
Fixpoint notify_outcomes (fuel : nat) (args : Notify.Args) (todo : list VmRef) (w : World)
  : Run (list (string * bool)) :=
  match todo with
  | [] => Returned [] w
  | vm :: rest =>
      match Notify.process_vm fuel vm args w with
      | Spinning w1 => Spinning w1
      | Returned ok w1 =>
          match notify_outcomes fuel args rest w1 with
          | Spinning w2 => Spinning w2
          | Returned outs w2 => Returned ((name (the_vm w1 vm), ok) :: outs) w2
          end
      end
  end.

Definition returned_bool (b : bool) (outs : list (string * bool)) : list string :=
  map fst (filter (fun p => Bool.eqb (snd p) b) outs).

Lemma same_platform_refl w : same_platform w w.
Proof. repeat split. Qed.

Lemma same_platform_trans w1 w2 w3 :
  same_platform w1 w2 -> same_platform w2 w3 -> same_platform w1 w3.
Proof.
  intros (I1 & T1 & C1 & R1 & E1) (I2 & T2 & C2 & R2 & E2).
  repeat split; congruence.
Qed.

Lemma same_platform_print l w : same_platform w (print l w).
Proof. repeat split. Qed.

Lemma same_platform_print_all lines w : same_platform w (Ptp.print_all lines w).
Proof.
  revert w. induction lines as [| l lines IH]; intros w; simpl.
  - apply same_platform_refl.
  - eapply same_platform_trans; [apply same_platform_print | apply IH].
Qed.

Lemma found_refs_same w w' vm_names :
  inventory w' = inventory w -> found_refs w' vm_names = found_refs w vm_names.
Proof.
  intros I. unfold found_refs, Ptp.get_vm_by_name. rewrite I. reflexivity.
Qed.

(** The first loop collects exactly these references and only prints. *)
Lemma lookup_vms_refs vm_names found w :
  fst (Ptp.lookup_vms vm_names found w) = found ++ found_refs w vm_names /\
  same_platform w (snd (Ptp.lookup_vms vm_names found w)).
Proof.
  revert found w. induction vm_names as [| n rest IH]; intros found w.
  - simpl. rewrite app_nil_r. split; [reflexivity | apply same_platform_refl].
  - cbn [Ptp.lookup_vms found_refs flat_map]. fold (found_refs w rest).
    destruct (Ptp.get_vm_by_name n w) as [vm |].
    + destruct (IH (found ++ [vm]) (print ("  Found: " ++ n)%string w)) as [E S].
      rewrite E, <- app_assoc.
      split; [reflexivity |].
      eapply same_platform_trans; [apply same_platform_print | exact S].
    + destruct (IH found (print ("  WARNING: VM '" ++ n ++ "' not found")%string w))
        as [E S].
      rewrite E.
      split; [reflexivity |].
      eapply same_platform_trans; [apply same_platform_print | exact S].
Qed.

Lemma found_refs_names w vm_names :
  map (fun vm => name (the_vm w vm)) (found_refs w vm_names) = found_names w vm_names.
Proof.
  unfold found_refs, found_names.
  induction vm_names as [| n rest IH]; [reflexivity |].
  cbn [flat_map filter].
  destruct (Ptp.get_vm_by_name n w) as [vm |] eqn:G; [| exact IH].
  cbn [app map]. rewrite IH. f_equal. apply (found_vm n w vm G).
Qed.

Lemma the_vm_name w w' vm :
  map name (inventory w') = map name (inventory w) ->
  name (the_vm w' vm) = name (the_vm w vm).
Proof.
  intros E. unfold the_vm. rewrite <- !(map_nth name). rewrite E. reflexivity.
Qed.

(** There is one result for every VM of the list, in the order of the
    list, under the name the VM had from the start. *)
Lemma ptp_outcomes_names action todo w :
  map fst (fst (ptp_outcomes action todo w)) = map (fun vm => name (the_vm w vm)) todo /\
  map name (inventory (snd (ptp_outcomes action todo w))) = map name (inventory w).
Proof.
  revert w. induction todo as [| vm rest IH]; intros w; [split; reflexivity |].
  cbn [ptp_outcomes].
  pose proof (process_vm_names (name (the_vm w vm)) action w) as N.
  destruct (Ptp.process_vm (name (the_vm w vm)) action w) as [result w1].
  cbn [snd] in N.
  destruct (IH w1) as [E I].
  destruct (ptp_outcomes action rest w1) as [outs w2]. cbn [fst snd map] in *.
  split; [| congruence].
  rewrite E, (the_vm_name w w1 vm N). f_equal.
  apply map_ext. intros v. apply the_vm_name. exact N.
Qed.

Lemma notify_outcomes_names fuel args todo w outs w' :
  notify_outcomes fuel args todo w = Returned outs w' ->
  map fst outs = map (fun vm => name (the_vm w vm)) todo /\
  map name (inventory w') = map name (inventory w).
Proof.
  revert w outs w'. induction todo as [| vm rest IH]; intros w outs w'.
  - intros [= <- <-]. split; reflexivity.
  - cbn [notify_outcomes].
    pose proof (notify_process_vm_world fuel vm args w) as N. cbv zeta in N.
    destruct (Notify.process_vm fuel vm args w) as [ok w1 | w1]; [| discriminate].
    cbn [world_of] in N. destruct N as [N _].
    destruct (notify_outcomes fuel args rest w1) as [outs1 w2 |] eqn:O; [| discriminate].
    intros [= <- <-]. destruct (IH w1 outs1 w2 O) as [E I].
    cbn [map fst]. split; [| congruence].
    rewrite E, (the_vm_name w w1 vm N). f_equal.
    apply map_ext. intros v. apply the_vm_name. exact N.
Qed.

(** The second loop files each name under the bucket of what [process_vm]
    returned for it: True under success, None under skipped, False under
    failed. *)
Lemma process_all_outcomes action todo results w :
  Ptp.process_all action todo results w =
    ({| Ptp.res_success :=
          Ptp.res_success results
          ++ returned (Some true) (fst (ptp_outcomes action todo w));
        Ptp.res_skipped :=
          Ptp.res_skipped results ++ returned None (fst (ptp_outcomes action todo w));
        Ptp.res_failed :=
          Ptp.res_failed results
          ++ returned (Some false) (fst (ptp_outcomes action todo w)) |},
     snd (ptp_outcomes action todo w)).
Proof.
  revert results w. induction todo as [| vm rest IH]; intros results w.
  - simpl. unfold returned. simpl. rewrite !app_nil_r. destruct results; reflexivity.
  - cbn [Ptp.process_all ptp_outcomes].
    destruct (Ptp.process_vm (name (the_vm w vm)) action w) as [result w1].
    rewrite IH.
    destruct (ptp_outcomes action rest w1) as [outs w2]. cbn [fst snd].
    unfold returned.
    destruct result as [[|] |];
      cbn [filter snd same_result Bool.eqb map fst
           Ptp.res_success Ptp.res_skipped Ptp.res_failed];
      rewrite <- ?app_assoc; reflexivity.
Qed.

Lemma notify_process_all_outcomes fuel args todo results w :
  Notify.process_all fuel args todo results w =
    match notify_outcomes fuel args todo w with
    | Spinning w1 => Spinning w1
    | Returned outs w1 =>
        Returned
          {| Notify.res_success := Notify.res_success results ++ returned_bool true outs;
             Notify.res_failed := Notify.res_failed results ++ returned_bool false outs |}
          w1
    end.
Proof.
  revert results w. induction todo as [| vm rest IH]; intros results w.
  - simpl. unfold returned_bool. simpl. rewrite !app_nil_r. destruct results; reflexivity.
  - cbn [Notify.process_all notify_outcomes].
    destruct (Notify.process_vm fuel vm args w) as [ok w1 | w1]; [| reflexivity].
    rewrite IH.
    destruct (notify_outcomes fuel args rest w1) as [outs w2 | w2]; [| reflexivity].
    unfold returned_bool.
    destruct ok;
      cbn [filter snd Bool.eqb map fst Notify.res_success Notify.res_failed];
      rewrite <- ?app_assoc; reflexivity.
Qed.

Lemma returned_nil o outs :
  returned o outs = [] <-> forall n, ~ In (n, o) outs.
Proof.
  unfold returned. induction outs as [| [m x] outs IH]; simpl.
  - split; auto.
  - destruct (same_result x o) eqn:E; simpl.
    + split; [discriminate |]. intros H. exfalso. apply (H m). left.
      destruct x as [[|] |], o as [[|] |]; simpl in E; try discriminate; reflexivity.
    + rewrite IH. split.
      * intros H n [[= <- <-] | Hin]; [| exact (H n Hin)].
        destruct x as [[|] |]; simpl in E; discriminate.
      * intros H n Hin. apply (H n). right. exact Hin.
Qed.

Lemma returned_bool_nil b outs :
  returned_bool b outs = [] <-> forall n, ~ In (n, b) outs.
Proof.
  unfold returned_bool. induction outs as [| [m x] outs IH]; simpl.
  - split; auto.
  - destruct (Bool.eqb x b) eqn:E; simpl.
    + split; [discriminate |]. intros H. exfalso. apply (H m). left.
      apply Bool.eqb_prop in E. subst. reflexivity.
    + rewrite IH. split.
      * intros H n [[= <- <-] | Hin]; [| exact (H n Hin)].
        rewrite Bool.eqb_reflx in E. discriminate.
      * intros H n Hin. apply (H n). right. exact Hin.
Qed.

(** How the results and the status of a run follow from what
    [process_vm] returned: the run stops without results exactly in the
    three early exits; otherwise the second loop starts in a world that
    differs from the initial one only in the lines printed, goes through
    the found VMs in order, one result per found name, and files every
    name under the bucket of its result; the status is 0 exactly when
    every [process_vm] returned True or None, and 1 exactly when one
    returned False. *)
Record ptp_filing (args : Ptp.Args) (reply : string) (w : World)
    (code : Z) (results : option Ptp.Results) : Prop := {
  filing_none :
    results = None <->
    (found_refs w (Ptp.vms args) = [] \/ Ptp.dry_run args = true \/
     declined (Ptp.no_confirm args) (Ptp.read args) reply = true);
  filing_some :
    forall r, results = Some r ->
    exists w0,
      same_platform w w0 /\
      let outs := fst (ptp_outcomes (Ptp.action_of args) (found_refs w (Ptp.vms args)) w0) in
      map fst outs = found_names w (Ptp.vms args) /\
      Ptp.res_success r = returned (Some true) outs /\
      Ptp.res_skipped r = returned None outs /\
      Ptp.res_failed r = returned (Some false) outs /\
      (code = 0 <-> forall n o, In (n, o) outs -> o = Some true \/ o = None) /\
      (code = 1 <-> exists n, In (n, Some false) outs)
}.

(** The same for the notification script when it returns; its
    [process_vm] returns True or False, and there is no skipped bucket. *)
Record notify_filing (fuel : nat) (args : Notify.Args) (reply : string) (w : World)
    (code : Z) (results : option Notify.Results) : Prop := {
  notify_filing_none :
    results = None <->
    (found_refs w (Notify.vms args) = [] \/ Notify.dry_run args = true \/
     declined (Notify.no_confirm args) (Notify.read args) reply = true);
  notify_filing_some :
    forall r, results = Some r ->
    exists w0 outs w1,
      same_platform w w0 /\
      notify_outcomes fuel args (found_refs w (Notify.vms args)) w0 = Returned outs w1 /\
      map fst outs = found_names w (Notify.vms args) /\
      Notify.res_success r = returned_bool true outs /\
      Notify.res_failed r = returned_bool false outs /\
      (code = 0 <-> forall n ok, In (n, ok) outs -> ok = true) /\
      (code = 1 <-> exists n, In (n, false) outs)
}.

Lemma ptp_main_filing args reply w :
  ptp_filing args reply w (fst (fst (Ptp.main args reply w)))
    (snd (fst (Ptp.main args reply w))).
Proof.
  unfold Ptp.main. cbv zeta.
  set (w1 := Ptp.print_all _ w).
  assert (P1 : same_platform w w1) by apply same_platform_print_all.
  destruct (lookup_vms_refs (Ptp.vms args) [] w1) as [E2 P2].
  rewrite (found_refs_same w w1 _ (proj1 P1)) in E2. cbn [app] in E2.
  destruct (Ptp.lookup_vms (Ptp.vms args) [] w1) as [todo w2]. cbn [fst snd] in *.
  subst todo. set (todo := found_refs w (Ptp.vms args)).
  assert (Early : (todo = [] \/ Ptp.dry_run args = true \/
                   declined (Ptp.no_confirm args) (Ptp.read args) reply = true) ->
                  ptp_filing args reply w 0 None).
  { intros H. split.
    - split; auto.
    - intros r [=]. }
  destruct (Ptp.is_nil todo) eqn:N.
  { cbn [fst snd]. apply Early. left. apply is_nil_true. exact N. }
  destruct (Ptp.dry_run args) eqn:D.
  { cbn [fst snd]. apply Early. auto. }
  fold (declined (Ptp.no_confirm args) (Ptp.read args) reply).
  destruct (declined (Ptp.no_confirm args) (Ptp.read args) reply) eqn:Dc.
  { cbn [fst snd]. apply Early. auto. }
  match goal with
  | |- context [Ptp.process_all ?a todo ?init ?w6] => set (W6 := w6); set (Init := init)
  end.
  assert (P6 : same_platform w W6).
  { unfold W6. eapply same_platform_trans; [| apply same_platform_print_all].
    destruct (negb (Ptp.no_confirm args) && negb (Ptp.read args));
      repeat (eapply same_platform_trans; [| apply same_platform_print_all]);
      exact (same_platform_trans _ _ _ P1 P2). }
  rewrite (process_all_outcomes (Ptp.action_of args) todo Init W6).
  unfold Init. cbn [Ptp.res_success Ptp.res_skipped Ptp.res_failed app fst snd].
  set (outs := fst (ptp_outcomes (Ptp.action_of args) todo W6)).
  assert (F : returned (Some false) outs = [] <->
              forall n o, In (n, o) outs -> o = Some true \/ o = None).
  { rewrite returned_nil. split.
    - intros H n [[|] |] Hin; auto. elim (H n Hin).
    - intros H n Hin. destruct (H n _ Hin); discriminate. }
  assert (G : returned (Some false) outs <> [] <-> exists n, In (n, Some false) outs).
  { rewrite returned_nil. split.
    - intros H. destruct (returned (Some false) outs) eqn:R.
      + elim H. apply returned_nil. exact R.
      + assert (In s (returned (Some false) outs)) as Hs by (rewrite R; left; reflexivity).
        unfold returned in Hs. apply in_map_iff in Hs.
        destruct Hs as ([m x] & <- & Hf). apply filter_In in Hf. destruct Hf as [Hin Hx].
        exists m. destruct x as [[|] |]; simpl in Hx; try discriminate. exact Hin.
    - intros [n Hin] H. exact (H n Hin). }
  assert (Some_case : forall code,
            (code = 0 <-> returned (Some false) outs = []) ->
            (code = 1 <-> returned (Some false) outs <> []) ->
            ptp_filing args reply w code
              (Some {| Ptp.res_success := returned (Some true) outs;
                       Ptp.res_skipped := returned None outs;
                       Ptp.res_failed := returned (Some false) outs |})).
  { intros code H0 H1. split.
    - split; [discriminate |]. intros [H | [H | H]]; [| congruence | congruence].
      unfold todo in N. rewrite H in N. discriminate.
    - intros r [= <-]. exists W6. split; [exact P6 |].
      cbn [Ptp.res_success Ptp.res_skipped Ptp.res_failed].
      split.
      { fold todo. fold outs. unfold outs.
        rewrite (proj1 (ptp_outcomes_names (Ptp.action_of args) todo W6)).
        unfold todo. rewrite <- found_refs_names.
        apply map_ext. intros v. apply the_vm_name. rewrite (proj1 P6). reflexivity. }
      repeat split; try reflexivity.
      + intros H. apply F, H0. exact H.
      + intros H. apply H0, F. exact H.
      + intros H. apply G, H1. exact H.
      + intros H. apply H1, G. exact H. }
  destruct (returned (Some false) outs) eqn:R; cbn [Ptp.is_nil negb fst snd].
  - apply Some_case; split; intros; try reflexivity; try discriminate; congruence.
  - apply Some_case; split; intros; try reflexivity; try discriminate; congruence.
Qed.

Lemma notify_main_filing fuel args reply w code results w' :
  Notify.main fuel args reply w = Returned (code, results) w' ->
  notify_filing fuel args reply w code results.
Proof.
  unfold Notify.main. cbv zeta. rewrite notify_lookup_vms.
  set (w1 := Ptp.print_all _ w).
  assert (P1 : same_platform w w1) by apply same_platform_print_all.
  destruct (lookup_vms_refs (Notify.vms args) [] w1) as [E2 P2].
  rewrite (found_refs_same w w1 _ (proj1 P1)) in E2. cbn [app] in E2.
  destruct (Ptp.lookup_vms (Notify.vms args) [] w1) as [todo w2]. cbn [fst snd] in *.
  subst todo. set (todo := found_refs w (Notify.vms args)).
  assert (Early : forall wf,
            (todo = [] \/ Notify.dry_run args = true \/
             declined (Notify.no_confirm args) (Notify.read args) reply = true) ->
            Returned (0, @None Notify.Results) wf = Returned (code, results) w' ->
            notify_filing fuel args reply w code results).
  { intros wf H [= <- <- _]. split.
    - split; auto.
    - intros r [=]. }
  destruct (Ptp.is_nil todo) eqn:N.
  { apply Early. left. apply is_nil_true. exact N. }
  destruct (Notify.dry_run args) eqn:D.
  { apply Early. auto. }
  fold (declined (Notify.no_confirm args) (Notify.read args) reply).
  destruct (declined (Notify.no_confirm args) (Notify.read args) reply) eqn:Dc.
  { apply Early. auto. }
  match goal with
  | |- context [Notify.process_all fuel args todo ?init ?w6] =>
      set (W6 := w6); set (Init := init)
  end.
  assert (P6 : same_platform w W6).
  { unfold W6. eapply same_platform_trans; [| apply same_platform_print_all].
    destruct (negb (Notify.no_confirm args) && negb (Notify.read args));
      repeat (eapply same_platform_trans; [| apply same_platform_print_all]);
      exact (same_platform_trans _ _ _ P1 P2). }
  rewrite (notify_process_all_outcomes fuel args todo Init W6).
  destruct (notify_outcomes fuel args todo W6) as [outs w7 | w7] eqn:O; [| discriminate].
  unfold Init. cbn [Notify.res_success Notify.res_failed app].
  assert (F : returned_bool false outs = [] <->
              forall n ok, In (n, ok) outs -> ok = true).
  { rewrite returned_bool_nil. split.
    - intros H n [|] Hin; auto. elim (H n Hin).
    - intros H n Hin. specialize (H n _ Hin). discriminate. }
  assert (G : returned_bool false outs <> [] <-> exists n, In (n, false) outs).
  { split.
    - intros H. destruct (returned_bool false outs) eqn:R; [congruence |].
      assert (In s (returned_bool false outs)) as Hs by (rewrite R; left; reflexivity).
      unfold returned_bool in Hs. apply in_map_iff in Hs.
      destruct Hs as ([m x] & <- & Hf). apply filter_In in Hf. destruct Hf as [Hin Hx].
      exists m. destruct x; simpl in Hx; try discriminate. exact Hin.
    - intros [n Hin] H. exact (proj1 (returned_bool_nil false outs) H n Hin). }
  assert (Some_case : forall c,
            (c = 0 <-> returned_bool false outs = []) ->
            (c = 1 <-> returned_bool false outs <> []) ->
            c = code ->
            Some {| Notify.res_success := returned_bool true outs;
                    Notify.res_failed := returned_bool false outs |} = results ->
            notify_filing fuel args reply w code results).
  { intros c H0 H1 <- <-. split.
    - split; [discriminate |]. intros [H | [H | H]]; [| congruence | congruence].
      unfold todo in N. rewrite H in N. discriminate.
    - intros r [= <-]. exists W6, outs, w7. split; [exact P6 |]. split; [exact O |].
      cbn [Notify.res_success Notify.res_failed].
      split.
      { rewrite (proj1 (notify_outcomes_names fuel args todo W6 outs w7 O)).
        unfold todo. rewrite <- found_refs_names.
        apply map_ext. intros v. apply the_vm_name. rewrite (proj1 P6). reflexivity. }
      repeat split; try reflexivity.
      + intros H. apply F, H0. exact H.
      + intros H. apply H0, F. exact H.
      + intros H. apply G, H1. exact H.
      + intros H. apply H1, G. exact H. }
  destruct (returned_bool false outs) eqn:R; cbn [Ptp.is_nil negb];
    intros [= Hc Hr _]; apply (Some_case _) with (3 := Hc) (4 := Hr);
    split; intros; try reflexivity; try discriminate; congruence.
Qed.

(** C8.  In both scripts: a name that is not found gets its warning and
    is in none of the buckets; the exit status is 1 exactly when the
    failed bucket is not empty and 0 otherwise, in particular 0 when no
    name is found.  The buckets and the status follow what [process_vm]
    returned: unless the run stops early (no name found, dry run, the
    operator declines), [process_vm] is called once for every found name,
    in order, and the name is filed under success when it returned True,
    under skipped when it returned None (PTP script only) and under failed
    when it returned False; the status is 0 exactly when every call
    returned True or None, and 1 exactly when some call returned False.
    [main] of the PTP script always comes back with such a status; [main]
    of the notification script does so whenever it returns, and it returns
    when the platform settles every request. *)
Theorem batch_buckets_and_exit_code :
  (forall args reply w,
     let res := Ptp.main args reply w in
     batch_report (Ptp.vms args) w (fst (fst res))
       (option_map bucket_names (snd (fst res)))
       (option_map Ptp.res_failed (snd (fst res)))
       (snd res) /\
     ptp_filing args reply w (fst (fst res)) (snd (fst res))) /\
  (forall fuel args reply w,
     (forall code results w',
        Notify.main fuel args reply w = Returned (code, results) w' ->
        batch_report (Notify.vms args) w code
          (option_map notify_bucket_names results)
          (option_map Notify.res_failed results) w' /\
        notify_filing fuel args reply w code results) /\
     ((forall n, settles fuel (reaction w n) = true) ->
      exists code results w',
        Notify.main fuel args reply w = Returned (code, results) w')).
Proof.
  split.
  - intros args reply w. cbv zeta. split.
    + apply ptp_main_report.
    + apply ptp_main_filing.
  - intros fuel args reply w. split.
    + intros code results w' E. split.
      * pose proof (notify_main_report fuel args reply w) as R.
        rewrite E in R. exact R.
      * exact (notify_main_filing fuel args reply w code results w' E).
    + apply notify_main_returns.
Qed.

(** The end-to-end scenario: names A, B, C; B is not in the inventory, the
    add for A succeeds, the add for C fails. *)
Module EndToEnd.

Definition inventory : list VM :=
  [ Scenario.vm_of "A" poweredOff [Scenario.disk];
    Scenario.vm_of "C" poweredOff [Scenario.disk] ].

Definition world : World :=
  Scenario.make_world inventory
    (fun n => match n with O => Scenario.ok_after 1 | _ => Scenario.fails_after 1 end).

Definition args : Ptp.Args :=
  {| Ptp.vms := ["A"; "B"; "C"]; Ptp.read := false; Ptp.enable := true;
     Ptp.disable := false; Ptp.no_confirm := true; Ptp.dry_run := false |}.

Definition notify_args : Notify.Args :=
  {| Notify.vms := ["A"; "B"; "C"]; Notify.read := false; Notify.enable := true;
     Notify.disable := false; Notify.timeout := Some 600;
     Notify.no_confirm := true; Notify.dry_run := false |}.

End EndToEnd.

Example end_to_end_ptp :
  fst (Ptp.main EndToEnd.args "" EndToEnd.world) =
    (1, Some {| Ptp.res_success := ["A"]; Ptp.res_skipped := [];
                Ptp.res_failed := ["C"] |}).
Proof. vm_compute. reflexivity. Qed.

Example end_to_end_notify :
  exists w',
    Notify.main 5 EndToEnd.notify_args "" EndToEnd.world =
      Returned (1, Some {| Notify.res_success := ["A"]; Notify.res_failed := ["C"] |}) w'.
Proof. eexists. vm_compute. reflexivity. Qed.

Lemma batch_buckets_and_exit_code_witness :
  fst (fst (Ptp.main EndToEnd.args "" EndToEnd.world)) = 1 /\
  In ("  WARNING: VM 'B' not found")%string
     (stdout (snd (Ptp.main EndToEnd.args "" EndToEnd.world))) /\
  (exists code results w',
     Notify.main 5 EndToEnd.notify_args "" Scenario.all_well
       = Returned (code, results) w') /\
  (exists w',
     Notify.main 5 EndToEnd.notify_args "" EndToEnd.world =
       Returned (1, Some {| Notify.res_success := ["A"]; Notify.res_failed := ["C"] |}) w' /\
     notify_filing 5 EndToEnd.notify_args "" EndToEnd.world 1
       (Some {| Notify.res_success := ["A"]; Notify.res_failed := ["C"] |})).
Proof.
  destruct batch_buckets_and_exit_code as [P N].
  destruct (P EndToEnd.args ""%string EndToEnd.world) as [[Wn _ Fa _ _] _].
  split; [| split; [| split]]; cycle 3.
  - destruct end_to_end_notify as [w' E]. exists w'. split; [exact E |].
    exact (proj2 (proj1 (N 5%nat EndToEnd.notify_args ""%string EndToEnd.world) _ _ _ E)).
  - apply (proj2 Fa). eexists. split; [vm_compute; reflexivity | discriminate].
  - exact (Wn "B"%string (or_intror (or_introl eq_refl)) eq_refl).
  - exact (proj2 (N 5%nat EndToEnd.notify_args ""%string Scenario.all_well)
             (fun n => eq_refl)).
Defined.

(** * Further properties of the two scripts *)

(** ** [get_vm_by_name] *)

Lemma find_vm_first vm_name view i vm :
  Ptp.find_vm vm_name view i = Some vm ->
  forall j, (i <= j < vm)%nat -> name (nth (j - i) view default_vm) <> vm_name.
Proof.
  revert i. induction view as [| v view IH]; intros i H j Hj; simpl in H; [discriminate |].
  destruct (name v =? vm_name)%string eqn:E.
  - injection H as <-. lia.
  - destruct (Nat.eq_dec j i) as [-> | Hne].
    + rewrite Nat.sub_diag. simpl. apply String.eqb_neq. exact E.
    + replace (j - i)%nat with (S (j - S i)) by lia. simpl.
      apply (IH (S i) H). lia.
Qed.

Lemma find_vm_none_nth vm_name view i :
  Ptp.find_vm vm_name view i = None ->
  forall j, (j < List.length view)%nat -> name (nth j view default_vm) <> vm_name.
Proof.
  revert i. induction view as [| v view IH]; intros i H j Hj; simpl in *; [lia |].
  destruct (name v =? vm_name)%string eqn:E; [discriminate |].
  destruct j as [| j].
  - apply String.eqb_neq. exact E.
  - apply (IH (S i) H). lia.
Qed.

(** X1.  [get_vm_by_name] returns the first VM of the view whose name is
    exactly the name asked for: no VM before it has that name.  It returns
    None only when no VM of the view has that name.  Both scripts look up
    in the same way. *)
Theorem get_vm_by_name_first_match vm_name w :
  match Ptp.get_vm_by_name vm_name w with
  | Some vm =>
      (vm < List.length (inventory w))%nat /\
      name (the_vm w vm) = vm_name /\
      forall j, (j < vm)%nat -> name (the_vm w j) <> vm_name
  | None =>
      forall j, (j < List.length (inventory w))%nat -> name (the_vm w j) <> vm_name
  end /\
  Notify.get_vm_by_name vm_name w = Ptp.get_vm_by_name vm_name w.
Proof.
  split; [| reflexivity].
  destruct (Ptp.get_vm_by_name vm_name w) as [vm |] eqn:F.
  - destruct (found_vm _ _ _ F) as [L N]. repeat apply conj; auto.
    intros j Hj. pose proof (find_vm_first _ _ _ _ F j) as H.
    rewrite Nat.sub_0_r in H. apply H. lia.
  - intros j Hj. apply (find_vm_none_nth _ _ _ F j Hj).
Qed.

(** ** [wait_for_task], in time and in events *)





(** X3.  With a timeout that is not negative, [wait_for_task] is back
    after at most timeout + 1 seconds of sleeping, whatever the task does,
    and it has sent no request. *)
Theorem wait_for_task_is_bounded task timeout w :
  0 <= timeout ->
  clock w <= clock (snd (wait_for_task task timeout w)) <= clock w + timeout + 1 /\
  requests_of_call w (snd (wait_for_task task timeout w)) = [].
Proof.
  intros H0. split.
  - unfold wait_for_task.
    pose proof (wait_loop_spec task timeout (clock w) 0 w) as S.
    destruct (wait_loop task timeout (clock w) 0 w) as [[m |] w1].
    + destruct S as (n & -> & _ & _ & _ & Hd & Hc & _); [simpl; lia |].
      assert (Z.of_nat n <= timeout + 1)
        by (destruct n; [lia | specialize (Hd n); lia]).
      unfold read_state. destruct (task (S n)); simpl; lia.
    + destruct S as (n & _ & _ & Hd & _ & Hc & _); [simpl; lia |].
      assert (Z.of_nat n <= timeout + 1)
        by (destruct n; [lia | specialize (Hd n); lia]).
      simpl. lia.
  - apply sends_requests_of_call, quiet_sends, wait_for_task_quiet.
Qed.

Lemma wait_for_task_is_bounded_witness :
  clock Scenario.all_well <= clock (snd (wait_for_task Scenario.stuck 3 Scenario.all_well))
    <= clock Scenario.all_well + 3 + 1.
Proof.
  apply (wait_for_task_is_bounded Scenario.stuck 3 Scenario.all_well). lia.
Defined.

(** ** One request per operation *)

(** X4.  Each of the four operations of the PTP script sends its request
    exactly once, whatever the platform answers (nothing is retried), and
    returns True exactly when the request is answered with a task that is
    seen to succeed within the default timeout of 300 seconds. *)
Theorem each_operation_sends_one_request vm w :
  (fst (Ptp.power_off_vm vm w) = accepted (next_reaction w) /\
   requests_of_call w (snd (Ptp.power_off_vm vm w)) = [PowerOffVM_Task vm]) /\
  (fst (Ptp.power_on_vm vm w) = accepted (next_reaction w) /\
   requests_of_call w (snd (Ptp.power_on_vm vm w)) = [PowerOnVM_Task vm]) /\
  (fst (Ptp.add_ptp_device vm w) = accepted (next_reaction w) /\
   requests_of_call w (snd (Ptp.add_ptp_device vm w)) =
     [ReconfigVM_Task vm Ptp.add_spec]) /\
  (forall d, Ptp.get_ptp_device vm w = Some d ->
   fst (Ptp.remove_ptp_device vm w) = accepted (next_reaction w) /\
   requests_of_call w (snd (Ptp.remove_ptp_device vm w)) =
     [ReconfigVM_Task vm (Ptp.remove_spec d)]).
Proof.
  repeat apply conj.
  - apply (step_result _ _ _ _ _ (power_off_vm_step vm w)).
  - apply sends_requests_of_call, (step_sends _ _ _ _ _ (power_off_vm_step vm w)).
  - apply (step_result _ _ _ _ _ (power_on_vm_step vm w)).
  - apply sends_requests_of_call, (step_sends _ _ _ _ _ (power_on_vm_step vm w)).
  - apply (step_result _ _ _ _ _ (add_ptp_device_step vm w)).
  - apply sends_requests_of_call, (step_sends _ _ _ _ _ (add_ptp_device_step vm w)).
  - intros d G. split.
    + apply (step_result _ _ _ _ _ (remove_ptp_device_step vm w d G)).
    + apply sends_requests_of_call, (step_sends _ _ _ _ _ (remove_ptp_device_step vm w d G)).
Qed.

Lemma each_operation_sends_one_request_witness :
  requests_of_call Scenario.all_fail (snd (Ptp.remove_ptp_device 2%nat Scenario.all_fail)) =
    [ReconfigVM_Task 2%nat (Ptp.remove_spec Scenario.clock_device)].
Proof.
  destruct (each_operation_sends_one_request 2%nat Scenario.all_fail) as (_ & _ & _ & R).
  apply (R Scenario.clock_device eq_refl).
Defined.

(** ** A request that raises *)

Lemma request_and_wait_raises e vm effect on_exn on_true on_false w exn :
  next_reaction w = Raises exn ->
  request_and_wait e vm effect on_exn on_true on_false w = (false, on_exn exn (log e w)).
Proof.
  unfold next_reaction, request_and_wait, submit. intros ->. reflexivity.
Qed.

(** X5.  When the platform call raises, the operation catches the
    exception, prints it and returns False; the task state is never read
    and nothing but the one request reaches the platform.  In the
    notification script the message goes to stderr and the call returns
    however the wait would have gone. *)
Theorem raised_request_is_reported vm w exn :
  next_reaction w = Raises exn ->
  (fst (Ptp.power_off_vm vm w) = false /\
   since w (snd (Ptp.power_off_vm vm w)) = [PowerOffVM_Task vm] /\
   stdout (snd (Ptp.power_off_vm vm w)) =
     stdout w ++ [("  Powering off VM: " ++ name (the_vm w vm) ++ "...")%string;
                  ("  Error powering off VM: " ++ exn)%string]) /\
  (fst (Ptp.power_on_vm vm w) = false /\
   since w (snd (Ptp.power_on_vm vm w)) = [PowerOnVM_Task vm] /\
   stdout (snd (Ptp.power_on_vm vm w)) =
     stdout w ++ [("  Powering on VM: " ++ name (the_vm w vm) ++ "...")%string;
                  ("  Error powering on VM: " ++ exn)%string]) /\
  (fst (Ptp.add_ptp_device vm w) = false /\
   since w (snd (Ptp.add_ptp_device vm w)) = [ReconfigVM_Task vm Ptp.add_spec] /\
   stdout (snd (Ptp.add_ptp_device vm w)) =
     stdout w ++ [("  Adding PTP device to VM: " ++ name (the_vm w vm) ++ "...")%string;
                  ("  Error adding PTP device: " ++ exn)%string]) /\
  (forall fuel timeout enabled,
   exists w',
     Notify.set_vm_notification_settings fuel vm timeout enabled w = Returned false w' /\
     since w w' = [ReconfigVM_Task vm (Notify.build_spec timeout enabled)] /\
     stderr w' = stderr w ++ [("Error: Failed to reconfigure VM: " ++ exn)%string] /\
     inventory w' = inventory w).
Proof.
  intros R.
  assert (Eoff : Ptp.power_off_vm vm w =
                 (false,
                  print ("  Error powering off VM: " ++ exn)%string
                    (log (PowerOffVM_Task vm)
                       (print ("  Powering off VM: " ++ name (the_vm w vm) ++ "...")%string w)))).
  { apply (request_and_wait_raises (PowerOffVM_Task vm) vm (set_power poweredOff)
             (fun e w => print ("  Error powering off VM: " ++ e)%string w)
             (fun w0 => print ("  VM " ++ name (the_vm w0 vm)
                               ++ " powered off successfully")%string w0)
             (fun w => w)
             (print ("  Powering off VM: " ++ name (the_vm w vm) ++ "...")%string w)
             exn R). }
  assert (Eon : Ptp.power_on_vm vm w =
                (false,
                 print ("  Error powering on VM: " ++ exn)%string
                   (log (PowerOnVM_Task vm)
                      (print ("  Powering on VM: " ++ name (the_vm w vm) ++ "...")%string w)))).
  { apply (request_and_wait_raises (PowerOnVM_Task vm) vm (set_power poweredOn)
             (fun e w => print ("  Error powering on VM: " ++ e)%string w)
             (fun w0 => print ("  VM " ++ name (the_vm w0 vm)
                               ++ " powered on successfully")%string w0)
             (fun w => w)
             (print ("  Powering on VM: " ++ name (the_vm w vm) ++ "...")%string w)
             exn R). }
  assert (Eadd : Ptp.add_ptp_device vm w =
                 (false,
                  print ("  Error adding PTP device: " ++ exn)%string
                    (log (ReconfigVM_Task vm Ptp.add_spec)
                       (print ("  Adding PTP device to VM: " ++ name (the_vm w vm)
                               ++ "...")%string w)))).
  { apply (request_and_wait_raises (ReconfigVM_Task vm Ptp.add_spec) vm
             (apply_spec Ptp.add_spec)
             (fun e w => print ("  Error adding PTP device: " ++ e)%string w)
             (fun w0 => print ("  PTP device added successfully to "
                               ++ name (the_vm w0 vm))%string w0)
             (fun w0 => print ("  Failed to add PTP device to "
                               ++ name (the_vm w0 vm))%string w0)
             (print ("  Adding PTP device to VM: " ++ name (the_vm w vm) ++ "...")%string w)
             exn R). }
  rewrite Eoff, Eon, Eadd. cbn [fst snd].
  split; [| split; [| split; [| ]]].
  - split; [reflexivity |]. split; [apply since_app; reflexivity |].
    simpl. rewrite <- app_assoc. reflexivity.
  - split; [reflexivity |]. split; [apply since_app; reflexivity |].
    simpl. rewrite <- app_assoc. reflexivity.
  - split; [reflexivity |]. split; [apply since_app; reflexivity |].
    simpl. rewrite <- app_assoc. reflexivity.
  - intros fuel timeout enabled.
    unfold Notify.set_vm_notification_settings, call_ReconfigVM_Task, submit.
    unfold next_reaction in R. rewrite R. eexists. split; [reflexivity |].
    split; [apply since_app; reflexivity |]. split; reflexivity.
Qed.

Lemma raised_request_is_reported_witness :
  fst (Ptp.power_off_vm 0%nat
         (Scenario.make_world Scenario.three (fun _ => Raises "permission denied"))) = false.
Proof.
  apply (raised_request_is_reported 0%nat
           (Scenario.make_world Scenario.three (fun _ => Raises "permission denied"))
           "permission denied"%string eq_refl).
Defined.

(** ** The disable branch and the failures around the edit *)

(** X6.  For a found VM that has a precision-clock device, disable removes
    the first such device of the VM's device list: it sends exactly
    power-off, the removal of that device and power-on when the VM is
    powered on and the power-off and the removal are seen to succeed, and
    exactly the removal when the VM is not powered on. *)
Theorem disable_request_sequence vm_name vm w :
  Ptp.get_vm_by_name vm_name w = Some vm ->
  Ptp.has_ptp_device vm w = true ->
  exists d,
    find is_precision_clock (hardware_device (the_vm w vm)) = Some d /\
    let w' := snd (Ptp.process_vm vm_name "disable" w) in
    (powerState (the_vm w vm) = poweredOn ->
     accepted (next_reaction w) = true ->
     accepted (second_reaction w) = true ->
     requests_of_call w w' =
       [PowerOffVM_Task vm; ReconfigVM_Task vm (Ptp.remove_spec d); PowerOnVM_Task vm] /\
     fst (Ptp.process_vm vm_name "disable" w) = Some (accepted (third_reaction w))) /\
    (powerState (the_vm w vm) <> poweredOn ->
     requests_of_call w w' = [ReconfigVM_Task vm (Ptp.remove_spec d)] /\
     fst (Ptp.process_vm vm_name "disable" w) = Some (accepted (next_reaction w))).
Proof.
  intros F H. destruct (has_a_ptp_device _ _ H) as [d [G _]].
  exists d. split; [exact G |]. intros w'. subst w'.
  rewrite (process_vm_disable _ _ _ F), H. cbn [negb]. split.
  - intros Hp A1 A2.
    destruct (outcome_announced vm_name w _ _ _ _
                (bracket_edit_succeeds Ptp.remove_ptp_device vm_name vm (Ptp.remove_spec d)
                   (announced vm_name w)
                   (fun w1 => remove_edit_step vm (announced vm_name w) d w1 G)
                   Hp A1 A2))
      as [V S _].
    split; [apply (sends_requests_of_call _ _ _ S) | exact V].
  - intros Hp.
    destruct (outcome_announced vm_name w _ _ _ _
                (bracket_not_powered_on Ptp.remove_ptp_device vm_name vm (Ptp.remove_spec d)
                   (announced vm_name w)
                   (fun w1 => remove_edit_step vm (announced vm_name w) d w1 G)
                   Hp))
      as [V S _].
    split; [apply (sends_requests_of_call _ _ _ S) | exact V].
Qed.

Lemma disable_request_sequence_witness :
  exists d,
    find is_precision_clock (hardware_device (the_vm Scenario.all_well 2%nat)) = Some d /\
    requests_of_call Scenario.all_well
      (snd (Ptp.process_vm "C" "disable" Scenario.all_well)) =
      [PowerOffVM_Task 2%nat; ReconfigVM_Task 2%nat (Ptp.remove_spec d);
       PowerOnVM_Task 2%nat].
Proof.
  destruct (disable_request_sequence "C" 2%nat Scenario.all_well eq_refl eq_refl)
    as (d & G & On & _).
  exists d. split; [exact G |].
  apply (proj1 (On eq_refl eq_refl eq_refl)).
Defined.

(** X7.  When a powered-on VM cannot be powered off, enable and disable
    both end in False right there: the power-off is the only request, the
    edit is not attempted and the device list is what it was. *)
Theorem failed_power_off_stops_the_vm vm_name vm w action :
  Ptp.get_vm_by_name vm_name w = Some vm ->
  powerState (the_vm w vm) = poweredOn ->
  accepted (next_reaction w) = false ->
  (action = "enable"%string /\ Ptp.has_ptp_device vm w = false) \/
  (action = "disable"%string /\ Ptp.has_ptp_device vm w = true) ->
  let res := Ptp.process_vm vm_name action w in
  fst res = Some false /\
  requests_of_call w (snd res) = [PowerOffVM_Task vm] /\
  hardware_device (the_vm (snd res) vm) = hardware_device (the_vm w vm).
Proof.
  intros F Hp A1 Hact res. subst res.
  assert (K : forall edit,
            let run := Ptp.edit_with_power_bracket edit vm_name vm (announced vm_name w) in
            fst run = Some false /\
            requests_of_call w (snd run) = [PowerOffVM_Task vm] /\
            hardware_device (the_vm (snd run) vm) = hardware_device (the_vm w vm)).
  { intros edit run. subst run.
    destruct (outcome_announced vm_name w _ _ _ _
                (bracket_power_off_fails edit vm_name vm (announced vm_name w) Hp A1))
      as [V S I].
    repeat apply conj; auto.
    - apply (sends_requests_of_call _ _ _ S).
    - unfold the_vm. rewrite I. unfold commit.
      destruct (committed _); auto.
      apply (nth_update_vm_field hardware_device). reflexivity. }
  destruct Hact as [[-> H] | [-> H]].
  - rewrite (process_vm_enable _ _ _ F), H. apply K.
  - rewrite (process_vm_disable _ _ _ F), H. apply K.
Qed.

Lemma failed_power_off_stops_the_vm_witness :
  fst (Ptp.process_vm "A" "enable" Scenario.all_fail) = Some false /\
  fst (Ptp.process_vm "C" "disable" Scenario.all_fail) = Some false.
Proof.
  split.
  - apply (failed_power_off_stops_the_vm "A" 0%nat Scenario.all_fail "enable"
             eq_refl eq_refl eq_refl (or_introl (conj eq_refl eq_refl))).
  - apply (failed_power_off_stops_the_vm "C" 2%nat Scenario.all_fail "disable"
             eq_refl eq_refl eq_refl (or_intror (conj eq_refl eq_refl))).
Defined.

Lemma update_vm_length vm f inv : List.length (update_vm vm f inv) = List.length inv.
Proof.
  revert vm. induction inv as [| v inv IH]; intros [| n]; simpl; auto.
Qed.

Lemma bracket_power_on_warning edit vm_name vm spec w :
  (forall w1,
     hardware_device (the_vm w1 vm) = hardware_device (the_vm w vm) ->
     request_step (ReconfigVM_Task vm spec) vm (apply_spec spec) w1 (edit vm w1)) ->
  powerState (the_vm w vm) = poweredOn ->
  accepted (next_reaction w) = true ->
  accepted (second_reaction w) = true ->
  accepted (third_reaction w) = false ->
  exists w4,
    Ptp.edit_with_power_bracket edit vm_name vm w =
      (Some false, print ("  WARNING: Failed to power on VM " ++ vm_name)%string w4).
Proof.
  intros edit_step Hp Ha1 Ha2 Ha3. unfold Ptp.edit_with_power_bracket.
  rewrite Hp. cbv zeta. simpl power_state_eqb. cbv iota beta.
  set (w0 := print _ w).
  pose proof (request_step_print _ _ _ _ _ _ (power_off_vm_step vm w0)) as St.
  destruct (Ptp.power_off_vm vm w0) as [ok w1]. destruct St as [Hr Hi Hs].
  cbn [fst snd] in *. rewrite Ha1 in Hr. subst ok. cbn [negb].
  destruct (after_power_off vm w w1 Hs Hi) as (S2 & I2 & N2 & D2).
  pose proof (edit_step _ D2) as St.
  destruct (edit vm (sleep 2 w1)) as [ok w3]. destruct St as [Hr3 Hi3 Hs3].
  cbn [fst snd] in *. rewrite N2 in Hr3. rewrite Ha2 in Hr3. subst ok.
  cbn [andb].
  assert (S3 : sends [PowerOffVM_Task vm; ReconfigVM_Task vm spec] w (sleep 2 w3)).
  { eapply sends_quiet_r; [| apply quiet_sleep].
    apply (sends_trans [PowerOffVM_Task vm] [ReconfigVM_Task vm spec] _ _ _ S2 Hs3). }
  assert (N3 : next_reaction (sleep 2 w3) = third_reaction w).
  { rewrite (next_reaction_sends _ _ _ S3). unfold third_reaction.
    cbn [List.length]. f_equal. lia. }
  pose proof (power_on_vm_step vm (sleep 2 w3)) as St.
  destruct (Ptp.power_on_vm vm (sleep 2 w3)) as [ok w4]. destruct St as [Hr4 _ _].
  cbn [fst snd] in *. rewrite N3, Ha3 in Hr4. subst ok. cbn [negb].
  exists w4. reflexivity.
Qed.

(** X8.  When the edit went through but the VM cannot be powered on
    again, the VM's result is False although the device list has changed:
    all three requests were sent, the last line printed is the warning
    that names the VM, and after enable the VM has its precision clock
    and is left powered off. *)
Theorem failed_power_on_after_edit vm_name vm w :
  Ptp.get_vm_by_name vm_name w = Some vm ->
  Ptp.has_ptp_device vm w = false ->
  powerState (the_vm w vm) = poweredOn ->
  accepted (next_reaction w) = true ->
  accepted (second_reaction w) = true ->
  accepted (third_reaction w) = false ->
  committed (third_reaction w) = false ->
  let res := Ptp.process_vm vm_name "enable" w in
  fst res = Some false /\
  requests_of_call w (snd res) =
    [PowerOffVM_Task vm; ReconfigVM_Task vm Ptp.add_spec; PowerOnVM_Task vm] /\
  last (stdout (snd res)) ""%string =
    ("  WARNING: Failed to power on VM " ++ vm_name)%string /\
  Ptp.has_ptp_device vm (snd res) = true /\
  powerState (the_vm (snd res) vm) = poweredOff.
Proof.
  intros F H Hp A1 A2 A3 C3 res. subst res.
  destruct (found_vm _ _ _ F) as [L _].
  rewrite (process_vm_enable _ _ _ F), H.
  destruct (outcome_announced vm_name w _ _ _ _
              (bracket_edit_succeeds Ptp.add_ptp_device vm_name vm Ptp.add_spec
                 (announced vm_name w) (add_edit_step vm _) Hp A1 A2))
    as [V S I].
  destruct (bracket_power_on_warning Ptp.add_ptp_device vm_name vm Ptp.add_spec
              (announced vm_name w) (add_edit_step vm _) Hp A1 A2 A3) as [w4 E].
  change (third_reaction (announced vm_name w)) with (third_reaction w) in V, I.
  change (inventory (announced vm_name w)) with (inventory w) in I.
  rewrite A3 in V. rewrite C3 in I. unfold commit in I.
  repeat apply conj.
  - exact V.
  - apply (sends_requests_of_call _ _ _ S).
  - rewrite E. cbn [snd print stdout]. apply last_last.
  - unfold Ptp.has_ptp_device, the_vm. rewrite I.
    assert (L' : (vm < List.length (update_vm vm (set_power poweredOff) (inventory w)))%nat)
      by (rewrite update_vm_length; exact L).
    rewrite nth_update_vm_eq by exact L'.
    simpl. unfold apply_device_change. simpl.
    rewrite existsb_app. simpl. apply orb_true_r.
  - unfold the_vm. rewrite I.
    rewrite (nth_update_vm_field powerState) by reflexivity.
    rewrite nth_update_vm_eq by exact L. reflexivity.
Qed.

Lemma failed_power_on_after_edit_witness :
  fst (Ptp.process_vm "A" "enable"
         (Scenario.make_world Scenario.three
            (fun n => match n with
                      | 2%nat => Scenario.fails_after 1
                      | _ => Scenario.ok_after 1
                      end))) = Some false.
Proof.
  apply (failed_power_on_after_edit "A" 0%nat
           (Scenario.make_world Scenario.three
              (fun n => match n with
                        | 2%nat => Scenario.fails_after 1
                        | _ => Scenario.ok_after 1
                        end))
           eq_refl eq_refl eq_refl eq_refl eq_refl eq_refl eq_refl).
Defined.

(** ** What one [process_vm] can touch *)

(** The inventory after [process_vm]: at most three commits, all on the
    VM that was found, and only that VM's requests. *)
Lemma process_vm_shape vm_name action w :
  match Ptp.get_vm_by_name vm_name w with
  | None =>
      inventory (snd (Ptp.process_vm vm_name action w)) = inventory w /\
      sends [] w (snd (Ptp.process_vm vm_name action w))
  | Some vm =>
      exists c1 c2 c3 spec rs,
        inventory (snd (Ptp.process_vm vm_name action w)) =
          commit c3 vm (set_power poweredOn)
            (commit c2 vm (apply_spec spec)
               (commit c1 vm (set_power poweredOff) (inventory w))) /\
        sends rs w (snd (Ptp.process_vm vm_name action w)) /\
        incl rs [PowerOffVM_Task vm; ReconfigVM_Task vm spec; PowerOnVM_Task vm]
  end.
Proof.
  assert (Q : forall w', quiet w w' -> inventory w' = inventory w /\ sends [] w w')
    by (intros w' Q; split; [apply (quiet_inventory _ _ Q) | apply quiet_sends; exact Q]).
  assert (A : forall l, quiet w (print l (announced vm_name w)))
    by (intros l; repeat (eapply quiet_trans; [| apply quiet_print]); apply quiet_refl).
  destruct (Ptp.get_vm_by_name vm_name w) as [vm |] eqn:F.
  2: { rewrite (process_vm_not_found _ action _ F). apply Q, A. }
  assert (Same : forall w', quiet w w' ->
            exists c1 c2 c3 spec rs,
              inventory w' =
                commit c3 vm (set_power poweredOn)
                  (commit c2 vm (apply_spec spec)
                     (commit c1 vm (set_power poweredOff) (inventory w))) /\
              sends rs w w' /\
              incl rs [PowerOffVM_Task vm; ReconfigVM_Task vm spec; PowerOnVM_Task vm]).
  { intros w' Qw. destruct (Q w' Qw) as [I S].
    exists false, false, false, empty_spec, []. repeat split; try apply S; auto.
    intros e []. }
  assert (Br : forall edit spec,
            (forall w1,
               hardware_device (the_vm w1 vm)
               = hardware_device (the_vm (announced vm_name w) vm) ->
               request_step (ReconfigVM_Task vm spec) vm (apply_spec spec) w1 (edit vm w1)) ->
            exists c1 c2 c3 spec rs,
              inventory (snd (Ptp.edit_with_power_bracket edit vm_name vm
                                (announced vm_name w))) =
                commit c3 vm (set_power poweredOn)
                  (commit c2 vm (apply_spec spec)
                     (commit c1 vm (set_power poweredOff) (inventory w))) /\
              sends rs w (snd (Ptp.edit_with_power_bracket edit vm_name vm
                                 (announced vm_name w))) /\
              incl rs [PowerOffVM_Task vm; ReconfigVM_Task vm spec; PowerOnVM_Task vm]).
  { intros edit spec St.
    destruct (bracket_shape edit vm_name vm spec (announced vm_name w) St)
      as (c1 & c2 & c3 & rs & I & [Sr [evs St']] & Incl).
    exists c1, c2, c3, spec, rs. repeat split; auto. exists evs. exact St'. }
  destruct (action =? "read")%string eqn:R.
  { apply String.eqb_eq in R. subst action.
    destruct (process_vm_read _ _ _ F) as [lines ->]. apply Same, print_all_quiet. }
  destruct (action =? "enable")%string eqn:E.
  { apply String.eqb_eq in E. subst action. rewrite (process_vm_enable _ _ _ F).
    destruct (Ptp.has_ptp_device vm w); [apply Same, A |].
    apply (Br _ Ptp.add_spec). apply add_edit_step. }
  destruct (action =? "disable")%string eqn:D.
  { apply String.eqb_eq in D. subst action. rewrite (process_vm_disable _ _ _ F).
    destruct (Ptp.has_ptp_device vm w) eqn:H; cbn [negb]; [| apply Same, A].
    destruct (has_a_ptp_device _ _ H) as [d [G _]].
    apply (Br _ (Ptp.remove_spec d)). intros w1. apply remove_edit_step. exact G. }
  rewrite (process_vm_other _ _ _ _ F R E D). apply Same.
  eapply quiet_trans; apply quiet_print.
Qed.

(** The VM a request is addressed to. *)
Definition target (e : Event) : option VmRef :=
  match e with
  | PowerOffVM_Task vm | PowerOnVM_Task vm | ReconfigVM_Task vm _ => Some vm
  | ReadTaskState _ | Sleep _ => None
  end.

(** X9.  [process_vm] touches one VM only, the first one that has the
    name it was given: every other VM of the inventory reads as before,
    every request it sends is addressed to that VM, and no VM changes its
    name.  When no VM has the name, nothing is sent and nothing changes. *)
Theorem process_vm_touches_only_its_vm vm_name action w :
  let w' := snd (Ptp.process_vm vm_name action w) in
  (forall i, Ptp.get_vm_by_name vm_name w <> Some i -> the_vm w' i = the_vm w i) /\
  (forall e, In e (requests_of_call w w') ->
             target e = Ptp.get_vm_by_name vm_name w /\
             Ptp.get_vm_by_name vm_name w <> None) /\
  map name (inventory w') = map name (inventory w).
Proof.
  intros w'. subst w'.
  pose proof (process_vm_shape vm_name action w) as Sh.
  split; [| split; [| apply process_vm_names]].
  - intros i Hi. destruct (Ptp.get_vm_by_name vm_name w) as [vm |].
    + destruct Sh as (c1 & c2 & c3 & spec & rs & I & _).
      assert (Hne : i <> vm) by congruence.
      unfold the_vm. rewrite I. unfold commit.
      destruct c3, c2, c1; rewrite ?nth_update_vm_other by exact Hne; reflexivity.
    + destruct Sh as [I _]. unfold the_vm. rewrite I. reflexivity.
  - intros e He. destruct (Ptp.get_vm_by_name vm_name w) as [vm |].
    + destruct Sh as (c1 & c2 & c3 & spec & rs & _ & S & Incl).
      rewrite (sends_requests_of_call _ _ _ S) in He. apply Incl in He.
      split; [| discriminate].
      destruct He as [<- | [<- | [<- | []]]]; reflexivity.
    + destruct Sh as [_ S]. rewrite (sends_requests_of_call _ _ _ S) in He. destruct He.
Qed.

Lemma process_vm_touches_only_its_vm_witness :
  the_vm (snd (Ptp.process_vm "A" "enable" Scenario.all_well)) 1%nat =
  the_vm Scenario.all_well 1%nat.
Proof.
  apply (proj1 (process_vm_touches_only_its_vm "A" "enable" Scenario.all_well) 1%nat).
  discriminate.
Defined.

(** ** Enable and disable, one after the other *)

Lemma find_vm_names vm_name inv1 inv2 i :
  map name inv1 = map name inv2 ->
  Ptp.find_vm vm_name inv1 i = Ptp.find_vm vm_name inv2 i.
Proof.
  revert inv2 i. induction inv1 as [| v inv1 IH]; intros [| v2 inv2] i H;
    simpl in *; try discriminate; auto.
  injection H as -> H. rewrite (IH inv2 (S i) H). reflexivity.
Qed.

Lemma same_names_same_vm vm_name w w' :
  map name (inventory w') = map name (inventory w) ->
  Ptp.get_vm_by_name vm_name w' = Ptp.get_vm_by_name vm_name w.
Proof. intros H. apply find_vm_names. exact H. Qed.

(** The device the platform makes of the one [add_ptp_device] sends. *)
Definition added_clock (devs : list VirtualDevice) : VirtualDevice :=
  {| dev_class := VirtualPrecisionClock; key := fresh_key devs;
     backing := Some SystemClockBackingInfo; label := "Precision Clock" |}.

Lemma devices_after_add v :
  hardware_device (apply_spec Ptp.add_spec v) =
  hardware_device v ++ [added_clock (hardware_device v)].
Proof. reflexivity. Qed.

Lemma key_below_fresh devs x : In x devs -> key x < fresh_key devs.
Proof.
  unfold fresh_key. induction devs as [| d devs IH]; cbn [fold_right In]; [tauto |].
  intros [-> | H]; [lia |]. specialize (IH H). lia.
Qed.

Lemma devices_after_add_remove devs :
  filter (fun x => negb (key x =? fresh_key devs)) (devs ++ [added_clock devs]) = devs.
Proof.
  rewrite filter_app. simpl. rewrite Z.eqb_refl. simpl. rewrite app_nil_r.
  apply forallb_filter_id. apply forallb_forall. intros x Hx.
  pose proof (key_below_fresh devs x Hx).
  apply negb_true_iff, Z.eqb_neq. lia.
Qed.

Lemma find_after_add devs :
  existsb is_precision_clock devs = false ->
  find is_precision_clock (devs ++ [added_clock devs]) = Some (added_clock devs).
Proof.
  intros H.
  assert (G : forall x, existsb is_precision_clock devs = false ->
                        is_precision_clock x = true ->
                        find is_precision_clock (devs ++ [x]) = Some x).
  { clear. intros x. induction devs as [| d devs IH]; simpl; intros H Hx.
    - rewrite Hx. reflexivity.
    - destruct (is_precision_clock d); simpl in *; [discriminate | auto]. }
  apply G; [exact H | reflexivity].
Qed.

Lemma accepted_is_committed r : accepted r = true -> committed r = true.
Proof.
  destruct r as [exn | p]; simpl; [discriminate |].
  unfold completes. intros H. apply andb_prop in H. apply H.
Qed.

Lemma has_ptp_after_add_commit c3 vm Y :
  (vm < List.length Y)%nat ->
  existsb is_precision_clock
    (hardware_device
       (nth vm (commit c3 vm (set_power poweredOn)
                  (update_vm vm (apply_spec Ptp.add_spec) Y)) default_vm)) = true.
Proof.
  intros L.
  assert (E : hardware_device
                (nth vm (commit c3 vm (set_power poweredOn)
                           (update_vm vm (apply_spec Ptp.add_spec) Y)) default_vm)
              = hardware_device (nth vm (update_vm vm (apply_spec Ptp.add_spec) Y) default_vm)).
  { unfold commit. destruct c3; auto.
    apply (nth_update_vm_field hardware_device). reflexivity. }
  rewrite E, nth_update_vm_eq by exact L. rewrite devices_after_add, existsb_app.
  simpl. apply orb_true_r.
Qed.

(** An enable that returns True has put the device on the VM. *)
Lemma enable_true_adds_device vm_name vm w :
  Ptp.get_vm_by_name vm_name w = Some vm ->
  Ptp.has_ptp_device vm w = false ->
  fst (Ptp.process_vm vm_name "enable" w) = Some true ->
  Ptp.has_ptp_device vm (snd (Ptp.process_vm vm_name "enable" w)) = true.
Proof.
  intros F H. destruct (found_vm _ _ _ F) as [L _].
  rewrite (process_vm_enable _ _ _ F), H.
  unfold Ptp.has_ptp_device, the_vm.
  destruct (power_state_eqb (powerState (the_vm w vm)) poweredOn) eqn:Ep.
  - assert (Hp : powerState (the_vm (announced vm_name w) vm) = poweredOn)
      by (change (the_vm (announced vm_name w) vm) with (the_vm w vm);
          destruct (powerState (the_vm w vm)); simpl in Ep; congruence).
    destruct (accepted (next_reaction w)) eqn:A1.
    + destruct (accepted (second_reaction w)) eqn:A2.
      * destruct (bracket_edit_succeeds Ptp.add_ptp_device vm_name vm Ptp.add_spec
                    (announced vm_name w) (add_edit_step vm _) Hp A1 A2) as [_ _ I].
        intros _. rewrite I. apply has_ptp_after_add_commit.
        rewrite update_vm_length. exact L.
      * destruct (bracket_edit_fails Ptp.add_ptp_device vm_name vm Ptp.add_spec
                    (announced vm_name w) (add_edit_step vm _) Hp A1 A2) as [V _ _].
        rewrite V. discriminate.
    + destruct (bracket_power_off_fails Ptp.add_ptp_device vm_name vm
                  (announced vm_name w) Hp A1) as [V _ _].
      rewrite V. discriminate.
  - assert (Hp : powerState (the_vm (announced vm_name w) vm) <> poweredOn)
      by (change (the_vm (announced vm_name w) vm) with (the_vm w vm);
          intros E; rewrite E in Ep; discriminate).
    destruct (bracket_not_powered_on Ptp.add_ptp_device vm_name vm Ptp.add_spec
                (announced vm_name w) (add_edit_step vm _) Hp) as [V _ I].
    rewrite V. intros [= A]. rewrite I.
    assert (C : committed (next_reaction (announced vm_name w)) = true)
      by (apply accepted_is_committed; exact A).
    rewrite C. apply (has_ptp_after_add_commit false). exact L.
Qed.

(** X10.  An enable that returned True is not repeated: running enable
    again for the same name is skipped (None) and adds nothing to the
    trace, so the VM gets one precision clock, not two. *)
Theorem successful_enable_is_not_repeated vm_name w :
  fst (Ptp.process_vm vm_name "enable" w) = Some true ->
  let w1 := snd (Ptp.process_vm vm_name "enable" w) in
  fst (Ptp.process_vm vm_name "enable" w1) = None /\
  since w1 (snd (Ptp.process_vm vm_name "enable" w1)) = [] /\
  inventory (snd (Ptp.process_vm vm_name "enable" w1)) = inventory w1.
Proof.
  intros T w1.
  destruct (Ptp.get_vm_by_name vm_name w) as [vm |] eqn:F.
  2: { rewrite (process_vm_not_found _ _ _ F) in T. discriminate. }
  destruct (Ptp.has_ptp_device vm w) eqn:H.
  { rewrite (process_vm_enable _ _ _ F), H in T. discriminate. }
  pose proof (enable_true_adds_device _ _ _ F H T) as H1. fold w1 in H1.
  assert (F1 : Ptp.get_vm_by_name vm_name w1 = Some vm).
  { rewrite <- F. apply same_names_same_vm. apply process_vm_names. }
  rewrite (process_vm_enable _ _ _ F1), H1. cbn [fst snd].
  rewrite since_same by reflexivity. auto.
Qed.

Lemma successful_enable_is_not_repeated_witness :
  fst (Ptp.process_vm "A" "enable"
         (snd (Ptp.process_vm "A" "enable" Scenario.all_well))) = None.
Proof.
  apply (successful_enable_is_not_repeated "A" Scenario.all_well).
  vm_compute. reflexivity.
Defined.

(** X11.  Round trip on a VM that is not powered on and has no precision
    clock: when both reconfigurations are seen to succeed, enable followed
    by disable returns True twice and leaves the VM's device list exactly
    as it was, the disable having removed the device the enable added. *)
Theorem enable_then_disable_restores_devices vm_name vm w :
  Ptp.get_vm_by_name vm_name w = Some vm ->
  Ptp.has_ptp_device vm w = false ->
  powerState (the_vm w vm) <> poweredOn ->
  accepted (next_reaction w) = true ->
  accepted (second_reaction w) = true ->
  let w1 := snd (Ptp.process_vm vm_name "enable" w) in
  let w2 := snd (Ptp.process_vm vm_name "disable" w1) in
  fst (Ptp.process_vm vm_name "enable" w) = Some true /\
  hardware_device (the_vm w1 vm) =
    hardware_device (the_vm w vm) ++ [added_clock (hardware_device (the_vm w vm))] /\
  fst (Ptp.process_vm vm_name "disable" w1) = Some true /\
  requests_of_call w1 w2 =
    [ReconfigVM_Task vm
       (Ptp.remove_spec (added_clock (hardware_device (the_vm w vm))))] /\
  hardware_device (the_vm w2 vm) = hardware_device (the_vm w vm).
Proof.
  intros F H Hp A1 A2 w1 w2. destruct (found_vm _ _ _ F) as [L _].
  (* enable *)
  pose proof (process_vm_enable _ _ _ F) as E1. rewrite H in E1.
  destruct (outcome_announced vm_name w _ _ _ _
              (bracket_not_powered_on Ptp.add_ptp_device vm_name vm Ptp.add_spec
                 (announced vm_name w) (add_edit_step vm _) Hp))
    as [V1 S1 I1].
  rewrite <- E1 in V1, S1, I1. fold w1 in S1, I1.
  change (next_reaction (announced vm_name w)) with (next_reaction w) in V1, I1.
  change (inventory (announced vm_name w)) with (inventory w) in I1.
  rewrite A1 in V1. rewrite (accepted_is_committed _ A1) in I1. unfold commit in I1.
  assert (D1 : hardware_device (the_vm w1 vm) =
               hardware_device (the_vm w vm) ++ [added_clock (hardware_device (the_vm w vm))]).
  { unfold the_vm. rewrite I1, nth_update_vm_eq by exact L. apply devices_after_add. }
  (* the world the disable starts in *)
  assert (F1 : Ptp.get_vm_by_name vm_name w1 = Some vm).
  { rewrite <- F. apply same_names_same_vm. apply process_vm_names. }
  assert (H1 : Ptp.has_ptp_device vm w1 = true).
  { unfold Ptp.has_ptp_device. rewrite D1, existsb_app. simpl. apply orb_true_r. }
  assert (G1 : Ptp.get_ptp_device vm w1 = Some (added_clock (hardware_device (the_vm w vm)))).
  { unfold Ptp.get_ptp_device. rewrite D1. apply find_after_add. exact H. }
  assert (Hp1 : powerState (the_vm w1 vm) <> poweredOn).
  { unfold the_vm. rewrite I1.
    rewrite (nth_update_vm_field powerState) by reflexivity. exact Hp. }
  assert (N1 : next_reaction w1 = second_reaction w).
  { rewrite (next_reaction_sends _ _ _ S1). unfold second_reaction.
    cbn [List.length]. rewrite Nat.add_1_r. reflexivity. }
  assert (L1 : (vm < List.length (inventory w1))%nat)
    by (rewrite I1, update_vm_length; exact L).
  (* disable *)
  pose proof (process_vm_disable _ _ _ F1) as E2. rewrite H1 in E2. cbn [negb] in E2.
  destruct (outcome_announced vm_name w1 _ _ _ _
              (bracket_not_powered_on Ptp.remove_ptp_device vm_name vm
                 (Ptp.remove_spec (added_clock (hardware_device (the_vm w vm))))
                 (announced vm_name w1)
                 (fun w3 => remove_edit_step vm (announced vm_name w1) _ w3 G1)
                 Hp1))
    as [V2 S2 I2].
  rewrite <- E2 in V2, S2, I2. fold w2 in S2, I2.
  change (next_reaction (announced vm_name w1)) with (next_reaction w1) in V2, I2.
  change (inventory (announced vm_name w1)) with (inventory w1) in I2.
  rewrite N1, A2 in V2. rewrite N1, (accepted_is_committed _ A2) in I2. unfold commit in I2.
  repeat apply conj; auto.
  - apply (sends_requests_of_call _ _ _ S2).
  - unfold the_vm at 1. rewrite I2, nth_update_vm_eq by exact L1.
    fold (the_vm w1 vm).
    change (hardware_device (apply_spec (Ptp.remove_spec
                                           (added_clock (hardware_device (the_vm w vm))))
                               (the_vm w1 vm)))
      with (filter (fun x => negb (key x =? fresh_key (hardware_device (the_vm w vm))))
              (hardware_device (the_vm w1 vm))).
    rewrite D1. apply devices_after_add_remove.
Qed.

Lemma enable_then_disable_restores_devices_witness :
  hardware_device
    (the_vm (snd (Ptp.process_vm "B" "disable"
                    (snd (Ptp.process_vm "B" "enable" Scenario.all_well)))) 1%nat) =
  hardware_device (the_vm Scenario.all_well 1%nat).
Proof.
  apply (enable_then_disable_restores_devices "B" 1%nat Scenario.all_well
           eq_refl eq_refl); [discriminate | reflexivity | reflexivity].
Defined.

(** ** The batch of the PTP script, VM by VM *)

From Stdlib Require Import Permutation.

Lemma lookup_vms_found vm_names found w :
  let res := Ptp.lookup_vms vm_names found w in
  trace (snd res) = trace w /\
  inventory (snd res) = inventory w /\
  map (fun vm => name (the_vm w vm)) (fst res) =
    map (fun vm => name (the_vm w vm)) found ++ found_names w vm_names /\
  (forall vm, In vm (fst res) -> In vm found \/ (vm < List.length (inventory w))%nat).
Proof.
  revert found w. induction vm_names as [| n rest IH]; intros found w.
  - simpl. rewrite app_nil_r. auto.
  - cbn [Ptp.lookup_vms]. unfold found_names. cbn [filter]. fold (found_names w rest).
    destruct (Ptp.get_vm_by_name n w) as [vm |] eqn:F; cbv beta iota zeta.
    + destruct (IH (found ++ [vm]) (print ("  Found: " ++ n)%string w)) as (T & I & M & B).
      destruct (found_vm _ _ _ F) as [Lvm N].
      unfold the_vm, found_names, Ptp.get_vm_by_name in *.
      cbn [inventory print] in M, B.
      repeat apply conj; auto.
      * rewrite M. rewrite map_app, <- app_assoc. cbn [map app]. rewrite N. reflexivity.
      * intros v Hv. destruct (B v Hv) as [Hin | Lv]; [| right; exact Lv].
        apply in_app_or in Hin. destruct Hin as [Hin | [Hin | []]]; [left; exact Hin |].
        subst v. right. exact Lvm.
    + destruct (IH found (print ("  WARNING: VM '" ++ n ++ "' not found")%string w))
        as (T & I & M & B).
      unfold the_vm, found_names, Ptp.get_vm_by_name in *.
      cbn [inventory print] in M, B.
      repeat apply conj; auto.
Qed.

Lemma name_of_ref vm inv1 inv2 :
  map name inv1 = map name inv2 ->
  name (nth vm inv1 default_vm) = name (nth vm inv2 default_vm).
Proof.
  intros H. rewrite <- !(map_nth name). rewrite H. reflexivity.
Qed.

(** The second loop files every VM it is given, once. *)
Lemma process_all_files_each action todo results w :
  Permutation (bucket_names (fst (Ptp.process_all action todo results w)))
    (bucket_names results ++ map (fun vm => name (the_vm w vm)) todo).
Proof.
  revert results w. induction todo as [| vm rest IH]; intros results w; simpl.
  - rewrite app_nil_r. apply Permutation_refl.
  - pose proof (process_vm_names (name (the_vm w vm)) action w) as N.
    destruct (Ptp.process_vm (name (the_vm w vm)) action w) as [result w1].
    cbn [snd] in N.
    assert (E : forall v, name (the_vm w1 v) = name (the_vm w v))
      by (intros v; apply name_of_ref; exact N).
    match goal with
    | |- Permutation (bucket_names (fst (Ptp.process_all action rest ?r w1))) _ =>
        eapply Permutation_trans; [apply (IH r w1) |];
          assert (P : Permutation (bucket_names r)
                        (bucket_names results ++ [name (the_vm w vm)]))
    end.
    { rewrite E. unfold bucket_names.
      apply Permutation_sym.
      eapply Permutation_trans; [apply Permutation_app_comm |]. cbn [app].
      set (n := name (the_vm w vm)).
      set (S := Ptp.res_success results). set (K := Ptp.res_skipped results).
      set (F := Ptp.res_failed results).
      destruct result as [[|] |]; cbn [Ptp.res_success Ptp.res_skipped Ptp.res_failed].
      - replace ((S ++ [n]) ++ K ++ F) with (S ++ n :: (K ++ F))
          by (rewrite <- app_assoc; reflexivity).
        apply Permutation_cons_app. reflexivity.
      - replace (S ++ K ++ F ++ [n]) with ((S ++ K ++ F) ++ n :: [])
          by (rewrite <- !app_assoc; reflexivity).
        apply Permutation_cons_app. rewrite app_nil_r. reflexivity.
      - replace (S ++ (K ++ [n]) ++ F) with ((S ++ K) ++ n :: F)
          by (rewrite <- !app_assoc; reflexivity).
        apply Permutation_cons_app. rewrite <- app_assoc. reflexivity. }
    rewrite (map_ext _ _ E).
    change (name (the_vm w vm) :: map (fun v => name (the_vm w v)) rest)
      with ([name (the_vm w vm)] ++ map (fun v => name (the_vm w v)) rest).
    rewrite app_assoc. apply Permutation_app_tail. exact P.
Qed.

(** X12.  When [main] of the PTP script gets to the summary, every name
    of the list that was found is in exactly one of the three buckets:
    the buckets together are a permutation of the found names (a name
    listed twice is filed twice), so the three counts of the summary add
    up to the number of VMs processed. *)
Theorem buckets_partition_the_found_names args reply w r :
  snd (fst (Ptp.main args reply w)) = Some r ->
  Permutation (bucket_names r) (found_names w (Ptp.vms args)) /\
  (List.length (Ptp.res_success r) + List.length (Ptp.res_skipped r)
   + List.length (Ptp.res_failed r) = List.length (found_names w (Ptp.vms args)))%nat.
Proof.
  intros Hr.
  assert (P : Permutation (bucket_names r) (found_names w (Ptp.vms args))).
  { revert Hr. unfold Ptp.main. cbv zeta.
    set (w1 := Ptp.print_all _ w).
    assert (I1 : inventory w1 = inventory w) by apply print_all_inventory.
    destruct (lookup_vms_found (Ptp.vms args) [] w1) as (_ & I2 & M & _).
    destruct (Ptp.lookup_vms (Ptp.vms args) [] w1) as [todo w2]. cbn [fst snd] in *.
    destruct (Ptp.is_nil todo); [discriminate |].
    destruct (Ptp.dry_run args); [discriminate |].
    destruct (if negb (Ptp.no_confirm args) && negb (Ptp.read args)
              then negb ((reply =? "yes")%string || (reply =? "y")%string) else false);
      [discriminate |].
    match goal with
    | |- context [Ptp.process_all ?a todo ?init ?w6] =>
        set (W6 := w6); set (Init := init)
    end.
    pose proof (process_all_files_each (Ptp.action_of args) todo Init W6) as P.
    assert (I6 : inventory W6 = inventory w).
    { unfold W6. rewrite print_all_inventory.
      destruct (negb (Ptp.no_confirm args) && negb (Ptp.read args));
        rewrite ?print_all_inventory; rewrite I2; exact I1. }
    destruct (Ptp.process_all (Ptp.action_of args) todo Init W6) as [results w7].
    cbn [fst] in P.
    assert (Hres : Some results = Some r -> Permutation (bucket_names r)
                                              (found_names w (Ptp.vms args))).
    { intros [= <-]. eapply Permutation_trans; [exact P |].
      unfold Init, bucket_names.
      cbn [Ptp.res_success Ptp.res_skipped Ptp.res_failed app].
      assert (E : map (fun vm => name (the_vm W6 vm)) todo
                  = map (fun vm => name (the_vm w1 vm)) todo).
      { apply map_ext. intros v. unfold the_vm. rewrite I6, I1. reflexivity. }
      rewrite E, M. cbn [map app]. unfold found_names.
      apply Permutation_refl'. apply filter_ext. intros n.
      unfold Ptp.get_vm_by_name. rewrite I1. reflexivity. }
    destruct (negb (Ptp.is_nil (Ptp.res_failed results))); cbn [fst snd]; exact Hres. }
  split; [exact P |].
  rewrite <- (Permutation_length P). unfold bucket_names. rewrite !length_app. lia.
Qed.

Lemma buckets_partition_the_found_names_witness :
  Permutation ["A"; "C"]%string (found_names EndToEnd.world (Ptp.vms EndToEnd.args)).
Proof.
  apply (buckets_partition_the_found_names EndToEnd.args ""%string EndToEnd.world
           {| Ptp.res_success := ["A"%string]; Ptp.res_skipped := [];
              Ptp.res_failed := ["C"%string] |}).
  vm_compute. reflexivity.
Defined.

(** ** Runs that process nothing, and the read batch *)

Lemma map_eq_nil_iff {A B} (f : A -> B) l : map f l = [] <-> l = [].
Proof. destruct l; simpl; split; congruence. Qed.

(** What the first loop leaves: the references of the found names. *)
Lemma lookup_vms_todo vm_names w :
  let res := Ptp.lookup_vms vm_names [] w in
  trace (snd res) = trace w /\
  inventory (snd res) = inventory w /\
  map (fun vm => name (the_vm w vm)) (fst res) = found_names w vm_names /\
  (forall vm, In vm (fst res) -> (vm < List.length (inventory w))%nat).
Proof.
  destruct (lookup_vms_found vm_names [] w) as (T & I & M & B).
  repeat apply conj; auto.
  intros vm Hin. destruct (B vm Hin) as [[] | L]. exact L.
Qed.

Lemma found_names_print_all lines w vm_names :
  found_names (Ptp.print_all lines w) vm_names = found_names w vm_names.
Proof.
  unfold found_names, Ptp.get_vm_by_name. rewrite print_all_inventory. reflexivity.
Qed.

(** X13.  When no name of the list is found, or the run is a dry run, or
    the operator does not answer yes or y to the confirmation, [main] of
    either script ends with status 0 before the processing loop: it has
    created no results, sent nothing to the platform and left the
    inventory as it was.  The notification script does so without ever
    waiting. *)
Theorem main_stops_before_processing reply w :
  (forall args,
     found_names w (Ptp.vms args) = [] \/ Ptp.dry_run args = true \/
     declined (Ptp.no_confirm args) (Ptp.read args) reply = true ->
     fst (Ptp.main args reply w) = (0, None) /\
     since w (snd (Ptp.main args reply w)) = [] /\
     inventory (snd (Ptp.main args reply w)) = inventory w) /\
  (forall fuel args,
     found_names w (Notify.vms args) = [] \/ Notify.dry_run args = true \/
     declined (Notify.no_confirm args) (Notify.read args) reply = true ->
     exists w',
       Notify.main fuel args reply w = Returned (0, None) w' /\
       since w w' = [] /\ inventory w' = inventory w).
Proof.
  split.
  - intros args Hstop. unfold Ptp.main. cbv zeta.
    set (w1 := Ptp.print_all _ w).
    destruct (lookup_vms_todo (Ptp.vms args) w1) as (T2 & I2 & M & _).
    assert (Fn : found_names w1 (Ptp.vms args) = found_names w (Ptp.vms args))
      by apply found_names_print_all.
    rewrite Fn in M.
    destruct (Ptp.lookup_vms (Ptp.vms args) [] w1) as [todo w2]. cbn [fst snd] in *.
    assert (T1 : trace w2 = trace w) by (rewrite T2; apply print_all_trace).
    assert (I1 : inventory w2 = inventory w) by (rewrite I2; apply print_all_inventory).
    destruct (Ptp.is_nil todo) eqn:N.
    { cbn [fst snd]. rewrite since_same, print_all_inventory
        by (rewrite print_all_trace; exact T1). auto. }
    destruct (Ptp.dry_run args).
    { cbn [fst snd]. rewrite since_same, !print_all_inventory
        by (rewrite !print_all_trace; exact T1). auto. }
    fold (declined (Ptp.no_confirm args) (Ptp.read args) reply).
    destruct (declined (Ptp.no_confirm args) (Ptp.read args) reply).
    { cbn [fst snd].
      assert (Tq : forall X, trace X = trace w2 ->
                   trace (if negb (Ptp.no_confirm args) && negb (Ptp.read args)
                          then Ptp.print_all [""%string; Ptp.rule] X else X) = trace w)
        by (intros X HX; destruct (negb _ && negb _);
            rewrite ?print_all_trace, HX; exact T1).
      assert (Iq : forall X, inventory X = inventory w2 ->
                   inventory (if negb (Ptp.no_confirm args) && negb (Ptp.read args)
                              then Ptp.print_all [""%string; Ptp.rule] X else X)
                   = inventory w)
        by (intros X HX; destruct (negb _ && negb _);
            rewrite ?print_all_inventory, HX; exact I1).
      rewrite since_same.
      - split; [reflexivity |]. split; [reflexivity |].
        cbn [print inventory]. apply Iq. rewrite !print_all_inventory. reflexivity.
      - cbn [print trace]. apply Tq. rewrite !print_all_trace. reflexivity. }
    exfalso. destruct Hstop as [H | [H | H]]; try discriminate.
    rewrite <- M in H. apply map_eq_nil_iff in H. subst todo. discriminate.
  - intros fuel args Hstop. unfold Notify.main. cbv zeta. rewrite notify_lookup_vms.
    set (w1 := Ptp.print_all _ w).
    destruct (lookup_vms_todo (Notify.vms args) w1) as (T2 & I2 & M & _).
    assert (Fn : found_names w1 (Notify.vms args) = found_names w (Notify.vms args))
      by apply found_names_print_all.
    rewrite Fn in M.
    destruct (Ptp.lookup_vms (Notify.vms args) [] w1) as [todo w2]. cbn [fst snd] in *.
    assert (T1 : trace w2 = trace w) by (rewrite T2; apply print_all_trace).
    assert (I1 : inventory w2 = inventory w) by (rewrite I2; apply print_all_inventory).
    destruct (Ptp.is_nil todo) eqn:N.
    { eexists. split; [reflexivity |].
      rewrite since_same, print_all_inventory by (rewrite print_all_trace; exact T1).
      auto. }
    destruct (Notify.dry_run args).
    { eexists. split; [reflexivity |].
      rewrite since_same, !print_all_inventory by (rewrite !print_all_trace; exact T1).
      auto. }
    fold (declined (Notify.no_confirm args) (Notify.read args) reply).
    destruct (declined (Notify.no_confirm args) (Notify.read args) reply).
    { eexists. split; [reflexivity |].
      assert (Tq : forall X, trace X = trace w2 ->
                   trace (if negb (Notify.no_confirm args) && negb (Notify.read args)
                          then Ptp.print_all [""%string; Ptp.rule] X else X) = trace w)
        by (intros X HX; destruct (negb _ && negb _);
            rewrite ?print_all_trace, HX; exact T1).
      assert (Iq : forall X, inventory X = inventory w2 ->
                   inventory (if negb (Notify.no_confirm args) && negb (Notify.read args)
                              then Ptp.print_all [""%string; Ptp.rule] X else X)
                   = inventory w)
        by (intros X HX; destruct (negb _ && negb _);
            rewrite ?print_all_inventory, HX; exact I1).
      rewrite since_same.
      - split; [reflexivity |].
        cbn [print inventory]. apply Iq. rewrite !print_all_inventory. reflexivity.
      - cbn [print trace]. apply Tq. rewrite !print_all_trace. reflexivity. }
    exfalso. destruct Hstop as [H | [H | H]]; try discriminate.
    rewrite <- M in H. apply map_eq_nil_iff in H. subst todo. discriminate.
Qed.

Definition dry_run_args : Ptp.Args :=
  {| Ptp.vms := ["A"; "B"; "C"]; Ptp.read := false; Ptp.enable := true;
     Ptp.disable := false; Ptp.no_confirm := true; Ptp.dry_run := true |}.

Lemma main_stops_before_processing_witness :
  fst (Ptp.main dry_run_args "" EndToEnd.world) = (0, None).
Proof.
  exact (proj1 (proj1 (main_stops_before_processing ""%string EndToEnd.world)
                  dry_run_args (or_intror (or_introl eq_refl)))).
Defined.

Lemma ref_is_found vm w :
  (vm < List.length (inventory w))%nat ->
  exists vm', Ptp.get_vm_by_name (name (the_vm w vm)) w = Some vm'.
Proof.
  intros L. destruct (Ptp.get_vm_by_name (name (the_vm w vm)) w) as [vm' |] eqn:F; eauto.
  exfalso. apply (find_vm_none _ _ _ F). apply name_in_inventory. exact L.
Qed.

Lemma process_all_read todo results w :
  (forall vm, In vm todo -> (vm < List.length (inventory w))%nat) ->
  let res := Ptp.process_all "read" todo results w in
  fst res =
    {| Ptp.res_success :=
         Ptp.res_success results ++ map (fun vm => name (the_vm w vm)) todo;
       Ptp.res_skipped := Ptp.res_skipped results;
       Ptp.res_failed := Ptp.res_failed results |} /\
  trace (snd res) = trace w /\
  inventory (snd res) = inventory w.
Proof.
  revert results w. induction todo as [| vm rest IH]; intros results w Hb.
  - simpl. rewrite app_nil_r. destruct results; auto.
  - cbn [Ptp.process_all].
    destruct (ref_is_found vm w (Hb vm (or_introl eq_refl))) as [vm' F].
    destruct (process_vm_read _ _ _ F) as [lines ->].
    cbv beta iota zeta.
    set (w1 := Ptp.print_all lines w).
    assert (I1 : inventory w1 = inventory w) by apply print_all_inventory.
    assert (T1 : trace w1 = trace w) by apply print_all_trace.
    match goal with
    | |- context [Ptp.process_all "read" rest ?r w1] =>
        destruct (IH r w1) as (V & T & I);
          [intros v Hv; rewrite I1; apply Hb; right; exact Hv |]
    end.
    rewrite V, T, I.
    cbn [Ptp.res_success Ptp.res_skipped Ptp.res_failed map].
    repeat apply conj; auto. rewrite <- app_assoc. cbn [app].
    unfold the_vm. rewrite I1. reflexivity.
Qed.

(** X14.  The read action of the PTP script is a read-only batch: [main]
    asks for no confirmation (the reply plays no part), sends nothing to
    the platform, leaves the inventory as it was, files every found name
    under success, in the order of the list, and ends with status 0. *)
Theorem read_batch_only_reads args reply w :
  Ptp.read args = true ->
  Ptp.dry_run args = false ->
  found_names w (Ptp.vms args) <> [] ->
  fst (Ptp.main args reply w) =
    (0, Some {| Ptp.res_success := found_names w (Ptp.vms args);
                Ptp.res_skipped := []; Ptp.res_failed := [] |}) /\
  since w (snd (Ptp.main args reply w)) = [] /\
  inventory (snd (Ptp.main args reply w)) = inventory w.
Proof.
  intros Hr Hd Hf. unfold Ptp.main, Ptp.action_of. rewrite Hr, Hd. cbv zeta.
  set (w1 := Ptp.print_all _ w).
  destruct (lookup_vms_todo (Ptp.vms args) w1) as (T2 & I2 & M & B).
  assert (Fn : found_names w1 (Ptp.vms args) = found_names w (Ptp.vms args))
    by apply found_names_print_all.
  rewrite Fn in M.
  destruct (Ptp.lookup_vms (Ptp.vms args) [] w1) as [todo w2]. cbn [fst snd] in *.
  assert (T1 : trace w2 = trace w) by (rewrite T2; apply print_all_trace).
  assert (I1 : inventory w2 = inventory w1) by exact I2.
  assert (I0 : inventory w1 = inventory w) by apply print_all_inventory.
  destruct (Ptp.is_nil todo) eqn:N.
  { apply is_nil_true in N. subst todo. simpl in M. congruence. }
  rewrite andb_false_r. cbv iota.
  match goal with
  | |- context [Ptp.process_all "read" todo ?init ?w6] =>
      set (W6 := w6); set (Init := init)
  end.
  assert (I6 : inventory W6 = inventory w)
    by (unfold W6; rewrite !print_all_inventory; congruence).
  assert (T6 : trace W6 = trace w)
    by (unfold W6; rewrite !print_all_trace; exact T1).
  destruct (process_all_read todo Init W6) as (V & T & I).
  { intros v Hv. rewrite I6, <- I0. apply B. exact Hv. }
  destruct (Ptp.process_all "read" todo Init W6) as [results w7]. cbn [fst snd] in *.
  assert (E : map (fun vm => name (the_vm W6 vm)) todo = found_names w (Ptp.vms args)).
  { rewrite <- M. apply map_ext. intros v. unfold the_vm. rewrite I6, I0. reflexivity. }
  subst results. unfold Init. cbn [Ptp.res_success Ptp.res_skipped Ptp.res_failed app].
  rewrite E. cbn [Ptp.is_nil negb fst snd].
  repeat apply conj; auto.
  - apply since_same.
    assert (Q : forall a n r X, trace (Ptp.print_summary a n r X) = trace X).
    { intros a n r X. unfold Ptp.print_summary. cbv zeta.
      repeat match goal with
             | |- context [Ptp.print_all ?l ?Y] => rewrite (print_all_trace l Y)
             | |- context [if ?c then _ else _] => destruct c
             end; reflexivity. }
    rewrite Q, T. exact T6.
  - assert (Q : forall a n r X, inventory (Ptp.print_summary a n r X) = inventory X).
    { intros a n r X. unfold Ptp.print_summary. cbv zeta.
      repeat match goal with
             | |- context [Ptp.print_all ?l ?Y] => rewrite (print_all_inventory l Y)
             | |- context [if ?c then _ else _] => destruct c
             end; reflexivity. }
    rewrite Q, I. exact I6.
Qed.

Definition read_args : Ptp.Args :=
  {| Ptp.vms := ["A"; "B"; "C"]; Ptp.read := true; Ptp.enable := false;
     Ptp.disable := false; Ptp.no_confirm := false; Ptp.dry_run := false |}.

Lemma read_batch_only_reads_witness :
  fst (Ptp.main read_args "no" Scenario.all_fail) =
    (0, Some {| Ptp.res_success := found_names Scenario.all_fail (Ptp.vms read_args);
                Ptp.res_skipped := []; Ptp.res_failed := [] |}).
Proof.
  refine (proj1 (read_batch_only_reads read_args "no"%string Scenario.all_fail
                   eq_refl eq_refl _)).
  discriminate.
Defined.

(** ** The notification script, VM by VM *)

(** The value of [enabled] that [process_vm] derives from the flags. *)
Definition enabled_of (args : Notify.Args) : option bool :=
  if Notify.enable args then Some true
  else if Notify.disable args then Some false else None.

Lemma notify_process_vm_write fuel vm args w :
  Notify.read args = false ->
  exists w0,
    quiet w w0 /\
    Notify.process_vm fuel vm args w =
      match Notify.set_vm_notification_settings fuel vm (Notify.timeout args)
              (enabled_of args) w0 with
      | Spinning w1 => Spinning w1
      | Returned ok w1 =>
          if ok then
            Returned true
              (Notify.print_settings "  New VM Notification Settings:"
                 (Notify.get_vm_notification_settings vm
                    (print "  ✓ VM notification settings updated successfully" w1))
                 (print "  ✓ VM notification settings updated successfully" w1))
          else Returned false (eprint "  ✗ Failed to update VM notification settings" w1)
      end.
Proof.
  intros Hr. unfold Notify.process_vm. rewrite Hr. cbv zeta.
  fold (enabled_of args).
  eexists. split; [| reflexivity].
  destruct (Notify.timeout args).
  - eapply quiet_trans; [| apply quiet_print].
    eapply quiet_trans; apply print_all_quiet.
  - eapply quiet_trans; apply print_all_quiet.
Qed.

(** X15.  The notification script has no idempotency gate: for enable and
    disable, [process_vm] sends exactly one reconfiguration per VM,
    whatever the VM's settings already are; the ConfigSpec carries
    enabled = True for --enable, enabled = False for --disable, and the
    timeout only when one was given.  When the platform settles the
    request, the VM's result is True exactly when the platform committed
    the change. *)
Theorem notify_process_vm_always_writes fuel vm args w :
  Notify.read args = false ->
  requests_of_call w (world_of (Notify.process_vm fuel vm args w)) =
    [ReconfigVM_Task vm
       {| deviceChange := [];
          spec_vmOpNotificationToAppEnabled := enabled_of args;
          spec_vmOpNotificationTimeout := Notify.timeout args |}] /\
  (settles fuel (next_reaction w) = true ->
   exists w', Notify.process_vm fuel vm args w = Returned (committed (next_reaction w)) w').
Proof.
  intros Hr. destruct (notify_process_vm_write fuel vm args w Hr) as (w0 & Q & ->).
  assert (Sp : Notify.build_spec (Notify.timeout args) (enabled_of args) =
               {| deviceChange := [];
                  spec_vmOpNotificationToAppEnabled := enabled_of args;
                  spec_vmOpNotificationTimeout := Notify.timeout args |})
    by (destruct (Notify.timeout args), (enabled_of args); reflexivity).
  split.
  - apply sends_requests_of_call.
    destruct (set_settings_sends fuel vm (Notify.timeout args) (enabled_of args) w0)
      as [S _].
    rewrite Sp in S. pose proof (sends_quiet_l _ _ _ _ Q S) as S'.
    destruct (Notify.set_vm_notification_settings fuel vm (Notify.timeout args)
                (enabled_of args) w0) as [ok w1 | w1]; cbn [world_of] in *; [| exact S'].
    destruct ok; cbn [world_of].
    + eapply sends_quiet_r; [exact S' |].
      eapply quiet_trans; [apply quiet_print | apply print_all_quiet].
    + eapply sends_quiet_r; [exact S' | apply quiet_eprint].
  - intros Hs. rewrite <- (next_reaction_quiet _ _ Q) in Hs |- *.
    destruct (set_settings_returns fuel vm (Notify.timeout args) (enabled_of args) w0 Hs)
      as [w1 ->].
    destruct (committed (next_reaction w0)); eauto.
Qed.

Lemma notify_process_vm_always_writes_witness :
  exists w',
    Notify.process_vm 5 1%nat EndToEnd.notify_args Scenario.all_well = Returned true w'.
Proof.
  refine (proj2 (notify_process_vm_always_writes 5%nat 1%nat EndToEnd.notify_args
                   Scenario.all_well eq_refl) eq_refl).
Defined.

(** X16.  The wait of the notification script has no deadline: when the
    task never leaves the running state, [set_vm_notification_settings]
    has sent its request and is still reading the task state however long
    it is followed, while [add_ptp_device] of the PTP script, given the
    same answer, gives up after 301 seconds and returns False. *)
Theorem notification_wait_has_no_deadline vm w d :
  next_reaction w = Accepts {| delay := d; result := Hangs |} ->
  (forall fuel timeout enabled,
   exists w',
     Notify.set_vm_notification_settings fuel vm timeout enabled w = Spinning w' /\
     requests_of_call w w' = [ReconfigVM_Task vm (Notify.build_spec timeout enabled)]) /\
  fst (Ptp.add_ptp_device vm w) = false /\
  clock (snd (Ptp.add_ptp_device vm w)) = clock w + 301.
Proof.
  intros R. split; [| split].
  - intros fuel timeout enabled.
    destruct (set_settings_sends fuel vm timeout enabled w) as [S _].
    apply sends_requests_of_call in S. revert S.
    unfold Notify.set_vm_notification_settings, call_ReconfigVM_Task, submit.
    unfold next_reaction in R. rewrite R. cbn [result].
    destruct (busy_wait_spins fuel (task_of_plan {| delay := d; result := Hangs |}) 0
                (log (ReconfigVM_Task vm (Notify.build_spec timeout enabled)) w))
      as [w' ->].
    + intros j. unfold task_of_plan. cbn [delay result].
      destruct (j <? d)%nat; reflexivity.
    + cbn [world_of]. intros S. eauto.
  - rewrite (step_result _ _ _ _ _ (add_ptp_device_step vm w)), R. reflexivity.
  - unfold Ptp.add_ptp_device, call_ReconfigVM_Task, submit.
    change (reaction (print _ w) (List.length (requests (print _ w))))
      with (next_reaction w).
    rewrite R. cbn [result].
    match goal with
    | |- context [wait_for_task ?t Ptp.default_timeout ?w1] =>
        destruct (wait_for_task_timed_out t Ptp.default_timeout w1) as (V & _ & C);
          [unfold Ptp.default_timeout; lia
          | intros j _; unfold task_of_plan; cbn [delay result];
            destruct (j <? d)%nat; reflexivity
          | destruct (wait_for_task t Ptp.default_timeout w1) as [ok w2] ]
    end.
    cbn [fst snd] in *. subst ok. cbn [snd print clock]. rewrite C.
    unfold Ptp.default_timeout. cbn [clock log print]. lia.
Qed.

Lemma notification_wait_has_no_deadline_witness :
  exists w',
    Notify.set_vm_notification_settings 1000 1%nat (Some 600) (Some true)
      (Scenario.make_world Scenario.three (fun _ => Scenario.hangs)) = Spinning w'.
Proof.
  destruct (proj1 (notification_wait_has_no_deadline 1%nat
                     (Scenario.make_world Scenario.three (fun _ => Scenario.hangs))
                     0%nat eq_refl) 1000%nat (Some 600) (Some true)) as (w' & E & _).
  exists w'. exact E.
Defined.

(** X17.  Writing both settings and reading them back: when the platform
    commits the reconfiguration and settles it within the turns followed,
    [set_vm_notification_settings] returns True,
    [get_vm_notification_settings] then shows exactly the two values
    written, and every other VM reads as before. *)
Theorem written_settings_are_read_back fuel vm w t e :
  (vm < List.length (inventory w))%nat ->
  committed (next_reaction w) = true ->
  settles fuel (next_reaction w) = true ->
  exists w',
    Notify.set_vm_notification_settings fuel vm (Some t) (Some e) w = Returned true w' /\
    Notify.get_vm_notification_settings vm w' =
      {| Notify.get_vmOpNotificationToAppEnabled := Some e;
         Notify.get_vmOpNotificationTimeout := Some t |} /\
    (forall i, i <> vm -> the_vm w' i = the_vm w i).
Proof.
  intros L C Hs.
  destruct (set_settings_sends fuel vm (Some t) (Some e) w) as [_ I].
  destruct (set_settings_returns fuel vm (Some t) (Some e) w Hs) as [w' E].
  rewrite E in I. cbn [world_of] in I. rewrite C in I. unfold commit in I.
  rewrite C in E. exists w'. split; [exact E |]. split.
  - unfold Notify.get_vm_notification_settings, the_vm. rewrite I.
    rewrite nth_update_vm_eq by exact L. reflexivity.
  - intros i Hi. unfold the_vm. rewrite I. apply nth_update_vm_other. exact Hi.
Qed.

Lemma written_settings_are_read_back_witness :
  exists w',
    Notify.set_vm_notification_settings 5 1%nat (Some 600) (Some true) Scenario.all_well
      = Returned true w'.
Proof.
  destruct (written_settings_are_read_back 5%nat 1%nat Scenario.all_well 600 true)
    as (w' & E & _); [vm_compute; lia | reflexivity | reflexivity |].
  exists w'. exact E.
Defined.

Lemma notify_process_all_read fuel args todo results w :
  Notify.read args = true ->
  (forall vm, In vm todo -> (vm < List.length (inventory w))%nat) ->
  exists w',
    Notify.process_all fuel args todo results w =
      Returned
        {| Notify.res_success :=
             Notify.res_success results ++ map (fun vm => name (the_vm w vm)) todo;
           Notify.res_failed := Notify.res_failed results |} w' /\
    trace w' = trace w /\ inventory w' = inventory w.
Proof.
  intros Hr. revert results w. induction todo as [| vm rest IH]; intros results w Hb.
  - simpl. rewrite app_nil_r. destruct results; eauto.
  - cbn [Notify.process_all]. unfold Notify.process_vm. rewrite Hr. cbv zeta.
    unfold Notify.print_settings. cbv beta iota.
    match goal with
    | |- context [Notify.process_all fuel args rest ?r ?w1] => set (W1 := w1)
    end.
    assert (I1 : inventory W1 = inventory w)
      by (unfold W1; rewrite !print_all_inventory; reflexivity).
    assert (T1 : trace W1 = trace w)
      by (unfold W1; rewrite !print_all_trace; reflexivity).
    assert (En : forall v, name (the_vm W1 v) = name (the_vm w v))
      by (intros v; unfold the_vm; rewrite I1; reflexivity).
    match goal with
    | |- context [Notify.process_all fuel args rest ?r W1] =>
        destruct (IH r W1) as (w' & E & T & I);
          [intros v Hv; rewrite I1; apply Hb; right; exact Hv |]
    end.
    exists w'. rewrite E. cbn [Notify.res_success Notify.res_failed map].
    rewrite (map_ext _ _ En), En, <- app_assoc. cbn [app].
    split; [reflexivity | split; congruence].
Qed.

Definition notify_read_args : Notify.Args :=
  {| Notify.vms := ["A"; "B"; "C"]; Notify.read := true; Notify.enable := false;
     Notify.disable := false; Notify.timeout := None;
     Notify.no_confirm := false; Notify.dry_run := false |}.

(** X18.  The read action of the notification script is a read-only
    batch that cannot hang: however few turns of the wait loop are
    followed, and whatever the reply to the confirmation, [main] returns
    with status 0, files every found name under success in the order of
    the list, sends nothing and leaves the inventory as it was. *)
Theorem notify_read_batch_only_reads fuel args reply w :
  Notify.read args = true ->
  Notify.dry_run args = false ->
  found_names w (Notify.vms args) <> [] ->
  exists w',
    Notify.main fuel args reply w =
      Returned (0, Some {| Notify.res_success := found_names w (Notify.vms args);
                           Notify.res_failed := [] |}) w' /\
    since w w' = [] /\ inventory w' = inventory w.
Proof.
  intros Hr Hd Hf. unfold Notify.main. rewrite Hr, Hd. cbv zeta.
  rewrite notify_lookup_vms.
  set (w1 := Ptp.print_all _ w).
  destruct (lookup_vms_todo (Notify.vms args) w1) as (T2 & I2 & M & B).
  assert (Fn : found_names w1 (Notify.vms args) = found_names w (Notify.vms args))
    by apply found_names_print_all.
  rewrite Fn in M.
  destruct (Ptp.lookup_vms (Notify.vms args) [] w1) as [todo w2]. cbn [fst snd] in *.
  assert (T1 : trace w2 = trace w) by (rewrite T2; apply print_all_trace).
  assert (I0 : inventory w1 = inventory w) by apply print_all_inventory.
  destruct (Ptp.is_nil todo) eqn:N.
  { apply is_nil_true in N. subst todo. simpl in M. congruence. }
  rewrite andb_false_r. cbv iota.
  match goal with
  | |- context [Notify.process_all fuel args todo ?init ?w6] =>
      set (W6 := w6); set (Init := init)
  end.
  assert (I6 : inventory W6 = inventory w)
    by (unfold W6; rewrite !print_all_inventory; congruence).
  assert (T6 : trace W6 = trace w)
    by (unfold W6; rewrite !print_all_trace; exact T1).
  destruct (notify_process_all_read fuel args todo Init W6 Hr) as (w7 & E & T & I).
  { intros v Hv. rewrite I6, <- I0. apply B. exact Hv. }
  rewrite E. unfold Init. cbn [Notify.res_success Notify.res_failed app].
  assert (Em : map (fun vm => name (the_vm W6 vm)) todo = found_names w (Notify.vms args)).
  { rewrite <- M. apply map_ext. intros v. unfold the_vm. rewrite I6, I0. reflexivity. }
  rewrite Em. cbn [Ptp.is_nil negb].
  eexists. split; [reflexivity |].
  assert (Q : forall n r X,
            trace (Notify.print_summary n r X) = trace X /\
            inventory (Notify.print_summary n r X) = inventory X).
  { intros n r X. unfold Notify.print_summary. cbv zeta.
    repeat match goal with
           | |- context [Ptp.print_all ?l ?Y] =>
               rewrite (print_all_trace l Y), (print_all_inventory l Y)
           | |- context [if ?c then _ else _] => destruct c
           end; auto. }
  split.
  - apply since_same. rewrite (proj1 (Q _ _ _)), T. exact T6.
  - rewrite (proj2 (Q _ _ _)), I. exact I6.
Qed.

Lemma notify_read_batch_only_reads_witness :
  exists w',
    Notify.main 0 notify_read_args "no" Scenario.all_fail =
      Returned (0, Some {| Notify.res_success :=
                             found_names Scenario.all_fail (Notify.vms notify_read_args);
                           Notify.res_failed := [] |}) w'.
Proof.
  destruct (notify_read_batch_only_reads 0%nat notify_read_args "no"%string
              Scenario.all_fail eq_refl eq_refl) as (w' & E & _); [discriminate |].
  exists w'. exact E.
Defined.

(** ** Instances *)

Lemma get_vm_by_name_first_match_witness :
  name (the_vm Scenario.all_well 0%nat) <> "C"%string /\
  name (the_vm Scenario.all_well 1%nat) <> "Z"%string.
Proof.
  pose proof (proj1 (get_vm_by_name_first_match "C" Scenario.all_well)) as HC.
  pose proof (proj1 (get_vm_by_name_first_match "Z" Scenario.all_well)) as HZ.
  change (Ptp.get_vm_by_name "C" Scenario.all_well) with (Some 2%nat) in HC.
  change (Ptp.get_vm_by_name "Z" Scenario.all_well) with (@None VmRef) in HZ.
  cbv beta iota in HC, HZ. destruct HC as (_ & _ & HC).
  split.
  - apply (HC 0%nat). lia.
  - apply (HZ 1%nat). vm_compute. lia.
Defined.

